(** * FBL3N item update engine: a shallow embedding of [server/engine/fbl3n.py]

    The module drives an SAP GUI session through the scripting API.  The
    session is an external system, so it is modelled by what the code can
    observe of it: every call that changes the screen is appended to a
    history, and everything the code reads back (field counts, the status
    bar, grid cells) is an oracle over that history.  A call may be refused
    by the session, which surfaces in Python as a COM exception.

    Python strings are modelled as sequences of code points below 256 (one
    [ascii] per code point); [str.isnumeric] and [str.strip] are written out
    for that range.  The request dictionary is a [gmap] from the old text to
    its entry. *)

From Stdlib Require Import String Ascii List ZArith Lia Bool DecimalString.
From Stdlib Require DecimalPos.
From stdpp Require Import base option list gmap strings.

Local Open Scope Z_scope.
Local Open Scope stdpp_scope.

(** ** Python string operations *)
Module PyStr.

Definition code (c : ascii) : nat := nat_of_ascii c.

(** [c.isnumeric()] for a code point below 256: the decimal digits, the
    superscripts one to three and the three vulgar fractions. *)
Definition isnumeric_char (c : ascii) : bool :=
  let n := code c in
  ((48 <=? n) && (n <=? 57))%nat
  || (n =? 178)%nat || (n =? 179)%nat || (n =? 185)%nat
  || (n =? 188)%nat || (n =? 189)%nat || (n =? 190)%nat.

Fixpoint all_numeric (s : string) : bool :=
  match s with
  | EmptyString => true
  | String c s' => isnumeric_char c && all_numeric s'
  end.

(** [s.isnumeric()]: at least one character and all of them numeric. *)
Definition isnumeric (s : string) : bool :=
  match s with
  | EmptyString => false
  | String _ _ => all_numeric s
  end.

Definition is_decimal_digit (c : ascii) : bool :=
  ((48 <=? code c) && (code c <=? 57))%nat.

Fixpoint all_decimal (s : string) : bool :=
  match s with
  | EmptyString => true
  | String c s' => is_decimal_digit c && all_decimal s'
  end.

Fixpoint all_below_128 (s : string) : bool :=
  match s with
  | EmptyString => true
  | String c s' => (code c <? 128)%nat && all_below_128 s'
  end.

(** [c.isspace()] for a code point below 256. *)
Definition isspace (c : ascii) : bool :=
  let n := code c in
  ((9 <=? n) && (n <=? 13))%nat || ((28 <=? n) && (n <=? 32))%nat
  || (n =? 133)%nat || (n =? 160)%nat.

Fixpoint lstrip (s : string) : string :=
  match s with
  | EmptyString => EmptyString
  | String c s' => if isspace c then lstrip s' else s
  end.

Definition rstrip (s : string) : string := String.rev (lstrip (String.rev s)).

(** [s.strip()] *)
Definition strip (s : string) : string := rstrip (lstrip s).

(** [sub in s] *)
Fixpoint contains (sub s : string) : bool :=
  String.prefix sub s
  || match s with
     | EmptyString => false
     | String _ s' => contains sub s'
     end.

(** [sep.join(xs)] *)
Fixpoint join (sep : string) (xs : list string) : string :=
  match xs with
  | [] => EmptyString
  | [x] => x
  | x :: xs' => x +:+ sep +:+ join sep xs'
  end.

Definition crlf : string :=
  String (ascii_of_nat 13) (String (ascii_of_nat 10) EmptyString).

Definition len (s : string) : nat := String.length s.


End PyStr.

(** ** The session, the exceptions and the monad of the engine *)
Module Fbl3n.
Import PyStr.

(** Calls of the scripting API that act on the screen. *)
Inductive call : Type :=
| SendVKey (vkey : Z)                      (* _main_wnd.SendVKey(vkey) *)
| SetText (name type value : string)       (* findByName(name, type).text = value *)
| Press (wnd name : string)                (* findByName(name, "GuiButton").press() *)
| SelectRadio (name : string)              (* FindByName(name, "GuiRadioButton").Select() *)
| FilterSelectedRows (idx : nat)           (* filters.selectedRows = idx *)
| SelectedRows (idx : nat)                 (* tbl.selectedRows = idx *)
| CurrentCellRow (idx : nat).              (* tbl.currentCellRow = idx *)

(** What the session shows, as a function of the calls made so far. *)
Record gui : Type := {
  accepts : list call -> call -> bool;
  find_count : list call -> string -> string -> nat;
  status_text : list call -> option string;
  filter_fields : list call -> list string;
  grid_rows : list call -> list (string * string)
}.

Inductive exn : Type :=
| ValueError (msg : string)
| KeyError (key : string)
| ItemLoadingError (msg : string)
| NoItemsFoundWarning (msg : string)
| NoItemsFoundError (msg : string)
| UninitializedModuleError (msg : string)
| SapConnectionLostError (msg : string)
| ComError.

(** Module globals ([_sess] bound or not), the calls made on the session
    and the contents of the system clipboard. *)
Record world : Type := {
  sess : bool;
  history : list call;
  clipboard : string
}.

Inductive result (A : Type) : Type :=
| Ok (a : A)
| Raise (e : exn).
Arguments Ok {A} a.
Arguments Raise {A} e.

Definition M (A : Type) : Type := world -> result A * world.

#[global] Instance M_ret : MRet M := fun A a w => (Ok a, w).

#[global] Instance M_bind : MBind M := fun A B f m w =>
  match m w with
  | (Ok a, w') => f a w'
  | (Raise e, w') => (Raise e, w')
  end.

#[global] Instance M_throw : MThrow exn M := fun A e w => (Raise e, w).

(** [try: m  except Exception as exc: h exc] *)
Definition try_except {A} (m : M A) (h : exn -> M A) : M A := fun w =>
  match m w with
  | (Ok a, w') => (Ok a, w')
  | (Raise e, w') => h e w'
  end.

(** [for x in xs: s = body x s] *)
Fixpoint for_each {A S} (xs : list A) (body : A -> S -> M S) (s : S) : M S :=
  match xs with
  | [] => mret s
  | x :: xs' => s' ← body x s; for_each xs' body s'
  end.

(** A grid object of the session, named by its path. *)
Definition handle : Type := string.

(** One value of the request dictionary; [message] is [None] while the
    inner dictionary has no such key. *)
Record entry : Type := {
  new_text : option string;
  new_assignment : option string;
  message : option string
}.

Definition with_message (m : string) (e : entry) : entry :=
  {| new_text := new_text e; new_assignment := new_assignment e; message := Some m |}.

(** Account numbers arrive as integers or as strings. *)
Inductive account : Type :=
| AccInt (n : N)
| AccStr (s : string).

Definition str (a : account) : string :=
  match a with
  | AccInt n => NilEmpty.string_of_uint (N.to_uint n)
  | AccStr s => s
  end.

Definition is_not_none (o : option string) : bool :=
  match o with Some _ => true | None => false end.

(** [o == s] for a value that is a string or [None]. *)
Definition py_eq (o : option string) (s : string) : bool :=
  match o with Some t => String.eqb t s | None => false end.

(** [str(o)] for a value that is a string or [None]. *)
Definition str_opt (o : option string) : string :=
  match o with Some t => t | None => "None" end.

Definition _virtual_keys : list (string * Z) :=
  [ ("Enter", 0); ("F2", 2); ("F3", 3); ("F4", 4); ("F6", 6); ("F8", 8);
    ("F9", 9); ("CtrlS", 11); ("F12", 12); ("ShiftF1", 13); ("ShiftF2", 14);
    ("ShiftF4", 16); ("ShiftF12", 24); ("CtrlF1", 25); ("CtrlF8", 32);
    ("CtrlShiftF2", 38); ("CtrlShiftF6", 42) ].

Fixpoint assoc (k : string) (l : list (string * Z)) : option Z :=
  match l with
  | [] => None
  | (k', v) :: l' => if String.eqb k k' then Some v else assoc k l'
  end.

(** The world after one more call on the session. *)
Definition log_call (c : call) (w : world) : world :=
  {| sess := sess w; history := history w ++ [c]; clipboard := clipboard w |}.

(** The world after the two calls by which [_get_item_params] selects
    the row [idx] of the item table. *)
Definition row_selected (idx : nat) (w : world) : world :=
  log_call (CurrentCellRow idx) (log_call (SelectedRows idx) w).

(** The world after further calls [cs], made in that order. *)
Definition after_calls (cs : list call) (w : world) : world :=
  {| sess := sess w; history := history w ++ cs; clipboard := clipboard w |}.

(** A session that refuses no call. *)
Definition responsive (g : gui) : Prop :=
  forall h c, accepts g h c = true.

Section Engine.
Variable g : gui.

(** *** Primitive interactions *)

Definition perform (c : call) : M unit := fun w =>
  if accepts g (history w) c
  then (Ok tt, log_call c w)
  else (Raise ComError, w).

(** [findAllByName(name, type).count] *)
Definition find_all_count (name type : string) : M nat := fun w =>
  (Ok (find_count g (history w) name type), w).

(** [_stat_bar.Text] *)
Definition stat_bar_text : M string := fun w =>
  match status_text g (history w) with
  | Some s => (Ok s, w)
  | None => (Raise ComError, w)
  end.

(** [tbl.RowCount] of the item grid *)
Definition row_count (tbl : handle) : M nat := fun w =>
  (Ok (length (grid_rows g (history w))), w).

(** [tbl.GetCellValue(idx, column)] of the item grid *)
Definition get_cell_value (tbl : handle) (idx : nat) (column : string) : M string := fun w =>
  match grid_rows g (history w) !! idx with
  | Some (text, assignment) =>
      if String.eqb column "SGTXT" then (Ok text, w)
      else if String.eqb column "ZUONR" then (Ok assignment, w)
      else (Raise ComError, w)
  | None => (Raise ComError, w)
  end.

(** [pyperclip.copy(s)] *)
Definition copy_to_clipboard (s : string) : M unit := fun w =>
  (Ok tt, {| sess := sess w; history := history w; clipboard := s |}).

(** [d[k]] *)
Definition getitem (d : gmap string entry) (k : string) : M entry :=
  match d !! k with
  | Some e => mret e
  | None => mthrow (KeyError k)
  end.

(** [d[k]["message"] = m] *)
Definition set_message (k m : string) (d : gmap string entry) : M (gmap string entry) :=
  e ← getitem d k;
  mret (<[k := with_message m e]> d).

(** [d[k]["message"]] *)
Definition get_message (k : string) (d : gmap string entry) : M string :=
  e ← getitem d k;
  match message e with
  | Some m => mret m
  | None => mthrow (KeyError "message")
  end.

(** [d[k]["message"] += m] *)
Definition add_message (k m : string) (d : gmap string entry) : M (gmap string entry) :=
  old ← get_message k d;
  set_message k (old +:+ m) d.

(** [d[k]["message"] = d[k]["message"].strip()] *)
Definition strip_message (k : string) (d : gmap string entry) : M (gmap string entry) :=
  old ← get_message k d;
  set_message k (strip old) d.

(** *** The procedures of the module *)

Definition _clear_clipboard : M unit := copy_to_clipboard "".

Definition _press_key (name : string) : M unit :=
  match assoc name _virtual_keys with
  | Some vkey => perform (SendVKey vkey)
  | None => mthrow (KeyError name)
  end.

Definition _set_text (val : string) : M unit :=
  if (50 <? len val)%nat then
    mthrow (ValueError ("The length of the entered value '" +:+ val +:+ "' exceeds "
                        +:+ "the allowed maximum of 50 chars for this field!"))
  else perform (SetText "BSEG-SGTXT" "GuiCTextField" val).

Definition _set_assignment (val : string) : M unit :=
  n ← find_all_count "BSEG-ZUONR" "GuiTextField";
  if (n =? 0)%nat then mret tt
  else if (18 <? len val)%nat then
    mthrow (ValueError ("The length of the entered value '" +:+ val +:+ "' "
                        +:+ "exceeds the allowed maximum of 18 chars for this field!"))
  else perform (SetText "BSEG-ZUONR" "GuiTextField" val).

Definition _set_layout (val : string) : M unit :=
  perform (SetText "PA_VARI" "GuiCTextField" val).

Definition _set_worklist (val : string) : M unit :=
  perform (SetText "PA_WLSAK" "GuiCTextField" val).

Definition _set_company_code (val : string) : M unit :=
  if negb (String.eqb val "" || ((len val =? 4)%nat && isnumeric val)) then
    mthrow (ValueError ("Company code has incorrect value: '" +:+ val +:+ "'!"))
  else
    n ← find_all_count "SD_BUKRS-LOW" "GuiCTextField";
    if (0 <? n)%nat then perform (SetText "SD_BUKRS-LOW" "GuiCTextField" val)
    else
      m ← find_all_count "SO_WLBUK-LOW" "GuiCTextField";
      if (0 <? m)%nat then perform (SetText "SO_WLBUK-LOW" "GuiCTextField" val)
      else mret tt.

(** The validation loop of [_set_accounts]. *)
Fixpoint check_accounts (vals : list account) : M unit :=
  match vals with
  | [] => mret tt
  | val :: vals' =>
      if negb (isnumeric (str val)) then
        mthrow (ValueError ("Invalid account number: " +:+ str val +:+ "!"))
      else check_accounts vals'
  end.

Definition _set_accounts (vals : list account) : M unit :=
  if (length vals =? 0)%nat then mthrow (ValueError "No G/L accounts found!")
  else
    check_accounts vals;;
    perform (Press "wnd[0]" "%_SD_SAKNR_%_APP_%-VALU_PUSH");;
    let accs := map str vals in
    _press_key "ShiftF4";;
    copy_to_clipboard (join crlf accs);;
    _press_key "ShiftF12";;
    _clear_clipboard;;
    _press_key "F8".

Definition _set_line_items_selection (status : string) : M unit :=
  obj_name ←
    (if String.eqb status "open" then mret "X_OPSEL"
     else if String.eqb status "cleared" then mret "X_CLSEL"
     else if String.eqb status "all" then mret "X_AISEL"
     else mthrow (ValueError ("Unrecognized item status: '" +:+ status +:+ "'")));
  perform (SelectRadio obj_name).

Definition _toggle_worklist (activate : bool) : M unit :=
  n ← find_all_count "PA_WLSAK" "GuiCTextField";
  let used := negb (n =? 0)%nat in
  if (activate && negb used) || (negb activate && used)
  then _press_key "CtrlF1"
  else mret tt.

Definition _add_filter_criterion : M unit :=
  perform (Press "wnd[1]" "APP_WL_SING").

Definition _get_filter_list : M handle := mret "wnd[1]/shell(1)".

(** The FIELDNAME column of the list of unused filters. *)
Definition filter_field_names (filters : handle) : M (list string) := fun w =>
  (Ok (filter_fields g (history w)), w).

Definition _set_filter (vals : list string) (fld_tech_name : string) : M unit :=
  _press_key "CtrlShiftF2";;
  _press_key "CtrlShiftF6";;
  filters ← _get_filter_list;
  names ← filter_field_names filters;
  match list_find (fun name => String.eqb name fld_tech_name = true) names with
   | Some (row_idx, _) =>
       perform (FilterSelectedRows row_idx);;
       _add_filter_criterion
   | None => mret tt
   end;;
  perform (Press "wnd[1]" "600_BUTTON");;
  perform (Press "wnd[2]" "%_%%DYN001_%_APP_%-VALU_PUSH");;
  copy_to_clipboard (join crlf vals);;
  _press_key "ShiftF12";;
  _clear_clipboard;;
  _press_key "F8";;
  _press_key "Enter".

Definition _load_items : M handle :=
  try_except (_press_key "F8")
    (fun _ => mthrow (ItemLoadingError "Could not load account data!"));;
  msg ← try_except stat_bar_text
    (fun _ => mthrow (SapConnectionLostError "Connection to SAP lost!"));
  if contains "No items selected" msg then
    mthrow (NoItemsFoundWarning "No items found using your selection criteria!")
  else if negb (contains "items displayed" msg) then
    mthrow (ItemLoadingError msg)
  else
    mret "usr/cntlGRID1/shellcont/shell/shellcont[1]/shell".

Definition _get_item_params (tbl : handle) (idx : nat) : M (string * string) :=
  perform (SelectedRows idx);;
  perform (CurrentCellRow idx);;
  text ← get_cell_value tbl idx "SGTXT";
  assignment ← get_cell_value tbl idx "ZUONR";
  mret (text, assignment).

Definition _check_prerequisities : M unit := fun w =>
  if sess w then (Ok tt, w)
  else (Raise (UninitializedModuleError
                 ("Uninitialized module! Use the start() "
                  +:+ "procedure to run the transaction first!")), w).

Definition default_message : string := "Document not found on the account!".

(** [for itm in output: output[itm]["message"] = default_message] *)
Definition write_default_messages (output : gmap string entry) : gmap string entry :=
  with_message default_message <$> output.

(** [list(parameters.keys())]; the enumeration order of the map stands
    for the insertion order of the dictionary. *)
Definition keys (parameters : gmap string entry) : list string :=
  (map_to_list parameters).*1.

(** One pass of the loop over the rows of the item table (the body of
    [for idx in range(0, item_table.RowCount)]). *)
Definition update_item (parameters : gmap string entry) (item_table : handle)
    (idx : nat) (output : gmap string entry) : M (gmap string entry) :=
  let text_differs := true in
  let assign_differs := true in
  '(old_text, old_assign) ← _get_item_params item_table idx;
  p ← getitem parameters old_text;
  let new_text := new_text p in
  q ← getitem parameters old_text;
  let new_assign := new_assignment q in
  output ← set_message old_text "" output;
  '(output, text_differs) ←
    (if is_not_none new_text && py_eq new_text old_text then
       output ← add_message old_text "Text aready contains the desired value. " output;
       mret (output, false)
     else mret (output, text_differs));
  '(output, assign_differs) ←
    (if is_not_none new_assign && py_eq new_assign old_assign then
       output ← add_message old_text "Assignment aready contains the desired value. " output;
       mret (output, false)
     else mret (output, assign_differs));
  if negb (text_differs || assign_differs) then
    strip_message old_text output
  else
    _press_key "ShiftF2";;
    _press_key "ShiftF1";;
    output ←
      (if is_not_none new_text && text_differs then
         _set_text (str_opt new_text);;
         add_message old_text "Text updated. " output
       else mret output);
    output ←
      (if is_not_none new_assign && assign_differs then
         _set_assignment (str_opt new_assign);;
         add_message old_text "Assignment updated. " output
       else mret output);
    output ← strip_message old_text output;
    _press_key "CtrlS";;
    mret output.

(** Lines 494-501: the selection on the main mask and the loading. *)
Definition select_and_load (accounts : list account) (company_code : string)
    (status layout : string) : M handle :=
  _check_prerequisities;;
  _toggle_worklist false;;
  _set_company_code company_code;;
  _set_layout layout;;
  _set_accounts accounts;;
  _set_line_items_selection status;;
  _load_items.

(** Lines 504-556: the check of the filtered table and the update loop. *)
Definition update_items (parameters : gmap string entry) (item_table : handle)
    : M (gmap string entry) :=
  n ← row_count item_table;
  if (n =? 0)%nat then
    _press_key "F3";;
    mthrow (NoItemsFoundError ("Filtering on the searched text "
                               +:+ "values returned no results!"))
  else
    let output := parameters in
    let output := write_default_messages output in
    n ← row_count item_table;
    output ← for_each (seq 0 n) (update_item parameters item_table) output;
    _press_key "F3";;
    mret output.

Definition change_document_parameters (accounts : list account) (company_code : string)
    (parameters : gmap string entry) (status layout : string) : M (gmap string entry) :=
  item_table ← select_and_load accounts company_code status layout;
  _set_filter (keys parameters) "SGTXT";;
  update_items parameters item_table.

End Engine.
End Fbl3n.

(** ** The guard of [controller.modify_accounting_parameters] *)
Module Controller.
Import PyStr.

(** The check of the company code made before the engine is started. *)
Definition check_company_code (cocd : string) : Fbl3n.result unit :=
  if negb ((len cocd =? 4)%nat && isnumeric cocd) then
    Fbl3n.Raise (Fbl3n.ValueError ("Incorrect company code: " +:+ cocd))
  else Fbl3n.Ok tt.

End Controller.

(** ** Concrete sessions used by the examples *)
Module Scenario.
Import Fbl3n.

Definition world0 : world := {| sess := true; history := []; clipboard := "" |}.

Definition req (t a : option string) : entry :=
  {| new_text := t; new_assignment := a; message := Some "" |}.

(** A session on the main mask of FBL3N that accepts every call, shows
    the standard company code field and the assignment field, reports a
    successful load and displays the given rows. *)
Definition session (rows : list (string * string)) : gui := {|
  accepts := fun _ _ => true;
  find_count := fun _ name _ =>
    if String.eqb name "SD_BUKRS-LOW" then 1%nat
    else if String.eqb name "BSEG-ZUONR" then 1%nat
    else 0%nat;
  status_text := fun _ => Some "2 items displayed";
  filter_fields := fun _ => ["BUDAT"; "SGTXT"; "ZUONR"];
  grid_rows := fun _ => rows
|}.

Definition requests : gmap string entry :=
  <["OLDA" := req (Some "NEWA") None]>
    (<["OLDB" := req None (Some "ASG1")]>
       (<["OLDC" := req (Some "OLDC") None]> ∅)).

Definition rows : list (string * string) := [("OLDA", "X"); ("OLDC", "Y")].

Definition run : result (gmap string entry) * world :=
  change_document_parameters (session rows) [AccInt 12345678] "0075" requests "open" "" world0.

Definition is_enter (c : call) : bool :=
  match c with
  | SendVKey 0 => true
  | _ => false
  end.

(** A session like [session], except that the rows disappear from the
    grid once a filter has been confirmed with Enter. *)
Definition filtered_out_session (rows : list (string * string)) : gui := {|
  accepts := fun _ _ => true;
  find_count := find_count (session rows);
  status_text := fun _ => Some "1 items displayed";
  filter_fields := fun _ => ["BUDAT"; "SGTXT"; "ZUONR"];
  grid_rows := fun h => if existsb is_enter h then [] else rows
|}.

Definition grid_path : handle := "usr/cntlGRID1/shellcont/shell/shellcont[1]/shell".

(** The world in which [filtered_out_session rows] has loaded the items,
    and the one in which it has filtered them. *)
Definition w_loaded : world :=
  (select_and_load (filtered_out_session rows) [AccInt 12345678] "0075" "open" "" world0).2.

Definition w_filtered : world :=
  (_set_filter (filtered_out_session rows) (keys requests) "SGTXT" w_loaded).2.

(** Requests that ask for nothing for the row ("OLDC","Y"). *)
Definition null_requests : gmap string entry :=
  <["OLDC" := req None None]> ∅.

Definition long_text : string :=
  "012345678901234567890123456789012345678901234567890".

Definition long_assignment : string := "0123456789012345678".

Definition message_of (k : string) (r : result (gmap string entry)) : option string :=
  match r with
  | Ok out => e ← out !! k; message e
  | Raise _ => None
  end.

End Scenario.

(** ** Vocabulary of the statements *)
Module Outcome.
Import Fbl3n.

(** [d'] has the keys of [d], with the requested values unchanged and a
    message wherever [d] had one. *)
Definition keeps (d d' : gmap string entry) : Prop :=
  forall k,
    match d !! k, d' !! k with
    | Some e, Some e' =>
        new_text e' = new_text e /\ new_assignment e' = new_assignment e
        /\ (is_Some (message e) -> is_Some (message e'))
    | None, None => True
    | _, _ => False
    end.




End Outcome.

(** ** What one pass of the update loop amounts to *)
Module RowSpec.
Import Fbl3n.

(** The request gives a value and the row already shows it. *)
Definition same (requested : option string) (current : string) : bool :=
  is_not_none requested && py_eq requested current.

(** The request gives a value and the row shows another one. *)
Definition differs (requested : option string) (current : string) : bool :=
  is_not_none requested && negb (py_eq requested current).

(** The phrases of the message of a row, before trimming. *)
Definition row_phrases (p : entry) (text assignment : string) : string :=
  (if same (new_text p) text then "Text aready contains the desired value. " else "")
  +:+ (if same (new_assignment p) assignment
       then "Assignment aready contains the desired value. " else "")
  +:+ (if differs (new_text p) text then "Text updated. " else "")
  +:+ (if differs (new_assignment p) assignment then "Assignment updated. " else "").

(** The calls of a pass over the row [idx], on a screen that shows the
    assignment field. *)
Definition row_calls (p : entry) (text assignment : string) (idx : nat) : list call :=
  [SelectedRows idx; CurrentCellRow idx]
  ++ (if same (new_text p) text && same (new_assignment p) assignment then []
      else [SendVKey 14; SendVKey 13]
           ++ (if differs (new_text p) text
               then [SetText "BSEG-SGTXT" "GuiCTextField" (str_opt (new_text p))] else [])
           ++ (if differs (new_assignment p) assignment
               then [SetText "BSEG-ZUONR" "GuiTextField" (str_opt (new_assignment p))] else [])
           ++ [SendVKey 11]).

(** A computation that leaves the module state and the clipboard alone
    and only adds calls to the history. *)
Definition appends {A} (m : M A) : Prop :=
  forall w r w',
    m w = (r, w') ->
    sess w' = sess w /\ clipboard w' = clipboard w
    /\ exists cs, history w' = history w ++ cs.

(** A computation whose only failures are calls refused by the session. *)
Definition fails_only_by_refusal {A} (m : M A) : Prop :=
  forall w e w', m w = (Raise e, w') -> e = ComError.

End RowSpec.

(** ** Further sessions used by the examples *)
Module Fixtures.
Import Fbl3n.

(** A session that has been lost: it refuses every call and its status
    bar cannot be read. *)
Definition lost_session : gui := {|
  accepts := fun _ _ => false;
  find_count := fun _ _ _ => 0%nat;
  status_text := fun _ => None;
  filter_fields := fun _ => [];
  grid_rows := fun _ => []
|}.

(** A session on a screen without the company code fields and without
    the assignment field, whose list of filter criteria lacks the text. *)
Definition bare_session (rows : list (string * string)) : gui := {|
  accepts := fun _ _ => true;
  find_count := fun _ _ _ => 0%nat;
  status_text := fun _ => Some "1 items displayed";
  filter_fields := fun _ => ["BUDAT"; "ZUONR"];
  grid_rows := fun _ => rows
|}.

Definition unbound_world : world := {| sess := false; history := []; clipboard := "" |}.

(** Requests for the row ("OLDA","X"): a new text and a new assignment, a
    text longer than the field, an assignment longer than the field, and a
    new assignment alone. *)
Definition both_requests : gmap string entry :=
  <["OLDA" := Scenario.req (Some "NEWA") (Some "ASG1")]> ∅.

Definition long_text_requests : gmap string entry :=
  <["OLDA" := Scenario.req (Some Scenario.long_text) None]> ∅.

Definition long_assignment_requests : gmap string entry :=
  <["OLDA" := Scenario.req (Some "NEWA") (Some Scenario.long_assignment)]> ∅.


(** A session like [Scenario.session] that refuses to open the filter
    dialog (Ctrl+Shift+F2), and a world whose clipboard is in use. *)
Definition is_filter_key (c : call) : bool :=
  match c with
  | SendVKey 38 => true
  | _ => false
  end.

Definition no_filter_session : gui := {|
  accepts := fun _ c => negb (is_filter_key c);
  find_count := find_count (Scenario.session []);
  status_text := fun _ => Some "1 items displayed";
  filter_fields := fun _ => ["BUDAT"; "SGTXT"; "ZUONR"];
  grid_rows := fun _ => []
|}.

Definition used_clipboard : world :=
  {| sess := true; history := []; clipboard := "copied before" |}.









End Fixtures.

(** * The controller: [server/engine/controller.py] *)

(** ** The user data *)
Module UserInput.
Import PyStr Fbl3n.

(** One record of the user data: the columns old_text, new_text and
    new_assignment of a row, [None] for a missing value. *)
Record user_row : Type := {
  row_old_text : option string;
  row_new_text : option string;
  row_new_assignment : option string
}.

Definition processing_entry (rec : user_row) : entry :=
  {| new_text := row_new_text rec;
     new_assignment := row_new_assignment rec;
     message := Some "" |}.

(** [result.update({rec["old_text"]: {...}})] for every record, in order. *)
Definition _generate_processing_input (records : list user_row)
    : gmap (option string) entry :=
  foldl (fun result rec => <[row_old_text rec := processing_entry rec]> result) ∅ records.

Definition ACCOUNT_TYPE_CUSTOMER : string := "customer".
Definition ACCOUNT_TYPE_GENERAL_LEDGER : string := "general_lenger".

(** [str(acc)] for a value of the account column: an unsigned integer,
    or [None], which [_convert_user_data] puts in the place of a missing
    value (line 243). *)
Definition account_str (acc : option N) : string :=
  match acc with
  | Some n => NilEmpty.string_of_uint (N.to_uint n)
  | None => "None"
  end.

Definition combine_error : string := "Cannot combine customer and GL accounts in data!".

(** The validation of the accounts at the end of [get_user_input]: the
    account type and the error message it leaves in the result. *)
Definition validate_accounts (accs : list (option N)) : option string * option string :=
  let acc_lens : gset nat := list_to_set (map (fun acc => len (account_str acc)) accs) in
  if (1 <? size acc_lens)%nat then (None, Some combine_error)
  else if decide (acc_lens = {[7%nat]}) then (Some ACCOUNT_TYPE_CUSTOMER, None)
  else if decide (acc_lens = {[8%nat]}) then (Some ACCOUNT_TYPE_GENERAL_LEDGER, None)
  else (None, Some combine_error).

End UserInput.

(** ** The name of the log file *)
Module Logs.
Import PyStr.

Fixpoint zeros (n : nat) : string :=
  match n with
  | O => EmptyString
  | S n' => String "0" (zeros n')
  end.

(** [s.zfill(width)] *)
Definition zfill (width : nat) (s : string) : string :=
  if (width <=? len s)%nat then s
  else
    match s with
    | String c s' =>
        if Ascii.eqb c "+" || Ascii.eqb c "-"
        then String c (zeros (width - len s) +:+ s')
        else zeros (width - len s) +:+ s
    | EmptyString => zeros width
    end.

Section LogPath.
(** The file system ([os.path.isfile], [os.path.join]) and the date of the
    day as [strftime] prints it. *)
Variable isfile : string -> bool.
Variable join : string -> string -> string.
Variable date_tag : string.

Definition log_path (log_dir : string) (nth : nat) : string :=
  let nth_file := zfill 3 (NilEmpty.string_of_uint (Nat.to_uint nth)) in
  let log_name := date_tag +:+ "_" +:+ nth_file +:+ ".log" in
  join log_dir log_name.

(** The loop of [_compile_log_path], entered with the counter at [nth]
    and bounded by [fuel] passes. *)
Fixpoint search_log_path (fuel : nat) (log_dir : string) (nth : nat) : option string :=
  match fuel with
  | O => None
  | S fuel' =>
      let nth := S nth in
      if negb (isfile (log_path log_dir nth)) then Some (log_path log_dir nth)
      else search_log_path fuel' log_dir nth
  end.

Definition _compile_log_path (fuel : nat) (log_dir : string) : option string :=
  search_log_path fuel log_dir 0.

End LogPath.
End Logs.

(** * The report: [server/engine/report.py] *)
Module Report.
Import PyStr.

(** Text as a sequence of code points. *)
Definition text : Type := list Z.

Definition of_string (s : string) : text :=
  map (fun c => Z.of_nat (nat_of_ascii c)) (String.list_ascii_of_string s).

(** [str(n)] for an integer. *)
Definition str_int (n : Z) : text := of_string (NilZero.string_of_int (Z.to_int n)).

(** [max(xs)] for a list that is not empty. *)
Definition py_max (xs : list Z) : Z :=
  match xs with
  | [] => 0
  | x :: xs' => foldl Z.max x xs'
  end.

(** The lengths of the values of a column that are not missing. *)
Definition value_lengths (vals : list (option Fbl3n.account)) : list Z :=
  omap (fun v => (fun c => Z.of_nat (len (Fbl3n.str c))) <$> v) vals.

Definition _get_col_width (vals : list (option Fbl3n.account)) (col_name : string)
    (add_width : Z) : Z :=
  let alpha := 1 in
  let data_vals := value_lengths vals in
  let data_vals := data_vals ++ [Z.of_nat (len col_name)] in
  py_max data_vals + alpha + add_width.

(** A column given by its name or by its position. *)
Inductive column : Type :=
| ColName (name : string)
| ColIdx (idx : Z).

Definition column_eqb (c1 c2 : column) : bool :=
  match c1, c2 with
  | ColName a, ColName b => String.eqb a b
  | ColIdx i, ColIdx j => Z.eqb i j
  | _, _ => false
  end.

(** What [_col_to_rng] ends with: a range, the [KeyError] of a name that
    is no column, the exception of [chr], or the failed assertion. *)
Inductive rng_result : Type :=
| Rng (rng : text)
| RngKeyError (name : string)
| RngChrError
| RngAssertionError.

(** [chr(n)]; [None] when it raises, which is [ValueError] outside the
    code points and [OverflowError] outside the range of a C int. *)
Definition chr (n : Z) : option Z :=
  if (0 <=? n) && (n <=? 1114111) then Some n else None.

Section ColumnRange.
(** [data.columns.get_loc(name)]: the position of a column, [None] for a
    name that is not a column. *)
Variable get_loc : string -> option Z.

Definition col_index (col : column) : Z + string :=
  match col with
  | ColName name =>
      match get_loc name with
      | Some idx => inl idx
      | None => inr name
      end
  | ColIdx idx => inl idx
  end.

(** The letters of a column position, as lines 81-87 and 100-106 compute
    them; [None] when [chr] raises. *)
Definition letters (col_idx : Z) : option text :=
  let col_idx := col_idx + 1 in
  let prim_lett_idx := col_idx / 26 in
  let sec_lett_idx := col_idx mod 26 in
  lett_a ← (if negb (prim_lett_idx =? 0) then (fun c => [c]) <$> chr (64 + prim_lett_idx)
            else Some []);
  lett_b ← (if negb (sec_lett_idx =? 0) then (fun c => [c]) <$> chr (64 + sec_lett_idx)
            else Some []);
  Some (lett_a ++ lett_b).

Definition colon : text := [58].

Definition _col_to_rng (first_col last_col : column) (row last_row : Z) : rng_result :=
  match col_index first_col with
  | inr name => RngKeyError name
  | inl first_col_idx =>
      match letters first_col_idx with
      | None => RngChrError
      | Some lett =>
          let last :=
            if column_eqb last_col (ColName "") then Rng lett
            else
              match col_index last_col with
              | inr name => RngKeyError name
              | inl last_col_idx =>
                  match letters last_col_idx with
                  | None => RngChrError
                  | Some last_lett => Rng last_lett
                  end
              end in
          match last with
          | Rng last_lett =>
              if row =? -1 then Rng (lett ++ colon ++ last_lett)
              else if column_eqb first_col last_col && negb (row =? -1) && (last_row =? -1)
              then Rng (lett ++ str_int row)
              else if column_eqb first_col last_col && negb (row =? -1)
                      && negb (last_row =? -1)
              then Rng ((lett ++ str_int row) ++ colon ++ (lett ++ str_int last_row))
              else if negb (column_eqb first_col last_col) && negb (row =? -1)
                      && (last_row =? -1)
              then Rng ((lett ++ str_int row) ++ colon ++ (last_lett ++ str_int row))
              else if negb (column_eqb first_col last_col) && negb (row =? -1)
                      && negb (last_row =? -1)
              then Rng ((lett ++ str_int row) ++ colon ++ (last_lett ++ str_int last_row))
              else RngAssertionError
          | failure => failure
          end
      end
  end.

End ColumnRange.
End Report.

(** * Starting and closing the transaction *)
Module Lifecycle.
Import PyStr Fbl3n.

(** The calls made on a session: those of the screens of the transaction,
    and the ones that start it, end it and press a button of a dialog; and
    the removal of a file ([os.remove]), which changes the file system. *)
Inductive scall : Type :=
| Screen (c : call)
| StartTransaction (tcode : string)
| EndTransaction
| ButtonPress (child grandchild : nat)
| RemoveFile (path : string).

(** A session: what it accepts and shows, as functions of the calls made
    so far.  The children of the active window are given by the type and
    the text of each of their own children. *)
Record session : Type := {
  allows : list scall -> scall -> bool;
  window_type : list scall -> string;
  window_text : list scall -> string;
  window_children : list scall -> list (list (string * string));
  counts : list scall -> string -> string -> nat;
  status_bar : list scall -> option string;
  filters : list scall -> list string;
  shown_rows : list scall -> list (string * string)
}.

Inductive lexn : Type :=
| Exn (e : exn)
| UnboundLocalError (msg : string)
| AttributeError
| TypeError (msg : string)
| FolderNotFoundError (msg : string)
| OSError (msg : string).

(** The globals of the module ([_sess], and with it [_main_wnd] and
    [_stat_bar]), the calls made and the clipboard. *)
Record lstate : Type := {
  _sess : option session;
  calls : list scall;
  clip : string
}.

Inductive lresult (A : Type) : Type :=
| LOk (a : A)
| LRaise (e : lexn).
Arguments LOk {A} a.
Arguments LRaise {A} e.

Definition LM (A : Type) : Type := lstate -> lresult A * lstate.

#[global] Instance LM_ret : MRet LM := fun A a st => (LOk a, st).

#[global] Instance LM_bind : MBind LM := fun A B f m st =>
  match m st with
  | (LOk a, st') => f a st'
  | (LRaise e, st') => (LRaise e, st')
  end.

#[global] Instance LM_throw : MThrow lexn LM := fun A e st => (LRaise e, st).

(** [try: m  finally: fin]; an exception of [fin] replaces the outcome of [m]. *)
Definition try_finally {A} (m : LM A) (fin : LM unit) : LM A := fun st =>
  let '(r, st1) := m st in
  match fin st1 with
  | (LOk _, st2) => (r, st2)
  | (LRaise e, st2) => (LRaise e, st2)
  end.

(** [try: m  except: h] *)
Definition try_catch {A} (m : LM A) (h : lexn -> LM A) : LM A := fun st =>
  match m st with
  | (LOk a, st') => (LOk a, st')
  | (LRaise e, st') => h e st'
  end.

(** The bound session, [AttributeError] when there is none. *)
Definition bound_session : LM session := fun st =>
  match _sess st with
  | Some s => (LOk s, st)
  | None => (LRaise AttributeError, st)
  end.

Definition do_call (s : session) (c : scall) : LM unit := fun st =>
  if allows s (calls st) c
  then (LOk tt, {| _sess := _sess st; calls := calls st ++ [c]; clip := clip st |})
  else (LRaise (Exn ComError), st).

Definition set_sess (sess : option session) : LM unit := fun st =>
  (LOk tt, {| _sess := sess; calls := calls st; clip := clip st |}).

(** The session as the procedures of the screens see it, from the calls
    [done] on. *)
Definition view (s : session) (done : list scall) : gui := {|
  accepts := fun h c => allows s (done ++ map Screen h) (Screen c);
  find_count := fun h => counts s (done ++ map Screen h);
  status_text := fun h => status_bar s (done ++ map Screen h);
  filter_fields := fun h => filters s (done ++ map Screen h);
  grid_rows := fun h => shown_rows s (done ++ map Screen h)
|}.

(** What is left of a session when the module is not bound to one; it is
    never consulted, since every procedure checks the binding first. *)
Definition no_session : gui := {|
  accepts := fun _ _ => false;
  find_count := fun _ _ _ => 0%nat;
  status_text := fun _ => None;
  filter_fields := fun _ => [];
  grid_rows := fun _ => []
|}.

(** A procedure of the screens, run in the state of the module. *)
Definition lift {A} (m : gui -> M A) : LM A := fun st =>
  let g := match _sess st with
           | Some s => view s (calls st)
           | None => no_session
           end in
  let '(r, w) := m g {| sess := bool_decide (is_Some (_sess st));
                        history := [];
                        clipboard := clip st |} in
  (match r with
   | Ok a => LOk a
   | Raise e => LRaise (Exn e)
   end,
   {| _sess := _sess st;
      calls := calls st ++ map Screen (history w);
      clip := clipboard w |}).

(** [_press_key], on the main window of the bound session. *)
Definition press_key (name : string) : LM unit :=
  s ← bound_session;
  match assoc name _virtual_keys with
  | Some vkey => do_call s (Screen (SendVKey vkey))
  | None => mthrow (Exn (KeyError name))
  end.

(** What the bound session shows. *)
Definition observe {A} (f : session -> list scall -> A) : LM A := fun st =>
  match _sess st with
  | Some s => (LOk (f s (calls st)), st)
  | None => (LRaise AttributeError, st)
  end.

Definition _is_popup_dialog : LM bool :=
  type ← observe window_type;
  mret (String.eqb type "GuiModalWindow").

(** The first grandchild that is a button with the caption looked for. *)
Fixpoint find_grandchild (btn_caption : string) (grandchildren : list (string * string))
    (j : nat) : option nat :=
  match grandchildren with
  | [] => None
  | (type, text) :: rest =>
      if negb (String.eqb type "GuiButton") then find_grandchild btn_caption rest (S j)
      else if negb (String.eqb btn_caption (strip text))
           then find_grandchild btn_caption rest (S j)
           else Some j
  end.

Fixpoint find_button (btn_caption : string) (children : list (list (string * string)))
    (i : nat) : option (nat * nat) :=
  match children with
  | [] => None
  | grandchildren :: rest =>
      match find_grandchild btn_caption grandchildren 0 with
      | Some j => Some (i, j)
      | None => find_button btn_caption rest (S i)
      end
  end.

Definition _close_popup_dialog (confirm : bool) : LM unit :=
  text ← observe window_text;
  if String.eqb text "Information" then
    (if confirm then press_key "Enter" else press_key "F12")
  else
    let btn_caption := if confirm then "Yes" else "No" in
    children ← observe window_children;
    match find_button btn_caption children 0 with
    | Some (i, j) => s ← bound_session; do_call s (ButtonPress i j)
    | None => mret tt
    end.

Definition get_sess : LM (option session) := fun st => (LOk (_sess st), st).

Definition close : LM unit :=
  sess ← get_sess;
  match sess with
  | None => mret tt
  | Some s =>
      do_call s EndTransaction;;
      popup ← _is_popup_dialog;
      (if popup : bool then _close_popup_dialog true else mret tt);;
      set_sess None
  end.

Definition start (sess : option session) : LM unit :=
  match sess with
  | None => mthrow (UnboundLocalError "Argument 'sess' is unbound!")
  | Some s =>
      close;;
      set_sess (Some s);;
      do_call s (StartTransaction "FBL3N")
  end.

(** A session that accepts every call. *)
Definition willing (s : session) : Prop := forall h c, allows s h c = true.

(** A session that never shows a dialog. *)
Definition no_dialog (s : session) : Prop :=
  forall h, window_type s h <> "GuiModalWindow".

(** The state the module is in after it has closed a transaction that
    leaves no dialog open. *)
Definition closed (st : lstate) : lstate :=
  {| _sess := None; calls := calls st ++ [EndTransaction]; clip := clip st |}.

(** The grandchild [j] of the child [i] is a button whose caption, once
    trimmed, is [btn_caption]. *)
Definition is_button (btn_caption : string) (children : list (list (string * string)))
    (i j : nat) : Prop :=
  exists grandchildren text,
    children !! i = Some grandchildren
    /\ grandchildren !! j = Some ("GuiButton", text)
    /\ btn_caption = strip text.

Definition is_end (c : scall) : bool :=
  match c with
  | EndTransaction => true
  | _ => false
  end.

(** A session that accepts every call and shows a dialog with the given
    title and buttons once the transaction has been ended. *)
Definition dialog_session (title : string) (buttons : list (list (string * string)))
    : session := {|
  allows := fun _ _ => true;
  window_type := fun h => if existsb is_end h then "GuiModalWindow" else "GuiMainWindow";
  window_text := fun _ => title;
  window_children := fun _ => buttons;
  counts := fun _ _ _ => 0%nat;
  status_bar := fun _ => None;
  filters := fun _ => [];
  shown_rows := fun _ => []
|}.

(** A session for the general ledger accounts that accepts every call,
    never shows a dialog and reports the given status after a load. *)
Definition ledger_session (status : string) (rows : list (string * string)) : session := {|
  allows := fun _ _ => true;
  window_type := fun _ => "GuiMainWindow";
  window_text := fun _ => "Display G/L Account Line Items";
  window_children := fun _ => [];
  counts := fun _ name _ => if String.eqb name "SD_BUKRS-LOW" then 1%nat else 0%nat;
  status_bar := fun _ => Some status;
  filters := fun _ => ["SGTXT"];
  shown_rows := fun _ => rows
|}.

Definition idle : lstate := {| _sess := None; calls := []; clip := "" |}.

Definition bound_to (s : session) : lstate :=
  {| _sess := Some s; calls := []; clip := "" |}.

(** The buttons of a dialog that asks for a confirmation. *)
Definition yes_no_buttons : list (list (string * string)) :=
  [ [("GuiLabel", "Yes")];
    [("GuiButton", " Yes "); ("GuiButton", "No"); ("GuiButton", "Yes")] ].

End Lifecycle.

(** * The processing of the items: [controller.modify_accounting_parameters] *)
Module Processing.
Import PyStr Fbl3n Lifecycle UserInput.

(** One row of the user data.  The model covers the user data whose
    rows all have an old text: with a row that has none, the dictionary of
    the requests gets the key [None] and the engine returns no outcome to
    write back, since [_set_filter], if it is reached, raises [TypeError]
    when it joins the keys. *)
Record data_row : Type := {
  d_account : option N;
  d_old_text : string;
  d_new_text : option string;
  d_new_assignment : option string;
  d_message : option string
}.

Definition with_d_message (msg : option string) (row : data_row) : data_row :=
  {| d_account := d_account row;
     d_old_text := d_old_text row;
     d_new_text := d_new_text row;
     d_new_assignment := d_new_assignment row;
     d_message := msg |}.

(** [data[["old_text", "new_text", "new_assignment"]].to_dict("records")] *)
Definition records (data : list data_row) : list user_row :=
  map (fun row => {| row_old_text := Some (d_old_text row);
                     row_new_text := d_new_text row;
                     row_new_assignment := d_new_assignment row |}) data.

(** The same dictionary, its keys taken as the strings they are. *)
Definition string_keys (m : gmap (option string) entry) : gmap string entry :=
  list_to_map (omap (fun ke : option string * entry =>
                       match ke.1 with
                       | Some k => Some (k, ke.2)
                       | None => None
                       end) (map_to_list m)).

(** [data["account"].unique()]: the accounts in the order of their first
    occurrence. *)
Fixpoint unique (accs : list (option N)) : list (option N) :=
  match accs with
  | [] => []
  | acc :: rest => acc :: filter (fun a => a <> acc) (unique rest)
  end.

(** An account of the user data as the engine prints it with [str]; a
    missing account is [None] there and prints as such. *)
Definition to_account (acc : option N) : account :=
  match acc with
  | Some n => AccInt n
  | None => AccStr "None"
  end.

(** [data.loc[data[data["old_text"] == old_txt].index, "message"] = msg] *)
Definition set_messages (old_txt : string) (msg : option string) (data : list data_row)
    : list data_row :=
  map (fun row => if String.eqb (d_old_text row) old_txt then with_d_message msg row
                  else row) data.

(** [for old_txt in result: ...], lines 496-498. *)
Definition write_back (result : gmap string entry) (data : list data_row) : list data_row :=
  foldl (fun data ke => set_messages ke.1 (message ke.2) data) data (map_to_list result).

Definition no_items_message : string :=
  "No items with the text values you supplied were found on the account (s)!".

(** Lines 462-474: the transaction of the general ledger accounts; the
    result of the engine, or the message of the early return. *)
Definition general_ledger_branch (sess : option session) (accs : list account)
    (cocd : string) (parameters : gmap string entry) (layout : string)
    : LM (gmap string entry + string) :=
  start sess;;
  try_finally
    (try_catch
       (result ← lift (fun g => change_document_parameters g accs cocd parameters
                                  "open" layout);
        mret (inl result))
       (fun e =>
          match e with
          | Exn (NoItemsFoundError _) => mret (inr no_items_message)
          | _ => mthrow e
          end))
    close.

(** The outcome of the branch for an outcome of the engine: the result,
    the message of the early return, or the exception that goes on. *)
Definition branch_outcome (r : lresult (gmap string entry))
    : lresult (gmap string entry + string) :=
  match r with
  | LOk result => LOk (inl result)
  | LRaise (Exn (NoItemsFoundError _)) => LOk (inr no_items_message)
  | LRaise e => LRaise e
  end.

(** The state of a module that was not bound, after it has started the
    transaction on a session. *)
Definition started (s : session) (st : lstate) : lstate :=
  {| _sess := Some s; calls := calls st ++ [StartTransaction "FBL3N"]; clip := clip st |}.

Definition is_screen (c : scall) : Prop :=
  match c with
  | Screen _ => True
  | _ => False
  end.

(** The message a row gets from the outcome of its old text, if any. *)
Definition with_outcome (result : gmap string entry) (row : data_row) : data_row :=
  match result !! d_old_text row with
  | Some e => with_d_message (message e) row
  | None => row
  end.

Definition sample_row (old_text : string) (new_text : option string) : data_row :=
  {| d_account := Some 12345678%N;
     d_old_text := old_text;
     d_new_text := new_text;
     d_new_assignment := None;
     d_message := None |}.

Section Modify.
(** Lines 478-490, the same steps with the module of the customer
    accounts, whose source is not at hand. *)
Variable customer_branch :
  option session -> list account -> string -> gmap string entry -> string ->
  LM (gmap string entry + string).

Definition modify_accounting_parameters (sess : option session) (data : list data_row)
    (acc_type cocd fbl3n_layout fbl5n_layout : string)
    : LM (list data_row * option string) :=
  if bool_decide (data = []) then
    mthrow (Exn (ValueError "Argument 'data' has no records!"))
  else
    match Controller.check_company_code cocd with
    | Raise e => mthrow (Exn e)
    | Ok _ =>
        let accs := map to_account (unique (map d_account data)) in
        let parameters := string_keys (_generate_processing_input (records data)) in
        outcome ←
          (if String.eqb acc_type ACCOUNT_TYPE_GENERAL_LEDGER then
             general_ledger_branch sess accs cocd parameters fbl3n_layout
           else if String.eqb acc_type ACCOUNT_TYPE_CUSTOMER then
             customer_branch sess accs cocd parameters fbl5n_layout
           else
             mthrow (Exn (ValueError ("Unrecognized account type: " +:+ acc_type))));
        match outcome with
        | inr err_msg => mret (data, Some err_msg)
        | inl result => mret (write_back result data, None)
        end
    end.

End Modify.

End Processing.

(** * The export of the line items: [fbl3n.export_line_items] *)
Module ItemsExport.
Import PyStr Fbl3n Lifecycle.

(** A [datetime.date]. *)
Record date : Type := {
  year : nat;
  month : nat;
  day : nat
}.

(** [first > last] for two dates. *)
Definition date_gt (first last : date) : bool :=
  (year last <? year first)%nat
  || ((year first =? year last)%nat
      && ((month last <? month first)%nat
          || ((month first =? month last)%nat && (day last <? day first)%nat))).

(** How [os.remove] ends: done, refused with [PermissionError] or
    [FileNotFoundError], or failed with another exception. *)
Inductive removal : Type :=
| Removed
| NotRemoved
| RemovalFails (e : lexn).

(** The accounts to export: a list of accounts or the name of a worklist. *)
Inductive selection : Type :=
| Accounts (accounts : list account)
| Worklist (name : string).

Definition backslash : string := String (ascii_of_nat 92) EmptyString.

(** The state after further calls [cs], made in that order. *)
Definition and_then (cs : list scall) (st : lstate) : lstate :=
  {| _sess := _sess st; calls := calls st ++ cs; clip := clip st |}.

(** [st1] is [st] after further calls on the screens of the session. *)
Definition screens_added (st st1 : lstate) : Prop :=
  _sess st1 = _sess st /\ exists cs, calls st1 = calls st ++ map Screen cs.

Section ExportLineItems.
(** The library functions [date.strftime] (with the format of SAP),
    [os.path.split] and [os.path.exists], what opening and reading a file
    gives (its text or an exception), and the outcome of [os.remove]; the
    last two depend on what has been done so far. *)
Variable strftime : date -> string.
Variable split : string -> string * string.
Variable path_exists : string -> bool.
Variable read_text : list scall -> string -> lresult string.
Variable remove : list scall -> string -> removal.

(** A field of a window of the bound session is given a text. *)
Definition set_field (name type value : string) : LM unit :=
  s ← bound_session;
  do_call s (Screen (SetText name type value)).

(** The first radio button of the given name is selected. *)
Definition select_radio (name : string) : LM unit :=
  s ← bound_session;
  do_call s (Screen (SelectRadio name)).

Definition _set_posting_dates (first last : option date) : LM unit :=
  (if negb (bool_decide (first = None) && bool_decide (last = None)) then
     match first, last with
     | Some f, Some l =>
         if date_gt f l then
           mthrow (Exn (ValueError "Lower posting date is greater than upper posting date!"))
         else mret tt
     | Some _, None =>
         mthrow (TypeError ("'>' not supported between instances of "
                            +:+ "'datetime.date' and 'NoneType'"))
     | None, _ =>
         mthrow (TypeError ("'>' not supported between instances of "
                            +:+ "'NoneType' and 'datetime.date'"))
     end
   else mret tt);;
  let date_from := match first with None => "" | Some f => strftime f end in
  let date_to := match last with None => "" | Some l => strftime l end in
  set_field "SO_BUDAT-LOW" "GuiCTextField" date_from;;
  set_field "SO_BUDAT-HIGH" "GuiCTextField" date_to.

Definition _export_to_file (file : string) : LM unit :=
  let '(folder_path, file_name) := split file in
  if negb (path_exists folder_path) then
    mthrow (FolderNotFoundError ("The export folder not found at the "
                                 +:+ "path specified: '" +:+ folder_path +:+ "'!"))
  else
    press_key "F9";;
    select_radio "SPOPLI-SELFLAG";;
    press_key "Enter";;
    let folder_path := folder_path +:+ backslash in
    let utf_8 := "4120" in
    set_field "DY_PATH" "GuiCTextField" folder_path;;
    set_field "DY_FILENAME" "GuiCTextField" file_name;;
    set_field "DY_FILE_ENCODING" "GuiCTextField" utf_8;;
    press_key "CtrlS".

Definition _read_exported_data (file_path : string) : LM string := fun st =>
  (read_text (calls st) file_path, st).

(** [try: os.remove(file)  except (PermissionError, FileNotFoundError): log] *)
Definition remove_file (file : string) : LM unit := fun st =>
  match remove (calls st) file with
  | Removed =>
      (LOk tt, {| _sess := _sess st; calls := calls st ++ [RemoveFile file]; clip := clip st |})
  | NotRemoved => (LOk tt, st)
  | RemovalFails e => (LRaise e, st)
  end.

(** Lines 742-761: the selection, the loading and the layout dialog. *)
Definition select_load_and_lay_out (selection : selection) (company_code status : string)
    (from_day to_day : option date) (layout : string) : LM unit :=
  lift (fun _ => _check_prerequisities);;
  match selection with
  | Accounts _ => lift (fun g => _toggle_worklist g false)
  | Worklist name =>
      lift (fun g => _toggle_worklist g true);;
      lift (fun g => _set_worklist g name)
  end;;
  lift (fun g => _set_company_code g company_code);;
  lift (fun g => _set_layout g layout);;
  match selection with
  | Accounts accounts => lift (fun g => _set_accounts g accounts)
  | Worklist _ => mret tt
  end;;
  lift (fun g => _set_line_items_selection g status);;
  _set_posting_dates from_day to_day;;
  lift _load_items;;
  press_key "CtrlF8";;
  press_key "CtrlShiftF6";;
  press_key "Enter".

Definition export_line_items (file : string) (selection : selection)
    (company_code status : string) (from_day to_day : option date) (layout : string)
    : LM string :=
  select_load_and_lay_out selection company_code status from_day to_day layout;;
  _export_to_file file;;
  press_key "F3";;
  data ← _read_exported_data file;
  remove_file file;;
  mret data.

End ExportLineItems.

(** What the examples use for the library functions: dates printed as
    dd.mm.yyyy, the path of one file split into its folder and its name,
    and one folder that exists. *)
Definition sample_strftime (d : date) : string :=
  Logs.zfill 2 (NilEmpty.string_of_uint (Nat.to_uint (day d))) +:+ "."
  +:+ Logs.zfill 2 (NilEmpty.string_of_uint (Nat.to_uint (month d))) +:+ "."
  +:+ Logs.zfill 4 (NilEmpty.string_of_uint (Nat.to_uint (year d))).

Definition sample_split (file : string) : string * string :=
  if String.eqb file "temp/export.txt" then ("temp", "export.txt") else ("", file).

Definition sample_exists (path : string) : bool := String.eqb path "temp".

End ItemsExport.

(** * The entry point: [server/app.py] *)
Module App.

(** How a call of a procedure of the controller ends. *)
Inductive call_result (A : Type) : Type :=
| Returns (a : A)
| Raises.
Arguments Returns {A} a.
Arguments Raises {A}.

(** What the procedures of the controller do in one run of the program;
    for [get_user_input] and [modify_accounting_parameters] the value is the
    error message of the result, [None] when there is none. *)
Record run : Type := {
  configure_logger : call_result unit;
  load_app_config : call_result unit;
  connect_to_sap : call_result unit;
  get_user_input : call_result (option string);
  modify_accounting_parameters : call_result (option string);
  create_report : call_result unit;
  send_notification : call_result unit;
  disconnect_from_sap : call_result unit;
  delete_temp_files : call_result unit
}.

(** The calls of the controller, in the order [main] makes them. *)
Inductive event : Type :=
| ConfigureLogger
| LoadAppConfig
| ConnectToSap
| GetUserInput
| ModifyAccountingParameters
| CreateReport
| SendNotification
| DisconnectFromSap
| DeleteTempFiles.

(** The end of [main]: the value it returns, or an exception that leaves it. *)
Inductive exit : Type :=
| ExitCode (code : Z)
| Uncaught.

(** The cleanup, followed by [return code]. *)
Definition cleanup (r : run) (code : Z) (done : list event) : exit * list event :=
  match disconnect_from_sap r with
  | Raises => (Uncaught, done ++ [DisconnectFromSap])
  | Returns _ =>
      match delete_temp_files r with
      | Raises => (Uncaught, done ++ [DisconnectFromSap; DeleteTempFiles])
      | Returns _ => (ExitCode code, done ++ [DisconnectFromSap; DeleteTempFiles])
      end
  end.

Definition main (r : run) : exit * list event :=
  match configure_logger r with
  | Raises => (ExitCode 1, [ConfigureLogger])
  | Returns _ =>
  match load_app_config r with
  | Raises => (ExitCode 2, [ConfigureLogger; LoadAppConfig])
  | Returns _ =>
  match connect_to_sap r with
  | Raises => (ExitCode 2, [ConfigureLogger; LoadAppConfig; ConnectToSap])
  | Returns _ =>
  let done := [ConfigureLogger; LoadAppConfig; ConnectToSap; GetUserInput] in
  match get_user_input r with
  | Raises => cleanup r 2 done
  | Returns (Some error_message) =>
      match send_notification r with
      | Raises => (Uncaught, done ++ [SendNotification])
      | Returns _ => cleanup r 2 (done ++ [SendNotification])
      end
  | Returns None =>
  let done := done ++ [ModifyAccountingParameters] in
  match modify_accounting_parameters r with
  | Raises => cleanup r 3 done
  | Returns (Some error_message) =>
      match send_notification r with
      | Raises => (Uncaught, done ++ [SendNotification])
      | Returns _ => cleanup r 3 (done ++ [SendNotification])
      end
  | Returns None =>
  match create_report r with
  | Raises => cleanup r 4 (done ++ [CreateReport])
  | Returns _ =>
      match send_notification r with
      | Raises => cleanup r 4 (done ++ [CreateReport; SendNotification])
      | Returns _ => cleanup r 0 (done ++ [CreateReport; SendNotification])
      end
  end end end end end end.

(** The run in which every call returns and nothing is in error. *)
Definition smooth_run : run := {|
  configure_logger := Returns tt;
  load_app_config := Returns tt;
  connect_to_sap := Returns tt;
  get_user_input := Returns None;
  modify_accounting_parameters := Returns None;
  create_report := Returns tt;
  send_notification := Returns tt;
  disconnect_from_sap := Returns tt;
  delete_temp_files := Returns tt
|}.

(** A run in which no items are found for the texts of the user. *)
Definition no_items_run : run := {|
  configure_logger := Returns tt;
  load_app_config := Returns tt;
  connect_to_sap := Returns tt;
  get_user_input := Returns None;
  modify_accounting_parameters :=
    Returns (Some "No items with the text values you supplied were found on the account (s)!");
  create_report := Returns tt;
  send_notification := Returns tt;
  disconnect_from_sap := Returns tt;
  delete_temp_files := Returns tt
|}.

End App.

(** * Properties *)

Import PyStr Fbl3n.

(** ** Strings *)




Lemma isnumeric_char_below_128 (c : ascii) :
  (code c <? 128)%nat = true -> isnumeric_char c = is_decimal_digit c.
Proof.
  unfold isnumeric_char, is_decimal_digit. intros H.
  apply Nat.ltb_lt in H.
  repeat match goal with
         | |- context [(?n =? ?k)%nat] =>
             replace (n =? k)%nat with false by (symmetry; apply Nat.eqb_neq; lia)
         end.
  now rewrite !orb_false_r.
Qed.

Lemma all_numeric_below_128 (s : string) :
  all_below_128 s = true -> all_numeric s = all_decimal s.
Proof.
  induction s as [|c s IH]; simpl; [reflexivity|].
  intros [Hc Hs]%andb_true_iff.
  now rewrite isnumeric_char_below_128, IH.
Qed.

Example strip_example :
  strip ("  Text updated. " +:+ crlf) = "Text updated."
  /\ strip "" = "" /\ strip "a  b" = "a  b".
Proof. repeat split. Qed.

Example contains_example :
  contains "items displayed" "12 items displayed" = true
  /\ contains "No items selected" "No items Selected" = false
  /\ contains "" "" = true.
Proof. repeat split. Qed.

Example isnumeric_example :
  isnumeric "0075" = true /\ isnumeric "075" = true /\ isnumeric "07A5" = false
  /\ isnumeric "" = false /\ isnumeric " 075" = false.
Proof. repeat split. Qed.

Example join_example :
  join crlf ["OLDA"; "OLDB"] = "OLDA" +:+ crlf +:+ "OLDB" /\ join crlf [] = "".
Proof. repeat split. Qed.

Example str_example : str (AccInt 12345678) = "12345678" /\ str (AccInt 0) = "0".
Proof. repeat split. Qed.

(** ** The monad *)

Lemma bind_unfold {A B} (m : M A) (f : A -> M B) (w : world) :
  (m ≫= f) w = match m w with
               | (Ok a, w') => f a w'
               | (Raise e, w') => (Raise e, w')
               end.
Proof. reflexivity. Qed.

Lemma bind_ret {A B} (a : A) (f : A -> M B) (w : world) :
  (mret a ≫= f) w = f a w.
Proof. reflexivity. Qed.

Lemma ret_unfold {A} (a : A) (w : world) : (mret a : M A) w = (Ok a, w).
Proof. reflexivity. Qed.


Lemma bind_Ok_inv {A B} (m : M A) (f : A -> M B) (w w' : world) (b : B) :
  (m ≫= f) w = (Ok b, w') ->
  exists a w1, m w = (Ok a, w1) /\ f a w1 = (Ok b, w').
Proof.
  rewrite bind_unfold. destruct (m w) as [[a|e] w1]; [eauto | discriminate].
Qed.

Lemma perform_accepted (g : gui) (c : call) (w : world) :
  accepts g (history w) c = true -> perform g c w = (Ok tt, log_call c w).
Proof. unfold perform. now intros ->. Qed.

Lemma perform_clipboard (g : gui) (c : call) (w w' : world) (r : result unit) :
  perform g c w = (r, w') -> clipboard w' = clipboard w.
Proof.
  unfold perform. destruct (accepts g (history w) c); intros [= <- <-]; reflexivity.
Qed.

Lemma press_key_clipboard (g : gui) (name : string) (w w' : world) (r : result unit) :
  _press_key g name w = (r, w') -> clipboard w' = clipboard w.
Proof.
  unfold _press_key. destruct (assoc name _virtual_keys).
  - apply perform_clipboard.
  - intros [= <- <-]; reflexivity.
Qed.

Lemma check_accounts_world (vals : list account) (w w' : world) (r : result unit) :
  check_accounts vals w = (r, w') -> w' = w.
Proof.
  induction vals as [|val vals IH]; simpl.
  - intros [= <- <-]; reflexivity.
  - destruct (negb (isnumeric (str val))); [intros [= <- <-]; reflexivity | exact IH].
Qed.

(** ** Loading of the items *)


(** ** The clipboard *)

(** C9: whenever [_set_accounts] completes normally, the clipboard
    through which it passed the accounts to the multiple selection dialog
    is empty again; and whenever [_set_filter] completes normally, so is the
    clipboard through which it passed the filter values.  Each holds on
    its own, for every session, whatever the clipboard held before. *)
Theorem clipboard_cleared_after_bulk_insert (g : gui) :
  (forall accounts w w',
      _set_accounts g accounts w = (Ok tt, w') -> clipboard w' = "")
  /\ (forall vals fld_tech_name w w',
        _set_filter g vals fld_tech_name w = (Ok tt, w') -> clipboard w' = "").
Proof.
  split.
  - intros accounts w w' Ha. unfold _set_accounts in Ha.
    destruct (length accounts =? 0)%nat; [discriminate Ha|].
    apply bind_Ok_inv in Ha as (? & w1 & _ & Ha).
    apply bind_Ok_inv in Ha as (? & w2 & _ & Ha).
    apply bind_Ok_inv in Ha as (? & w3 & _ & Ha).
    apply bind_Ok_inv in Ha as (? & w4 & _ & Ha).
    apply bind_Ok_inv in Ha as (? & w5 & _ & Ha).
    apply bind_Ok_inv in Ha as (? & w6 & Hclear & Ha).
    apply press_key_clipboard in Ha. rewrite Ha.
    unfold _clear_clipboard, copy_to_clipboard in Hclear.
    inversion Hclear. reflexivity.
  - intros vals fld_tech_name w w' Hf. unfold _set_filter in Hf.
    do 9 (apply bind_Ok_inv in Hf as (? & ? & _ & Hf)).
    apply bind_Ok_inv in Hf as (? & w1 & Hclear & Hf).
    apply bind_Ok_inv in Hf as (? & w2 & HF8 & Hf).
    apply press_key_clipboard in Hf, HF8. rewrite Hf, HF8.
    unfold _clear_clipboard, copy_to_clipboard in Hclear.
    inversion Hclear. reflexivity.
Qed.

(** ** The guards on the entered values *)

(** C6: a text longer than 50 characters makes [_set_text] raise
    [ValueError] and an assignment longer than 18 characters makes
    [_set_assignment] raise [ValueError], in both cases with the session and
    the clipboard left as they were, so before any write to the field; when
    the assignment field is not on the screen, [_set_assignment] skips the
    write altogether and returns with nothing done. *)
Theorem field_length_guard (g : gui) (w : world) (text assignment : string) :
  (50 < len text)%nat ->
  (18 < len assignment)%nat ->
  (exists msg, _set_text g text w = (Raise (ValueError msg), w))
  /\ (find_count g (history w) "BSEG-ZUONR" "GuiTextField" <> 0%nat ->
      exists msg, _set_assignment g assignment w = (Raise (ValueError msg), w))
  /\ (find_count g (history w) "BSEG-ZUONR" "GuiTextField" = 0%nat ->
      _set_assignment g assignment w = (Ok tt, w)).
Proof.
  intros Ht Ha. repeat split.
  - unfold _set_text. apply Nat.ltb_lt in Ht. rewrite Ht. eexists. reflexivity.
  - intros Hn. unfold _set_assignment. rewrite bind_unfold. unfold find_all_count.
    apply Nat.eqb_neq in Hn. rewrite Hn.
    apply Nat.ltb_lt in Ha. rewrite Ha. eexists. reflexivity.
  - intros Hn. unfold _set_assignment. rewrite bind_unfold. unfold find_all_count.
    rewrite Hn. reflexivity.
Qed.

Lemma company_code_guard (val : string) :
  String.eqb val "" || ((len val =? 4)%nat && isnumeric val) = true
  <-> val = "" \/ (len val = 4%nat /\ isnumeric val = true).
Proof.
  rewrite orb_true_iff, andb_true_iff, String.eqb_eq, Nat.eqb_eq. reflexivity.
Qed.

Lemma set_company_code_rejects (g : gui) (val : string) (w : world) :
  (exists msg, fst (_set_company_code g val w) = Raise (ValueError msg))
  <-> ~ (val = "" \/ (len val = 4%nat /\ isnumeric val = true)).
Proof.
  rewrite <- company_code_guard. unfold _set_company_code.
  destruct (String.eqb val "" || ((len val =? 4)%nat && isnumeric val)); simpl.
  - split; [|intros H; now destruct H].
    intros [msg H]. exfalso. revert H.
    rewrite bind_unfold. unfold find_all_count.
    destruct (0 <? _)%nat.
    + unfold perform. destruct (accepts _ _ _); discriminate.
    + rewrite bind_unfold.
      destruct (0 <? _)%nat; [|discriminate].
      unfold perform. destruct (accepts _ _ _); discriminate.
  - split; [discriminate | intros _; eexists; reflexivity].
Qed.

(** C7, as the code has it: [_set_company_code] rejects a value with
    [ValueError] exactly when it is neither the empty string nor a string of
    four numeric characters, which for characters below 128 are the decimal
    digits.  So "075" and "07A5" are rejected, "0075" is accepted, and so is
    the empty string.  The check that [modify_accounting_parameters] makes
    before starting the engine accepts exactly the strings of four numeric
    characters, and with them not the empty string. *)
Theorem company_code_validation :
  (forall g val w,
      (exists msg, fst (_set_company_code g val w) = Raise (ValueError msg))
      <-> ~ (val = "" \/ (len val = 4%nat /\ isnumeric val = true)))
  /\ (forall val, all_below_128 val = true ->
        (len val = 4%nat /\ isnumeric val = true)
        <-> (len val = 4%nat /\ all_decimal val = true))
  /\ (forall g w,
        (exists msg, fst (_set_company_code g "075" w) = Raise (ValueError msg))
        /\ (exists msg, fst (_set_company_code g "07A5" w) = Raise (ValueError msg))
        /\ ~ (exists msg, fst (_set_company_code g "0075" w) = Raise (ValueError msg))
        /\ ~ (exists msg, fst (_set_company_code g "" w) = Raise (ValueError msg)))
  /\ (forall cocd,
        Controller.check_company_code cocd = Ok tt
        <-> (len cocd = 4%nat /\ isnumeric cocd = true))
  /\ (exists msg, Controller.check_company_code "" = Raise (ValueError msg)).
Proof.
  split; [exact set_company_code_rejects|].
  split.
  { intros val Hval. destruct val as [|c val]; [simpl; intuition discriminate|].
    unfold isnumeric. now rewrite (all_numeric_below_128 _ Hval). }
  split.
  { intros g w. rewrite !set_company_code_rejects. repeat split.
    - intros [H|[H _]]; discriminate H.
    - intros [H|[_ H]]; discriminate H.
    - intros H. apply H. right. split; reflexivity.
    - intros H. apply H. left. reflexivity. }
  split.
  { intros cocd. unfold Controller.check_company_code.
    rewrite <- Nat.eqb_eq, <- andb_true_iff.
    destruct ((len cocd =? 4)%nat && isnumeric cocd); simpl; split; congruence. }
  eexists. reflexivity.
Qed.

(** C7 as stated fails: the empty string is not rejected by
    [_set_company_code]; it passes the guard and is written to the field. *)
Lemma company_code_empty_accepted :
  _set_company_code (Scenario.session []) "" Scenario.world0
  = (Ok tt, log_call (SetText "SD_BUKRS-LOW" "GuiCTextField" "") Scenario.world0)
  /\ ~ (exists msg, fst (_set_company_code (Scenario.session []) "" Scenario.world0)
                    = Raise (ValueError msg)).
Proof.
  split; [reflexivity|]. intros [msg H]. discriminate H.
Qed.

(** ** The dictionary of outcomes *)

Lemma getitem_Some (d : gmap string entry) (k : string) (e : entry) (w : world) :
  d !! k = Some e -> getitem d k w = (Ok e, w).
Proof. unfold getitem. now intros ->. Qed.

Lemma getitem_None (d : gmap string entry) (k : string) (w : world) :
  d !! k = None -> getitem d k w = (Raise (KeyError k), w).
Proof. unfold getitem. now intros ->. Qed.

Lemma set_message_Some (d : gmap string entry) (k m : string) (e : entry) (w : world) :
  d !! k = Some e ->
  set_message k m d w = (Ok (<[k := with_message m e]> d), w).
Proof. intros H. unfold set_message. now rewrite bind_unfold, (getitem_Some _ _ _ _ H). Qed.

Lemma get_message_Some (d : gmap string entry) (k old : string) (e : entry) (w : world) :
  d !! k = Some e -> message e = Some old ->
  get_message k d w = (Ok old, w).
Proof.
  intros H Hm. unfold get_message. now rewrite bind_unfold, (getitem_Some _ _ _ _ H), Hm.
Qed.

Lemma add_message_Some (d : gmap string entry) (k m old : string) (e : entry) (w : world) :
  d !! k = Some e -> message e = Some old ->
  add_message k m d w = (Ok (<[k := with_message (old +:+ m) e]> d), w).
Proof.
  intros H Hm. unfold add_message.
  now rewrite bind_unfold, (get_message_Some _ _ _ _ _ H Hm), (set_message_Some _ _ _ _ _ H).
Qed.

Lemma strip_message_Some (d : gmap string entry) (k old : string) (e : entry) (w : world) :
  d !! k = Some e -> message e = Some old ->
  strip_message k d w = (Ok (<[k := with_message (strip old) e]> d), w).
Proof.
  intros H Hm. unfold strip_message.
  now rewrite bind_unfold, (get_message_Some _ _ _ _ _ H Hm), (set_message_Some _ _ _ _ _ H).
Qed.

Lemma insert_with_message (d : gmap string entry) (k m m' : string) (e : entry) :
  <[k := with_message m' (with_message m e)]> (<[k := with_message m e]> d)
  = <[k := with_message m' e]> d.
Proof. now rewrite insert_insert_eq. Qed.

(** ** Reading a row *)

Lemma after_calls_log (c : call) (cs : list call) (w : world) :
  log_call c (after_calls cs w) = after_calls (cs ++ [c]) w.
Proof. unfold log_call, after_calls. simpl. now rewrite app_assoc. Qed.

Lemma row_selected_calls (idx : nat) (w : world) :
  row_selected idx w = after_calls [SelectedRows idx; CurrentCellRow idx] w.
Proof. unfold row_selected, log_call, after_calls. simpl. now rewrite <- app_assoc. Qed.

Lemma get_item_params_row (g : gui) (tbl : handle) (idx : nat) (w : world) (t a : string) :
  responsive g ->
  grid_rows g (history (row_selected idx w)) !! idx = Some (t, a) ->
  _get_item_params g tbl idx w = (Ok (t, a), row_selected idx w).
Proof.
  intros Hg Hrow. unfold _get_item_params.
  rewrite bind_unfold, perform_accepted by apply Hg.
  rewrite bind_unfold, perform_accepted by apply Hg.
  fold (row_selected idx w).
  rewrite bind_unfold. unfold get_cell_value at 1. rewrite Hrow. simpl.
  rewrite bind_unfold. unfold get_cell_value. rewrite Hrow. reflexivity.
Qed.

Lemma press_key_responsive (g : gui) (name : string) (vkey : Z) (w : world) :
  responsive g -> assoc name _virtual_keys = Some vkey ->
  _press_key g name w = (Ok tt, log_call (SendVKey vkey) w).
Proof.
  intros Hg Hk. unfold _press_key. rewrite Hk. apply perform_accepted, Hg.
Qed.

(** ** Rows that leave nothing to write *)

(** C10: for a row whose text matches a request with neither a new text
    nor a new assignment, both flags stay true: the engine opens the row
    for editing (Shift+F2, Shift+F1), writes no field, saves (Ctrl+S), and
    replaces the message of the entry by the empty string. *)
Theorem null_request_row_is_saved (g : gui) (parameters output : gmap string entry)
    (tbl : handle) (idx : nat) (w : world) (t a : string) (p e : entry) :
  responsive g ->
  grid_rows g (history (row_selected idx w)) !! idx = Some (t, a) ->
  parameters !! t = Some p ->
  new_text p = None ->
  new_assignment p = None ->
  output !! t = Some e ->
  update_item g parameters tbl idx output w
  = (Ok (<[t := with_message "" e]> output),
     after_calls [SelectedRows idx; CurrentCellRow idx;
                  SendVKey 14; SendVKey 13; SendVKey 11] w).
Proof.
  intros Hg Hrow Hp Hnt Hna He. unfold update_item.
  rewrite bind_unfold, (get_item_params_row _ _ _ _ _ _ Hg Hrow).
  rewrite bind_unfold, (getitem_Some _ _ _ _ Hp).
  rewrite bind_unfold, (getitem_Some _ _ _ _ Hp).
  rewrite bind_unfold, (set_message_Some _ _ _ _ _ He).
  rewrite Hnt, Hna. cbn [is_not_none andb].
  rewrite bind_ret. cbv beta iota. rewrite bind_ret. cbv beta iota.
  cbn [orb negb].
  rewrite bind_unfold, (press_key_responsive g "ShiftF2" 14) by (trivial; reflexivity).
  rewrite bind_unfold, (press_key_responsive g "ShiftF1" 13) by (trivial; reflexivity).
  rewrite !bind_ret.
  rewrite bind_unfold, (strip_message_Some _ _ "" (with_message "" e))
    by (trivial; apply lookup_insert_eq).
  rewrite bind_unfold, (press_key_responsive g "CtrlS" 11) by (trivial; reflexivity).
  rewrite insert_with_message, row_selected_calls, !after_calls_log. reflexivity.
Qed.


(** ** Rows whose text is not requested *)

(** C5, as the code has it: when the text of a row is not a key of the
    request dictionary, the lookup [parameters[old_text]] raises [KeyError]
    for that text right after the row has been selected; the loop ends
    there, the remaining rows are not visited and no outcome is returned. *)
Theorem unknown_row_text_raises (g : gui) (parameters output : gmap string entry)
    (tbl : handle) (idx : nat) (rest : list nat) (w : world) (t a : string) :
  responsive g ->
  grid_rows g (history (row_selected idx w)) !! idx = Some (t, a) ->
  parameters !! t = None ->
  for_each (idx :: rest) (update_item g parameters tbl) output w
  = (Raise (KeyError t), after_calls [SelectedRows idx; CurrentCellRow idx] w).
Proof.
  intros Hg Hrow Hp. cbn [for_each]. rewrite bind_unfold. unfold update_item.
  rewrite bind_unfold, (get_item_params_row _ _ _ _ _ _ Hg Hrow).
  rewrite bind_unfold, (getitem_None _ _ _ Hp), row_selected_calls. reflexivity.
Qed.

(** C5 as stated fails: with a first row whose text "ZZZ" is not requested,
    [change_document_parameters] ends in [KeyError] and the second row,
    which is requested, is never reached. *)
Lemma unknown_row_text_not_tolerated :
  let '(r, w) := change_document_parameters
                   (Scenario.session [("ZZZ", "X"); ("OLDA", "X")])
                   [AccInt 12345678] "0075" Scenario.requests "open" "" Scenario.world0 in
  r = Raise (KeyError "ZZZ")
  /\ ~ In (SelectedRows 1) (history w)
  /\ forall out, r <> Ok out.
Proof. vm_compute. repeat split; [intuition discriminate | discriminate]. Qed.

(** ** Every request gets an outcome *)

Import Outcome.

Lemma keeps_refl (d : gmap string entry) : keeps d d.
Proof. intros k. destruct (d !! k); auto. Qed.

Lemma keeps_trans (d1 d2 d3 : gmap string entry) :
  keeps d1 d2 -> keeps d2 d3 -> keeps d1 d3.
Proof.
  intros H12 H23 k. specialize (H12 k). specialize (H23 k).
  destruct (d1 !! k), (d2 !! k), (d3 !! k); try tauto.
  destruct H12 as (? & ? & ?), H23 as (? & ? & ?). repeat split; try congruence; auto.
Qed.

Lemma keeps_insert (d : gmap string entry) (k m : string) (e : entry) :
  d !! k = Some e -> keeps d (<[k := with_message m e]> d).
Proof.
  intros He k'. destruct (decide (k = k')) as [<-|Hne].
  - rewrite He, lookup_insert_eq. simpl. eauto.
  - rewrite lookup_insert_ne by exact Hne. destruct (d !! k'); auto.
Qed.

Lemma getitem_Ok_inv (d : gmap string entry) (k : string) (e : entry) (w w' : world) :
  getitem d k w = (Ok e, w') -> d !! k = Some e /\ w' = w.
Proof.
  unfold getitem. destruct (d !! k); [|discriminate].
  rewrite ret_unfold. now intros [= -> ->].
Qed.

Lemma set_message_keeps (d d' : gmap string entry) (k m : string) (w w' : world) :
  set_message k m d w = (Ok d', w') -> keeps d d' /\ w' = w.
Proof.
  unfold set_message. intros H.
  apply bind_Ok_inv in H as (e & w1 & [He ->]%getitem_Ok_inv & H).
  rewrite ret_unfold in H. injection H as <- <-.
  split; [now apply keeps_insert | reflexivity].
Qed.

Lemma get_message_world (d : gmap string entry) (k m : string) (w w' : world) :
  get_message k d w = (Ok m, w') -> w' = w.
Proof.
  unfold get_message. intros H.
  apply bind_Ok_inv in H as (e & w1 & [He ->]%getitem_Ok_inv & H).
  destruct (message e); [|discriminate]. rewrite ret_unfold in H. congruence.
Qed.

Lemma add_message_keeps (d d' : gmap string entry) (k m : string) (w w' : world) :
  add_message k m d w = (Ok d', w') -> keeps d d'.
Proof.
  unfold add_message. intros H.
  apply bind_Ok_inv in H as (old & w1 & _ & H).
  now apply set_message_keeps in H.
Qed.

Lemma strip_message_keeps (d d' : gmap string entry) (k : string) (w w' : world) :
  strip_message k d w = (Ok d', w') -> keeps d d'.
Proof.
  unfold strip_message. intros H.
  apply bind_Ok_inv in H as (old & w1 & _ & H).
  now apply set_message_keeps in H.
Qed.

Lemma flag_step_keeps (c : bool) (k m : string) (d : gmap string entry)
    (r : gmap string entry * bool) (w w' : world) :
  (if c then output ← add_message k m d; mret (output, false)
   else (mret (d, true) : M _)) w = (Ok r, w') ->
  keeps d r.1.
Proof.
  destruct c; intros H.
  - apply bind_Ok_inv in H as (d' & w1 & Hadd & H).
    rewrite ret_unfold in H. injection H as <- <-. simpl.
    eapply add_message_keeps, Hadd.
  - rewrite ret_unfold in H. injection H as <- <-. apply keeps_refl.
Qed.

Lemma write_step_keeps (c : bool) (write : M unit) (k m : string)
    (d d' : gmap string entry) (w w' : world) :
  (if c then write;; add_message k m d else (mret d : M _)) w = (Ok d', w') ->
  keeps d d'.
Proof.
  destruct c; intros H.
  - apply bind_Ok_inv in H as (? & w1 & _ & H). eapply add_message_keeps, H.
  - rewrite ret_unfold in H. injection H as <- <-. apply keeps_refl.
Qed.

Lemma update_item_keeps (g : gui) (parameters output output' : gmap string entry)
    (tbl : handle) (idx : nat) (w w' : world) :
  update_item g parameters tbl idx output w = (Ok output', w') ->
  keeps output output'.
Proof.
  unfold update_item. intros H.
  apply bind_Ok_inv in H as ([old_text old_assign] & w1 & _ & H).
  apply bind_Ok_inv in H as (p & w2 & _ & H).
  apply bind_Ok_inv in H as (q & w3 & _ & H).
  apply bind_Ok_inv in H as (o1 & w4 & [H1 _]%set_message_keeps & H).
  apply bind_Ok_inv in H as ([o2 text_differs] & w5 & H2%flag_step_keeps & H).
  apply bind_Ok_inv in H as ([o3 assign_differs] & w6 & H3%flag_step_keeps & H).
  simpl in H2, H3.
  apply (keeps_trans _ o1); [exact H1|].
  apply (keeps_trans _ o2); [exact H2|].
  apply (keeps_trans _ o3); [exact H3|].
  destruct (negb (text_differs || assign_differs)).
  - eapply strip_message_keeps, H.
  - apply bind_Ok_inv in H as (? & w7 & _ & H).
    apply bind_Ok_inv in H as (? & w8 & _ & H).
    apply bind_Ok_inv in H as (o4 & w9 & H4%write_step_keeps & H).
    apply bind_Ok_inv in H as (o5 & w10 & H5%write_step_keeps & H).
    apply bind_Ok_inv in H as (o6 & w11 & H6%strip_message_keeps & H).
    apply bind_Ok_inv in H as (? & w12 & _ & H).
    rewrite ret_unfold in H. injection H as <- <-.
    eauto using keeps_trans.
Qed.

Lemma for_each_keeps (g : gui) (parameters : gmap string entry) (tbl : handle)
    (idxs : list nat) (output output' : gmap string entry) (w w' : world) :
  for_each idxs (update_item g parameters tbl) output w = (Ok output', w') ->
  keeps output output'.
Proof.
  revert output w. induction idxs as [|idx idxs IH]; intros output w; cbn [for_each].
  - rewrite ret_unfold. intros [= <- <-]. apply keeps_refl.
  - intros H. apply bind_Ok_inv in H as (o1 & w1 & H1%update_item_keeps & H).
    eauto using keeps_trans.
Qed.

Lemma write_default_messages_lookup (parameters : gmap string entry) (k : string) :
  write_default_messages parameters !! k
  = with_message default_message <$> parameters !! k.
Proof. unfold write_default_messages. apply lookup_fmap. Qed.

Lemma keys_spec (d : gmap string entry) (k : string) :
  k ∈ keys d <-> is_Some (d !! k).
Proof.
  unfold keys. rewrite list_elem_of_fmap. split.
  - intros [[k' e] [-> H%elem_of_map_to_list]]. eauto.
  - intros [e H]. exists (k, e). split; [reflexivity | now apply elem_of_map_to_list].
Qed.

(** C3: when [change_document_parameters] returns, the outcome has exactly
    the keys of the request dictionary, each of them once; every entry
    carries the requested values unchanged and a message.  Before the rows
    are visited that message is the default one for every key. *)
Theorem every_request_has_an_outcome (g : gui) (accounts : list account)
    (company_code status layout : string) (parameters out : gmap string entry)
    (w w' : world) :
  change_document_parameters g accounts company_code parameters status layout w
  = (Ok out, w') ->
  dom out = dom parameters
  /\ NoDup (keys out)
  /\ (forall k, k ∈ keys out <-> k ∈ keys parameters)
  /\ (forall k p, parameters !! k = Some p ->
        exists e m, out !! k = Some e /\ message e = Some m
                    /\ new_text e = new_text p /\ new_assignment e = new_assignment p)
  /\ (forall k p, parameters !! k = Some p ->
        write_default_messages parameters !! k = Some (with_message default_message p)).
Proof.
  intros H. unfold change_document_parameters in H.
  apply bind_Ok_inv in H as (tbl & w1 & _ & H).
  apply bind_Ok_inv in H as (? & w2 & _ & H).
  unfold update_items in H.
  apply bind_Ok_inv in H as (n & w3 & _ & H).
  destruct (n =? 0)%nat.
  { apply bind_Ok_inv in H as (? & w4 & _ & H). discriminate H. }
  apply bind_Ok_inv in H as (n' & w4 & _ & H).
  apply bind_Ok_inv in H as (o & w5 & Hloop%for_each_keeps & H).
  apply bind_Ok_inv in H as (? & w6 & _ & H).
  rewrite ret_unfold in H. injection H as <- <-.
  assert (Hout : forall k p, parameters !! k = Some p ->
            exists e m, o !! k = Some e /\ message e = Some m
                        /\ new_text e = new_text p /\ new_assignment e = new_assignment p).
  { intros k p Hp. specialize (Hloop k).
    rewrite write_default_messages_lookup, Hp in Hloop. simpl in Hloop.
    destruct (o !! k) as [e|]; [|contradiction].
    destruct Hloop as (Ht & Ha & Hm). destruct Hm as [m Hm]; [eauto|].
    exists e, m. auto. }
  assert (Hkeys : forall k, is_Some (o !! k) <-> is_Some (parameters !! k)).
  { intros k. specialize (Hloop k). rewrite write_default_messages_lookup in Hloop.
    destruct (parameters !! k) as [p|], (o !! k) as [e|]; simpl in Hloop;
      try contradiction; split; intros [? ?]; eauto; discriminate. }
  split; [|split; [|split; [|split]]].
  - apply set_eq. intros k. rewrite !elem_of_dom. apply Hkeys.
  - apply NoDup_fst_map_to_list.
  - intros k. rewrite !keys_spec. apply Hkeys.
  - exact Hout.
  - intros k p Hp. now rewrite write_default_messages_lookup, Hp.
Qed.

(** ** A filter that leaves no row *)

(** C8: when the accounts were selected and loaded, the grid showed rows,
    and the grid shows none after the filter on the requested texts, the
    engine sends F3 (back to the main mask) and raises [NoItemsFoundError];
    this is another exception than the [NoItemsFoundWarning] that
    [_load_items] raises when the selection finds no items. *)
Theorem empty_filter_result_raises (g : gui) (accounts : list account)
    (company_code status layout : string) (parameters : gmap string entry)
    (tbl : handle) (w w0 w1 : world) :
  select_and_load g accounts company_code status layout w = (Ok tbl, w0) ->
  grid_rows g (history w0) <> [] ->
  _set_filter g (keys parameters) "SGTXT" w0 = (Ok tt, w1) ->
  grid_rows g (history w1) = [] ->
  accepts g (history w1) (SendVKey 3) = true ->
  change_document_parameters g accounts company_code parameters status layout w
  = (Raise (NoItemsFoundError
              "Filtering on the searched text values returned no results!"),
     log_call (SendVKey 3) w1)
  /\ (forall msg msg', NoItemsFoundError msg <> NoItemsFoundWarning msg').
Proof.
  intros Hload _ Hfilter Hrows Hacc. split; [|discriminate].
  unfold change_document_parameters.
  rewrite bind_unfold, Hload. rewrite bind_unfold, Hfilter.
  unfold update_items. rewrite bind_unfold. unfold row_count at 1.
  rewrite Hrows. cbn [length Nat.eqb].
  rewrite bind_unfold. unfold _press_key. cbn [assoc _virtual_keys String.eqb Ascii.eqb Bool.eqb].
  now rewrite perform_accepted.
Qed.

(** ** The scenario of the three requests *)

(** C1: for the requests OLDA, OLDB and OLDC against the rows
    ("OLDA","X") and ("OLDC","Y"), the engine returns "Text updated." for
    OLDA and "Document not found on the account!" for OLDB; for OLDC it
    returns "Text aready contains the desired value.", which is not the
    message "Text already contains the desired value."; the row of OLDC is
    opened and saved without a field being written. *)
Theorem three_requests_scenario :
  Scenario.message_of "OLDA" Scenario.run.1 = Some "Text updated."
  /\ Scenario.message_of "OLDB" Scenario.run.1 = Some "Document not found on the account!"
  /\ Scenario.message_of "OLDC" Scenario.run.1
     = Some "Text aready contains the desired value."
  /\ Scenario.message_of "OLDC" Scenario.run.1
     <> Some "Text already contains the desired value."
  /\ history Scenario.run.2
     = [ SetText "SD_BUKRS-LOW" "GuiCTextField" "0075";
         SetText "PA_VARI" "GuiCTextField" "";
         Press "wnd[0]" "%_SD_SAKNR_%_APP_%-VALU_PUSH";
         SendVKey 16; SendVKey 24; SendVKey 8;
         SelectRadio "X_OPSEL";
         SendVKey 8;
         SendVKey 38; SendVKey 42;
         FilterSelectedRows 1; Press "wnd[1]" "APP_WL_SING";
         Press "wnd[1]" "600_BUTTON";
         Press "wnd[2]" "%_%%DYN001_%_APP_%-VALU_PUSH";
         SendVKey 24; SendVKey 8; SendVKey 0;
         SelectedRows 0; CurrentCellRow 0; SendVKey 14; SendVKey 13;
         SetText "BSEG-SGTXT" "GuiCTextField" "NEWA"; SendVKey 11;
         SelectedRows 1; CurrentCellRow 1; SendVKey 14; SendVKey 13; SendVKey 11;
         SendVKey 3 ].
Proof. vm_compute. repeat split. discriminate. Qed.

(** ** A whole run over rows that leave nothing to write *)







(** ** The statements at concrete sessions *)

Lemma session_responsive (rows : list (string * string)) :
  responsive (Scenario.session rows).
Proof. intros h c. reflexivity. Defined.


Lemma every_request_has_an_outcome_witness :
  exists out w',
    Scenario.run = (Ok out, w')
    /\ dom out = dom Scenario.requests
    /\ forall k, k ∈ keys out <-> k ∈ keys Scenario.requests.
Proof.
  destruct Scenario.run as [[out|e] w'] eqn:Hrun.
  - exists out, w'. split; [reflexivity|].
    destruct (every_request_has_an_outcome _ _ _ _ _ _ _ _ _ Hrun) as (Hdom & _ & Hkeys & _).
    split; [exact Hdom | exact Hkeys].
  - exfalso. vm_compute in Hrun. discriminate Hrun.
Defined.

Lemma unknown_row_text_raises_witness :
  for_each [0; 1]%nat
    (update_item (Scenario.session [("ZZZ", "X"); ("OLDA", "X")]) Scenario.requests
       Scenario.grid_path)
    (write_default_messages Scenario.requests) Scenario.world0
  = (Raise (KeyError "ZZZ"), after_calls [SelectedRows 0; CurrentCellRow 0] Scenario.world0).
Proof.
  apply (unknown_row_text_raises _ _ _ _ 0 [1%nat] _ "ZZZ" "X").
  - apply session_responsive.
  - reflexivity.
  - vm_compute. reflexivity.
Defined.

Lemma field_length_guard_witness :
  (50 < len Scenario.long_text)%nat
  /\ (18 < len Scenario.long_assignment)%nat
  /\ (exists msg, _set_text (Scenario.session Scenario.rows) Scenario.long_text Scenario.world0
                  = (Raise (ValueError msg), Scenario.world0))
  /\ (exists msg, _set_assignment (Scenario.session Scenario.rows) Scenario.long_assignment
                    Scenario.world0
                  = (Raise (ValueError msg), Scenario.world0)).
Proof.
  assert (Ht : (50 < len Scenario.long_text)%nat) by (vm_compute; lia).
  assert (Ha : (18 < len Scenario.long_assignment)%nat) by (vm_compute; lia).
  destruct (field_length_guard (Scenario.session Scenario.rows) Scenario.world0 _ _ Ht Ha)
    as (Htext & Hassign & _).
  split; [exact Ht|]. split; [exact Ha|]. split; [exact Htext|].
  apply Hassign. vm_compute. discriminate.
Defined.

Lemma company_code_validation_witness :
  all_below_128 "0075" = true
  /\ len "0075" = 4%nat /\ all_decimal "0075" = true.
Proof.
  split; [reflexivity|].
  destruct company_code_validation as (_ & Hdigits & _).
  apply (Hdigits "0075" eq_refl). split; reflexivity.
Defined.

Lemma empty_filter_result_raises_witness :
  grid_rows (Scenario.filtered_out_session Scenario.rows) (history Scenario.w_loaded) <> []
  /\ grid_rows (Scenario.filtered_out_session Scenario.rows) (history Scenario.w_filtered) = []
  /\ change_document_parameters (Scenario.filtered_out_session Scenario.rows)
       [AccInt 12345678] "0075" Scenario.requests "open" "" Scenario.world0
     = (Raise (NoItemsFoundError
                 "Filtering on the searched text values returned no results!"),
        log_call (SendVKey 3) Scenario.w_filtered).
Proof.
  assert (Hne : grid_rows (Scenario.filtered_out_session Scenario.rows)
                  (history Scenario.w_loaded) <> []) by (vm_compute; discriminate).
  assert (He : grid_rows (Scenario.filtered_out_session Scenario.rows)
                 (history Scenario.w_filtered) = []) by (vm_compute; reflexivity).
  split; [exact Hne|]. split; [exact He|].
  apply (empty_filter_result_raises (Scenario.filtered_out_session Scenario.rows)
           _ _ _ _ _ Scenario.grid_path Scenario.world0 Scenario.w_loaded Scenario.w_filtered).
  - vm_compute. reflexivity.
  - exact Hne.
  - vm_compute. reflexivity.
  - exact He.
  - reflexivity.
Defined.

Lemma clipboard_cleared_after_bulk_insert_witness :
  (exists wa', _set_accounts Fixtures.no_filter_session [AccInt 12345678]
                 Fixtures.used_clipboard = (Ok tt, wa')
               /\ clipboard wa' = "")
  /\ (forall vals w, (_set_filter Fixtures.no_filter_session vals "SGTXT" w).1
                     = Raise ComError)
  /\ (exists wf', _set_filter (Scenario.session Scenario.rows) ["OLDA"; "OLDB"] "SGTXT"
                    Fixtures.used_clipboard
                  = (Ok tt, wf') /\ clipboard wf' = "").
Proof.
  split; [|split].
  - destruct (_set_accounts Fixtures.no_filter_session [AccInt 12345678]
                Fixtures.used_clipboard)
      as [[[]|e] wa'] eqn:Ha; [|exfalso; vm_compute in Ha; discriminate Ha].
    exists wa'. split; [reflexivity|].
    exact (proj1 (clipboard_cleared_after_bulk_insert _) _ _ _ Ha).
  - intros vals w. reflexivity.
  - destruct (_set_filter (Scenario.session Scenario.rows) ["OLDA"; "OLDB"] "SGTXT"
                Fixtures.used_clipboard)
      as [[[]|e] wf'] eqn:Hf; [|exfalso; vm_compute in Hf; discriminate Hf].
    exists wf'. split; [reflexivity|].
    exact (proj2 (clipboard_cleared_after_bulk_insert _) _ _ _ _ Hf).
Defined.

Lemma null_request_row_is_saved_witness :
  update_item (Scenario.session [("OLDC", "Y")]) Scenario.null_requests
    Scenario.grid_path 0 (write_default_messages Scenario.null_requests) Scenario.world0
  = (Ok (<["OLDC" := with_message "" (with_message default_message (Scenario.req None None))]>
           (write_default_messages Scenario.null_requests)),
     after_calls [SelectedRows 0; CurrentCellRow 0; SendVKey 14; SendVKey 13; SendVKey 11]
       Scenario.world0).
Proof.
  apply (null_request_row_is_saved (Scenario.session [("OLDC", "Y")])
           Scenario.null_requests _ _ 0 Scenario.world0 "OLDC" "Y" (Scenario.req None None)).
  - apply session_responsive.
  - reflexivity.
  - vm_compute. reflexivity.
  - reflexivity.
  - reflexivity.
  - vm_compute. reflexivity.
Defined.


(** * Further properties of the engine *)

Import RowSpec.

Lemma bind_Ok {A B} (m : M A) (f : A -> M B) (w w1 : world) (a : A) :
  m w = (Ok a, w1) -> (m ≫= f) w = f a w1.
Proof. intros H. now rewrite bind_unfold, H. Qed.

Lemma bind_Raise {A B} (m : M A) (f : A -> M B) (w w1 : world) (e : exn) :
  m w = (Raise e, w1) -> (m ≫= f) w = (Raise e, w1).
Proof. intros H. now rewrite bind_unfold, H. Qed.

Lemma bind_inv {A B} (m : M A) (f : A -> M B) (w w' : world) (r : result B) :
  (m ≫= f) w = (r, w') ->
  (exists a w1, m w = (Ok a, w1) /\ f a w1 = (r, w'))
  \/ (exists e, m w = (Raise e, w') /\ r = Raise e).
Proof.
  rewrite bind_unfold. destruct (m w) as [[a|e] w1]; intros H.
  - left. eauto.
  - right. injection H as <- <-. eauto.
Qed.

(** ** The status of the items to select *)

(** X1: [_set_line_items_selection] rejects with [ValueError] exactly the
    statuses other than "open", "cleared" and "all" (the comparison is case
    sensitive), and then nothing has reached the session; when it returns,
    the one call made selects the radio button of that status. *)
Theorem selection_status_validation (g : gui) (status : string) (w : world) :
  ((exists msg, (_set_line_items_selection g status w).1 = Raise (ValueError msg))
   <-> (status <> "open" /\ status <> "cleared" /\ status <> "all"))
  /\ (forall msg w',
        _set_line_items_selection g status w = (Raise (ValueError msg), w') -> w' = w)
  /\ (forall w',
        _set_line_items_selection g status w = (Ok tt, w') ->
        exists name,
          w' = log_call (SelectRadio name) w
          /\ ((status = "open" /\ name = "X_OPSEL")
              \/ (status = "cleared" /\ name = "X_CLSEL")
              \/ (status = "all" /\ name = "X_AISEL"))).
Proof.
  unfold _set_line_items_selection. rewrite bind_unfold.
  destruct (String.eqb_spec status "open") as [->|Ho];
    [|destruct (String.eqb_spec status "cleared") as [->|Hc];
      [|destruct (String.eqb_spec status "all") as [->|Ha]]];
    rewrite ?ret_unfold; unfold perform; cbn.
  1-3: destruct (accepts g (history w) _); cbn;
       (split; [split; [intros [msg H]; discriminate H | intros (H1 & H2 & H3); congruence]|]);
       (split; [intros msg w' H; discriminate H|]);
       intros w' H; try discriminate H; injection H as <-; eexists; split; [reflexivity|];
       auto.
  split; [split; [auto | intros _; eexists; reflexivity]|].
  split; [now intros msg w' [= _ <-] | intros w' H; discriminate H].
Qed.

Example selection_status_examples :
  (exists msg, (_set_line_items_selection (Scenario.session []) "Open" Scenario.world0).1
               = Raise (ValueError msg))
  /\ (exists msg, (_set_line_items_selection (Scenario.session []) "" Scenario.world0).1
                  = Raise (ValueError msg))
  /\ _set_line_items_selection (Scenario.session []) "cleared" Scenario.world0
     = (Ok tt, log_call (SelectRadio "X_CLSEL") Scenario.world0).
Proof. repeat split; eexists; reflexivity. Qed.

(** ** The account numbers *)

Lemma refusal_ret {A} (a : A) : fails_only_by_refusal (mret a : M A).
Proof. intros w e w' H. discriminate H. Qed.

Lemma refusal_bind {A B} (m : M A) (f : A -> M B) :
  fails_only_by_refusal m -> (forall a, fails_only_by_refusal (f a)) ->
  fails_only_by_refusal (m ≫= f).
Proof.
  intros Hm Hf w e w' H. apply bind_inv in H as [(a & w1 & _ & H)|(e' & H & [= ->])].
  - eapply Hf, H.
  - eapply Hm, H.
Qed.

Lemma refusal_perform (g : gui) (c : call) : fails_only_by_refusal (perform g c).
Proof.
  intros w e w'. unfold perform. destruct (accepts g (history w) c); [discriminate|].
  now intros [= <- _].
Qed.

Lemma refusal_press_key (g : gui) (name : string) (vkey : Z) :
  assoc name _virtual_keys = Some vkey -> fails_only_by_refusal (_press_key g name).
Proof. intros H. unfold _press_key. rewrite H. apply refusal_perform. Qed.

Lemma refusal_copy (s : string) : fails_only_by_refusal (copy_to_clipboard s).
Proof. intros w e w' H. discriminate H. Qed.

Lemma refusal_find_all_count (g : gui) (name type : string) :
  fails_only_by_refusal (find_all_count g name type).
Proof. intros w e w' H. discriminate H. Qed.

Lemma string_of_uint_numeric (d : Decimal.uint) :
  all_numeric (NilEmpty.string_of_uint d) = true.
Proof. induction d; simpl; auto. Qed.

Lemma str_int_numeric (n : N) : isnumeric (str (AccInt n)) = true.
Proof.
  unfold str.
  assert (Hnil : N.to_uint n <> Decimal.Nil).
  { destruct n as [|p]; [discriminate | apply DecimalPos.Unsigned.to_uint_nonnil]. }
  pose proof (string_of_uint_numeric (N.to_uint n)) as Hnum.
  destruct (N.to_uint n); [contradiction | ..]; exact Hnum.
Qed.

Lemma check_accounts_Forall (vals : list account) (w : world) :
  Forall (fun v => isnumeric (str v) = true) vals ->
  check_accounts vals w = (Ok tt, w).
Proof.
  induction 1 as [|v vals Hv _ IH]; simpl; [reflexivity|].
  now rewrite Hv.
Qed.

Lemma check_accounts_Exists (vals : list account) (w : world) :
  Exists (fun v => isnumeric (str v) = false) vals ->
  exists msg, check_accounts vals w = (Raise (ValueError msg), w).
Proof.
  induction 1 as [v vals Hv|v vals _ IH]; simpl.
  - rewrite Hv. eexists. reflexivity.
  - destruct (isnumeric (str v)); simpl; [exact IH | eexists; reflexivity].
Qed.

Lemma numeric_or_not (vals : list account) :
  Forall (fun v => isnumeric (str v) = true) vals
  \/ Exists (fun v => isnumeric (str v) = false) vals.
Proof.
  induction vals as [|v vals [IH|IH]]; [left; constructor | |right; now constructor].
  destruct (isnumeric (str v)) eqn:Hv; [left | right]; now constructor.
Qed.

Lemma numeric_not_both (vals : list account) :
  Forall (fun v => isnumeric (str v) = true) vals ->
  Exists (fun v => isnumeric (str v) = false) vals -> False.
Proof.
  intros HF HE. apply Exists_exists in HE as (v & Hin & Hv).
  rewrite Forall_forall in HF. specialize (HF v Hin). congruence.
Qed.

Lemma set_accounts_tail_refusal (g : gui) (vals : list account) :
  fails_only_by_refusal
    (perform g (Press "wnd[0]" "%_SD_SAKNR_%_APP_%-VALU_PUSH");;
     _press_key g "ShiftF4";;
     copy_to_clipboard (join crlf (map str vals));;
     _press_key g "ShiftF12";;
     _clear_clipboard;;
     _press_key g "F8").
Proof.
  repeat (apply refusal_bind; [|intros _]);
    first [ apply refusal_perform | apply refusal_copy
          | eapply refusal_press_key; reflexivity ].
Qed.

(** X2: [_set_accounts] raises [ValueError] exactly when the list is empty
    or holds an account whose printed form is not numeric; the session and
    the clipboard are then as before, so nothing is staged or sent for an
    invalid list.  Accounts given as non-negative integers are never the
    cause of a rejection. *)
Theorem set_accounts_validation (g : gui) (vals : list account) (w : world) :
  ((exists msg, (_set_accounts g vals w).1 = Raise (ValueError msg))
   <-> (vals = [] \/ Exists (fun v => isnumeric (str v) = false) vals))
  /\ (forall msg w', _set_accounts g vals w = (Raise (ValueError msg), w') -> w' = w)
  /\ (forall n, isnumeric (str (AccInt n)) = true).
Proof.
  split; [|split; [|exact str_int_numeric]].
  - unfold _set_accounts. destruct vals as [|v vals].
    { simpl. split; [auto | intros _; eexists; reflexivity]. }
    cbn [length Nat.eqb]. rewrite bind_unfold.
    destruct (numeric_or_not (v :: vals)) as [HF|HE].
    + rewrite (check_accounts_Forall _ _ HF). split.
      * intros [msg H].
        match type of H with
        | (?m w).1 = _ => destruct (m w) as [[[]|e] w'] eqn:Hrun
        end; [discriminate H|].
        simpl in H. injection H as ->.
        apply (set_accounts_tail_refusal g (v :: vals)) in Hrun. discriminate Hrun.
      * intros [H|H]; [discriminate H | destruct (numeric_not_both _ HF H)].
    + destruct (check_accounts_Exists _ w HE) as [msg ->]. split; eauto.
  - intros msg w'. unfold _set_accounts. destruct vals as [|v vals].
    { simpl. now intros [= _ <-]. }
    cbn [length Nat.eqb]. rewrite bind_unfold.
    destruct (numeric_or_not (v :: vals)) as [HF|HE].
    + rewrite (check_accounts_Forall _ _ HF). intros Hrun.
      apply (set_accounts_tail_refusal g (v :: vals)) in Hrun. discriminate Hrun.
    + destruct (check_accounts_Exists _ w HE) as [msg' ->]. now intros [= _ <-].
Qed.



Lemma bare_session_responsive (rows : list (string * string)) :
  responsive (Fixtures.bare_session rows).
Proof. intros h c. reflexivity. Defined.

(** ** Loading on a session that refuses the key *)

(** X4: when the session refuses the load key F8, [_load_items] raises
    [ItemLoadingError] with the text "Could not load account data!"; the
    status bar is not consulted and nothing is added to the history. *)
Theorem load_items_key_refused (g : gui) (w : world) :
  accepts g (history w) (SendVKey 8) = false ->
  _load_items g w = (Raise (ItemLoadingError "Could not load account data!"), w).
Proof.
  intros Hacc. unfold _load_items. rewrite bind_unfold. unfold try_except.
  unfold _press_key. cbn [assoc _virtual_keys String.eqb Ascii.eqb Bool.eqb].
  unfold perform. rewrite Hacc. reflexivity.
Qed.

Lemma load_items_key_refused_witness :
  _load_items Fixtures.lost_session Scenario.world0
  = (Raise (ItemLoadingError "Could not load account data!"), Scenario.world0).
Proof. apply (load_items_key_refused Fixtures.lost_session Scenario.world0). reflexivity. Defined.

(** ** The field that receives the company code *)

Lemma log_call_after (c : call) (w : world) : log_call c w = after_calls [c] w.
Proof. reflexivity. Qed.

Lemma find_all_count_bind {B} (g : gui) (name type : string) (f : nat -> M B) (w : world) :
  (find_all_count g name type ≫= f) w = f (find_count g (history w) name type) w.
Proof. reflexivity. Qed.

(** X5: on a session that refuses nothing, a company code that passes the
    guard is written to the field SD_BUKRS-LOW when the screen has it,
    otherwise to SO_WLBUK-LOW when the screen has that one, and to no field
    at all when the screen has neither: in that case [_set_company_code]
    returns normally with nothing entered. *)
Theorem company_code_field (g : gui) (val : string) (w : world) :
  responsive g ->
  val = "" \/ (len val = 4%nat /\ isnumeric val = true) ->
  let sd := find_count g (history w) "SD_BUKRS-LOW" "GuiCTextField" in
  let so := find_count g (history w) "SO_WLBUK-LOW" "GuiCTextField" in
  (sd <> 0%nat ->
   _set_company_code g val w
   = (Ok tt, after_calls [SetText "SD_BUKRS-LOW" "GuiCTextField" val] w))
  /\ (sd = 0%nat -> so <> 0%nat ->
      _set_company_code g val w
      = (Ok tt, after_calls [SetText "SO_WLBUK-LOW" "GuiCTextField" val] w))
  /\ (sd = 0%nat -> so = 0%nat -> _set_company_code g val w = (Ok tt, w)).
Proof.
  intros Hg Hval sd so. apply company_code_guard in Hval.
  unfold _set_company_code. rewrite Hval. cbn [negb].
  rewrite find_all_count_bind. subst sd so.
  repeat split.
  - intros Hsd.
    replace (0 <? find_count g (history w) "SD_BUKRS-LOW" "GuiCTextField")%nat
      with true by (symmetry; apply Nat.ltb_lt; lia).
    cbv beta iota. now rewrite perform_accepted by apply Hg.
  - intros Hsd Hso. rewrite Hsd. change (0 <? 0)%nat with false. cbv iota.
    rewrite find_all_count_bind.
    replace (0 <? find_count g (history w) "SO_WLBUK-LOW" "GuiCTextField")%nat
      with true by (symmetry; apply Nat.ltb_lt; lia).
    cbv beta iota. now rewrite perform_accepted by apply Hg.
  - intros Hsd Hso. rewrite Hsd. change (0 <? 0)%nat with false. cbv iota.
    rewrite find_all_count_bind, Hso. reflexivity.
Qed.

Lemma company_code_field_witness :
  _set_company_code (Fixtures.bare_session []) "0075" Scenario.world0
  = (Ok tt, Scenario.world0).
Proof.
  destruct (company_code_field (Fixtures.bare_session []) "0075" Scenario.world0)
    as (_ & _ & H).
  - apply bare_session_responsive.
  - right. split; reflexivity.
  - apply H; reflexivity.
Defined.

(** ** The criterion of the filter *)

(** X6: on a session that refuses nothing, [_set_filter] adds one filter
    criterion at most: it selects the first row of the list of criteria
    whose field name is the requested one and adds it; when no row has that
    name it selects and adds nothing, and all the same defines the filter
    values, pastes them and confirms.  In both cases the clipboard is empty
    in the end. *)
Theorem set_filter_criterion (g : gui) (vals : list string) (fld : string) (w : world) :
  responsive g ->
  let names := filter_fields g (history w ++ [SendVKey 38; SendVKey 42]) in
  (fld ∉ names ->
   _set_filter g vals fld w
   = (Ok tt, {| sess := sess w;
                history := history w
                  ++ [SendVKey 38; SendVKey 42;
                      Press "wnd[1]" "600_BUTTON";
                      Press "wnd[2]" "%_%%DYN001_%_APP_%-VALU_PUSH";
                      SendVKey 24; SendVKey 8; SendVKey 0];
                clipboard := "" |}))
  /\ (forall i,
        names !! i = Some fld ->
        (forall j, (j < i)%nat -> names !! j <> Some fld) ->
        _set_filter g vals fld w
        = (Ok tt, {| sess := sess w;
                     history := history w
                       ++ [SendVKey 38; SendVKey 42;
                           FilterSelectedRows i; Press "wnd[1]" "APP_WL_SING";
                           Press "wnd[1]" "600_BUTTON";
                           Press "wnd[2]" "%_%%DYN001_%_APP_%-VALU_PUSH";
                           SendVKey 24; SendVKey 8; SendVKey 0];
                     clipboard := "" |})).
Proof.
  intros Hg names.
  assert (Hstart : forall (k : M unit),
             (_press_key g "CtrlShiftF2";; _press_key g "CtrlShiftF6";; k) w
             = k (after_calls [SendVKey 38; SendVKey 42] w)).
  { intros k.
    erewrite bind_Ok by (apply press_key_responsive; [exact Hg | reflexivity]).
    erewrite bind_Ok by (apply press_key_responsive; [exact Hg | reflexivity]).
    f_equal. unfold log_call, after_calls. cbn [sess history clipboard].
    now rewrite <- app_assoc. }
  unfold _set_filter. rewrite Hstart.
  erewrite bind_Ok by reflexivity.
  erewrite bind_Ok by reflexivity. cbn [after_calls history]. fold names.
  split.
  - intros Hnot.
    assert (Hfind : list_find (fun name => String.eqb name fld = true) names = None).
    { apply list_find_None, Forall_forall. intros name Hin Heq.
      apply String.eqb_eq in Heq. subst name. contradiction. }
    rewrite Hfind. rewrite bind_ret.
    do 2 erewrite bind_Ok by (apply perform_accepted, Hg).
    erewrite bind_Ok by reflexivity.
    erewrite bind_Ok by (apply press_key_responsive; [exact Hg | reflexivity]).
    erewrite bind_Ok by reflexivity.
    erewrite bind_Ok by (apply press_key_responsive; [exact Hg | reflexivity]).
    rewrite press_key_responsive with (vkey := 0) by (trivial; reflexivity).
    unfold log_call, after_calls. cbn [sess history clipboard].
    now rewrite <- !app_assoc.
  - intros i Hi Hfirst.
    assert (Hfind : list_find (fun name => String.eqb name fld = true) names
                    = Some (i, fld)).
    { apply list_find_Some. split; [exact Hi|]. split; [apply String.eqb_refl|].
      intros j y Hj Hlt Heq. apply String.eqb_eq in Heq. subst y.
      exact (Hfirst j Hlt Hj). }
    rewrite Hfind.
    erewrite bind_Ok; cycle 1.
    { erewrite bind_Ok by (apply perform_accepted, Hg).
      unfold _add_filter_criterion. apply perform_accepted, Hg. }
    do 2 erewrite bind_Ok by (apply perform_accepted, Hg).
    erewrite bind_Ok by reflexivity.
    erewrite bind_Ok by (apply press_key_responsive; [exact Hg | reflexivity]).
    erewrite bind_Ok by reflexivity.
    erewrite bind_Ok by (apply press_key_responsive; [exact Hg | reflexivity]).
    rewrite press_key_responsive with (vkey := 0) by (trivial; reflexivity).
    unfold log_call, after_calls. cbn [sess history clipboard].
    now rewrite <- !app_assoc.
Qed.

Lemma set_filter_criterion_witness :
  _set_filter (Fixtures.bare_session []) ["OLDA"] "SGTXT" Scenario.world0
  = (Ok tt, {| sess := true;
               history := [SendVKey 38; SendVKey 42;
                           Press "wnd[1]" "600_BUTTON";
                           Press "wnd[2]" "%_%%DYN001_%_APP_%-VALU_PUSH";
                           SendVKey 24; SendVKey 8; SendVKey 0];
               clipboard := "" |}).
Proof.
  destruct (set_filter_criterion (Fixtures.bare_session []) ["OLDA"] "SGTXT" Scenario.world0)
    as [H _].
  - apply bare_session_responsive.
  - apply H. intros Hin. vm_compute in Hin.
    repeat (apply elem_of_cons in Hin as [Hin|Hin]; [discriminate Hin|]).
    now apply elem_of_nil in Hin.
Defined.

(** ** One pass of the update loop, in general *)

Lemma bind_assoc {A B C} (m : M A) (f : A -> M B) (k : B -> M C) (w : world) :
  ((m ≫= f) ≫= k) w = (m ≫= (fun a => f a ≫= k)) w.
Proof. rewrite !bind_unfold. destruct (m w) as [[a|e] w1]; reflexivity. Qed.

Lemma set_text_ok (g : gui) (val : string) (w : world) :
  responsive g -> (len val <= 50)%nat ->
  _set_text g val w = (Ok tt, log_call (SetText "BSEG-SGTXT" "GuiCTextField" val) w).
Proof.
  intros Hg Hlen. unfold _set_text.
  replace (50 <? len val)%nat with false by (symmetry; apply Nat.ltb_ge; lia).
  apply perform_accepted, Hg.
Qed.

Lemma set_assignment_ok (g : gui) (val : string) (w : world) :
  responsive g -> (len val <= 18)%nat ->
  find_count g (history w) "BSEG-ZUONR" "GuiTextField" <> 0%nat ->
  _set_assignment g val w = (Ok tt, log_call (SetText "BSEG-ZUONR" "GuiTextField" val) w).
Proof.
  intros Hg Hlen Hn. unfold _set_assignment. rewrite find_all_count_bind.
  apply Nat.eqb_neq in Hn. rewrite Hn.
  replace (18 <? len val)%nat with false by (symmetry; apply Nat.ltb_ge; lia).
  apply perform_accepted, Hg.
Qed.


Ltac row_step Hg :=
  first
    [ rewrite bind_ret
    | rewrite bind_assoc
    | erewrite bind_Ok by (apply press_key_responsive; [exact Hg | reflexivity])
    | erewrite bind_Ok by (eapply add_message_Some; [apply lookup_insert_eq | reflexivity])
    | erewrite bind_Ok by (eapply strip_message_Some; [apply lookup_insert_eq | reflexivity])
    | erewrite bind_Ok by (apply set_text_ok; [exact Hg | auto])
    | erewrite bind_Ok by (apply set_assignment_ok; [exact Hg | auto | auto])
    | erewrite strip_message_Some by first [apply lookup_insert_eq | reflexivity]
    | rewrite ret_unfold ];
  cbv beta iota.

Ltac row_world :=
  unfold row_selected, log_call, after_calls; cbn [sess history clipboard app];
  rewrite <- ?app_assoc; cbn [app].

(** X7: on a session that refuses nothing and shows the assignment field,
    for a row whose text is requested and whose new values fit the fields,
    one pass of the update loop sends the calls [row_calls] and sets the
    message of the entry to the trimmed phrases [row_phrases], whatever the
    message was before.  So a field is written exactly when the request
    gives a value for it that differs from the row, the text before the
    assignment; the row is opened (Shift+F2, Shift+F1) and saved (Ctrl+S)
    unless both fields were found equal to the requested values; and the
    message gives the phrases of the fields found unchanged before those
    of the fields updated, in each group the text before the assignment:
    a new text with the assignment the row already has yields "Assignment
    aready contains the desired value. Text updated.". *)
Theorem update_item_outcome (g : gui) (parameters output : gmap string entry)
    (tbl : handle) (idx : nat) (w : world) (t a : string) (p e : entry) :
  responsive g ->
  (forall h, find_count g h "BSEG-ZUONR" "GuiTextField" <> 0%nat) ->
  grid_rows g (history (row_selected idx w)) !! idx = Some (t, a) ->
  parameters !! t = Some p ->
  output !! t = Some e ->
  (forall nt, new_text p = Some nt -> (len nt <= 50)%nat) ->
  (forall na, new_assignment p = Some na -> (len na <= 18)%nat) ->
  update_item g parameters tbl idx output w
  = (Ok (<[t := with_message (strip (row_phrases p t a)) e]> output),
     after_calls (row_calls p t a idx) w).
Proof.
  intros Hg Hfield Hrow Hp He Hlt Hla. unfold update_item.
  rewrite (bind_Ok _ _ _ _ _ (get_item_params_row _ _ _ _ _ _ Hg Hrow)).
  rewrite (bind_Ok _ _ _ _ _ (getitem_Some _ _ _ _ Hp)).
  rewrite (bind_Ok _ _ _ _ _ (getitem_Some _ _ _ _ Hp)).
  rewrite (bind_Ok _ _ _ _ _ (set_message_Some _ _ "" _ _ He)).
  unfold row_phrases, row_calls, same, differs.
  destruct (new_text p) as [nt|] eqn:Hnt;
    [specialize (Hlt nt eq_refl); destruct (String.eqb nt t) eqn:Et|];
    (destruct (new_assignment p) as [na|] eqn:Hna;
     [specialize (Hla na eq_refl); destruct (String.eqb na a) eqn:Ea|]);
    cbn [is_not_none py_eq andb orb negb str_opt]; rewrite ?Et, ?Ea;
    cbn [andb orb negb];
    repeat row_step Hg; cbn [andb orb negb]; repeat row_step Hg;
    rewrite ?insert_insert_eq; row_world; reflexivity.
Qed.

Lemma update_item_outcome_witness :
  update_item (Scenario.session [("OLDA", "X")]) Fixtures.both_requests
    Scenario.grid_path 0 (write_default_messages Fixtures.both_requests) Scenario.world0
  = (Ok (<["OLDA" := with_message "Text updated. Assignment updated."
                       (Scenario.req (Some "NEWA") (Some "ASG1"))]>
           (write_default_messages Fixtures.both_requests)),
     after_calls [SelectedRows 0; CurrentCellRow 0; SendVKey 14; SendVKey 13;
                  SetText "BSEG-SGTXT" "GuiCTextField" "NEWA";
                  SetText "BSEG-ZUONR" "GuiTextField" "ASG1";
                  SendVKey 11] Scenario.world0).
Proof.
  apply (update_item_outcome (Scenario.session [("OLDA", "X")]) Fixtures.both_requests
           _ _ 0 Scenario.world0 "OLDA" "X" (Scenario.req (Some "NEWA") (Some "ASG1"))
           (with_message default_message (Scenario.req (Some "NEWA") (Some "ASG1")))).
  - apply session_responsive.
  - intros h. discriminate.
  - reflexivity.
  - vm_compute. reflexivity.
  - vm_compute. reflexivity.
  - intros nt [= <-]. vm_compute. lia.
  - intros na [= <-]. vm_compute. lia.
Defined.

Example row_phrases_order :
  strip (row_phrases (Scenario.req (Some "NEWA") (Some "X")) "OLDA" "X")
  = "Assignment aready contains the desired value. Text updated."
  /\ strip (row_phrases (Scenario.req (Some "OLDA") (Some "ASG1")) "OLDA" "X")
     = "Text aready contains the desired value. Assignment updated."
  /\ strip (row_phrases (Scenario.req (Some "NEWA") (Some "ASG1")) "OLDA" "X")
     = "Text updated. Assignment updated.".
Proof. vm_compute. repeat split. Qed.

(** ** Values that do not fit, met in the middle of a run *)

Lemma set_text_long (g : gui) (val : string) (w : world) :
  (50 < len val)%nat ->
  exists msg, _set_text g val w = (Raise (ValueError msg), w).
Proof.
  intros Hlen. unfold _set_text. apply Nat.ltb_lt in Hlen. rewrite Hlen.
  eexists. reflexivity.
Qed.

Lemma set_assignment_long (g : gui) (val : string) (w : world) :
  (18 < len val)%nat ->
  find_count g (history w) "BSEG-ZUONR" "GuiTextField" <> 0%nat ->
  exists msg, _set_assignment g val w = (Raise (ValueError msg), w).
Proof.
  intros Hlen Hn. unfold _set_assignment. rewrite find_all_count_bind.
  apply Nat.eqb_neq in Hn. rewrite Hn. apply Nat.ltb_lt in Hlen. rewrite Hlen.
  eexists. reflexivity.
Qed.

(** X8: the length of a new text is checked only when its row is reached.
    For a row whose requested text differs from the row and is longer than
    50 characters, the pass raises [ValueError] after the row has been
    selected and opened for editing (Shift+F2, Shift+F1): no field is
    written, the row is not saved, and no outcome is returned. *)
Theorem update_item_long_text (g : gui) (parameters output : gmap string entry)
    (tbl : handle) (idx : nat) (w : world) (t a nt : string) (p e : entry) :
  responsive g ->
  grid_rows g (history (row_selected idx w)) !! idx = Some (t, a) ->
  parameters !! t = Some p ->
  output !! t = Some e ->
  new_text p = Some nt ->
  nt <> t ->
  (50 < len nt)%nat ->
  exists msg,
    update_item g parameters tbl idx output w
    = (Raise (ValueError msg),
       after_calls [SelectedRows idx; CurrentCellRow idx; SendVKey 14; SendVKey 13] w).
Proof.
  intros Hg Hrow Hp He Hnt Hne Hlen. unfold update_item.
  rewrite (bind_Ok _ _ _ _ _ (get_item_params_row _ _ _ _ _ _ Hg Hrow)).
  rewrite (bind_Ok _ _ _ _ _ (getitem_Some _ _ _ _ Hp)).
  rewrite (bind_Ok _ _ _ _ _ (getitem_Some _ _ _ _ Hp)).
  rewrite (bind_Ok _ _ _ _ _ (set_message_Some _ _ "" _ _ He)).
  rewrite Hnt. apply String.eqb_neq in Hne.
  cbn [is_not_none py_eq andb str_opt]. rewrite Hne.
  assert (Hraise : forall w1, exists msg, _set_text g nt w1 = (Raise (ValueError msg), w1))
    by (intros w1; now apply set_text_long).
  destruct (new_assignment p) as [na|]; [destruct (String.eqb na a) eqn:Ea|];
    cbn [is_not_none py_eq andb orb negb]; rewrite ?Ea; cbn [andb orb negb];
    repeat row_step Hg; cbn [andb orb negb]; repeat row_step Hg;
    match goal with
    | |- context [(_set_text g nt ≫= _) ?w1] => destruct (Hraise w1) as [msg Hmsg]
    end;
    exists msg; rewrite (bind_Raise _ _ _ _ _ Hmsg); row_world; reflexivity.
Qed.

Lemma update_item_long_text_witness :
  exists msg,
    update_item (Scenario.session [("OLDA", "X")]) Fixtures.long_text_requests
      Scenario.grid_path 0 (write_default_messages Fixtures.long_text_requests)
      Scenario.world0
    = (Raise (ValueError msg),
       after_calls [SelectedRows 0; CurrentCellRow 0; SendVKey 14; SendVKey 13]
         Scenario.world0).
Proof.
  apply (update_item_long_text (Scenario.session [("OLDA", "X")])
           Fixtures.long_text_requests _ _ 0 Scenario.world0 "OLDA" "X" Scenario.long_text
           (Scenario.req (Some Scenario.long_text) None)
           (with_message default_message (Scenario.req (Some Scenario.long_text) None))).
  - apply session_responsive.
  - reflexivity.
  - vm_compute. reflexivity.
  - vm_compute. reflexivity.
  - reflexivity.
  - discriminate.
  - vm_compute. lia.
Defined.

(** X9: a new assignment longer than 18 characters is detected after the
    new text of the same row has been typed.  When both differ from the
    row and the text fits, the pass writes the text field, then raises
    [ValueError] for the assignment: the row stays open with the new text
    entered and is not saved. *)
Theorem update_item_long_assignment (g : gui) (parameters output : gmap string entry)
    (tbl : handle) (idx : nat) (w : world) (t a nt na : string) (p e : entry) :
  responsive g ->
  (forall h, find_count g h "BSEG-ZUONR" "GuiTextField" <> 0%nat) ->
  grid_rows g (history (row_selected idx w)) !! idx = Some (t, a) ->
  parameters !! t = Some p ->
  output !! t = Some e ->
  new_text p = Some nt -> nt <> t -> (len nt <= 50)%nat ->
  new_assignment p = Some na -> na <> a -> (18 < len na)%nat ->
  exists msg,
    update_item g parameters tbl idx output w
    = (Raise (ValueError msg),
       after_calls [SelectedRows idx; CurrentCellRow idx; SendVKey 14; SendVKey 13;
                    SetText "BSEG-SGTXT" "GuiCTextField" nt] w).
Proof.
  intros Hg Hfield Hrow Hp He Hnt Hnet Hlt Hna Hnea Hla. unfold update_item.
  rewrite (bind_Ok _ _ _ _ _ (get_item_params_row _ _ _ _ _ _ Hg Hrow)).
  rewrite (bind_Ok _ _ _ _ _ (getitem_Some _ _ _ _ Hp)).
  rewrite (bind_Ok _ _ _ _ _ (getitem_Some _ _ _ _ Hp)).
  rewrite (bind_Ok _ _ _ _ _ (set_message_Some _ _ "" _ _ He)).
  rewrite Hnt, Hna. apply String.eqb_neq in Hnet, Hnea.
  cbn [is_not_none py_eq andb str_opt]. rewrite Hnet, Hnea.
  cbn [andb orb negb].
  repeat row_step Hg. cbn [andb orb negb]. repeat row_step Hg.
  match goal with
  | |- context [(_set_assignment g na ≫= _) ?w1] =>
      destruct (set_assignment_long g na w1 Hla (Hfield _)) as [msg Hmsg]
  end.
  exists msg. rewrite (bind_Raise _ _ _ _ _ Hmsg). row_world. reflexivity.
Qed.

Lemma update_item_long_assignment_witness :
  exists msg,
    update_item (Scenario.session [("OLDA", "X")]) Fixtures.long_assignment_requests
      Scenario.grid_path 0 (write_default_messages Fixtures.long_assignment_requests)
      Scenario.world0
    = (Raise (ValueError msg),
       after_calls [SelectedRows 0; CurrentCellRow 0; SendVKey 14; SendVKey 13;
                    SetText "BSEG-SGTXT" "GuiCTextField" "NEWA"] Scenario.world0).
Proof.
  apply (update_item_long_assignment (Scenario.session [("OLDA", "X")])
           Fixtures.long_assignment_requests _ _ 0 Scenario.world0 "OLDA" "X"
           "NEWA" Scenario.long_assignment
           (Scenario.req (Some "NEWA") (Some Scenario.long_assignment))
           (with_message default_message
              (Scenario.req (Some "NEWA") (Some Scenario.long_assignment)))).
  - apply session_responsive.
  - intros h. discriminate.
  - reflexivity.
  - vm_compute. reflexivity.
  - vm_compute. reflexivity.
  - reflexivity.
  - discriminate.
  - vm_compute. lia.
  - reflexivity.
  - discriminate.
  - vm_compute. lia.
Defined.

(** ** A screen without the assignment field *)



(** ** What a run leaves behind *)

Lemma appends_ret {A} (a : A) : appends (mret a : M A).
Proof. intros w r w' [= <- <-]. repeat split; auto. exists []. now rewrite app_nil_r. Qed.

Lemma appends_throw {A} (e : exn) : appends (mthrow e : M A).
Proof. intros w r w' [= <- <-]. repeat split; auto. exists []. now rewrite app_nil_r. Qed.

Lemma appends_bind {A B} (m : M A) (f : A -> M B) :
  appends m -> (forall a, appends (f a)) -> appends (m ≫= f).
Proof.
  intros Hm Hf w r w' H.
  apply bind_inv in H as [(a & w1 & H1 & H2)|(e & H1 & ->)].
  - destruct (Hm _ _ _ H1) as (Hs1 & Hc1 & cs1 & Hh1).
    destruct (Hf a _ _ _ H2) as (Hs2 & Hc2 & cs2 & Hh2).
    repeat split; [congruence | congruence |].
    exists (cs1 ++ cs2). now rewrite Hh2, Hh1, app_assoc.
  - exact (Hm _ _ _ H1).
Qed.

Lemma appends_perform (g : gui) (c : call) : appends (perform g c).
Proof.
  intros w r w'. unfold perform. destruct (accepts g (history w) c); intros [= <- <-].
  - repeat split; auto. now exists [c].
  - repeat split; auto. exists []. now rewrite app_nil_r.
Qed.

Lemma appends_press_key (g : gui) (name : string) : appends (_press_key g name).
Proof.
  unfold _press_key. destruct (assoc name _virtual_keys).
  - apply appends_perform.
  - apply appends_throw.
Qed.

Lemma appends_read {A} (f : world -> result A) : appends (fun w => (f w, w)).
Proof. intros w r w' [= <- <-]. repeat split; auto. exists []. now rewrite app_nil_r. Qed.

Lemma appends_get_cell_value (g : gui) (tbl : handle) (idx : nat) (column : string) :
  appends (get_cell_value g tbl idx column).
Proof.
  intros w r w'. unfold get_cell_value.
  destruct (grid_rows g (history w) !! idx) as [[text assignment]|];
    repeat destruct (String.eqb _ _); intros [= <- <-];
    (repeat split; auto; exists []; now rewrite app_nil_r).
Qed.

Lemma appends_getitem (d : gmap string entry) (k : string) : appends (getitem d k).
Proof. unfold getitem. destruct (d !! k); [apply appends_ret | apply appends_throw]. Qed.

Ltac appends_tac :=
  repeat first
    [ apply appends_ret | apply appends_throw | apply appends_perform
    | apply appends_press_key | apply appends_getitem | apply appends_get_cell_value
    | apply appends_read
    | apply appends_bind; [|intros ?]
    | match goal with
      | |- appends (if ?c then _ else _) => destruct c
      | |- appends (match ?x with _ => _ end) => destruct x
      end ].

Lemma appends_set_message (k m : string) (d : gmap string entry) :
  appends (set_message k m d).
Proof. unfold set_message. appends_tac. Qed.

Lemma appends_get_message (k : string) (d : gmap string entry) :
  appends (get_message k d).
Proof. unfold get_message. appends_tac. Qed.

Lemma appends_add_message (k m : string) (d : gmap string entry) :
  appends (add_message k m d).
Proof.
  unfold add_message. apply appends_bind; [apply appends_get_message|].
  intros ?. apply appends_set_message.
Qed.

Lemma appends_strip_message (k : string) (d : gmap string entry) :
  appends (strip_message k d).
Proof.
  unfold strip_message. apply appends_bind; [apply appends_get_message|].
  intros ?. apply appends_set_message.
Qed.

Lemma appends_set_text (g : gui) (val : string) : appends (_set_text g val).
Proof. unfold _set_text. appends_tac. Qed.

Lemma appends_set_assignment (g : gui) (val : string) : appends (_set_assignment g val).
Proof. unfold _set_assignment, find_all_count. appends_tac. Qed.

Lemma appends_get_item_params (g : gui) (tbl : handle) (idx : nat) :
  appends (_get_item_params g tbl idx).
Proof. unfold _get_item_params. appends_tac. Qed.

Lemma appends_update_item (g : gui) (parameters output : gmap string entry)
    (tbl : handle) (idx : nat) :
  appends (update_item g parameters tbl idx output).
Proof.
  unfold update_item.
  repeat first
    [ apply appends_get_item_params | apply appends_set_message
    | apply appends_add_message | apply appends_strip_message
    | apply appends_set_text | apply appends_set_assignment
    | progress appends_tac ].
Qed.

Lemma appends_for_each (g : gui) (parameters : gmap string entry) (tbl : handle)
    (idxs : list nat) (output : gmap string entry) :
  appends (for_each idxs (update_item g parameters tbl) output).
Proof.
  revert output. induction idxs as [|idx idxs IH]; intros output; cbn [for_each].
  - apply appends_ret.
  - apply appends_bind; [apply appends_update_item | exact IH].
Qed.

Lemma set_filter_clipboard (g : gui) (vals : list string) (fld : string) (w w' : world) :
  _set_filter g vals fld w = (Ok tt, w') -> clipboard w' = "".
Proof.
  intros Hf. unfold _set_filter in Hf.
  do 9 (apply bind_Ok_inv in Hf as (? & ? & _ & Hf)).
  apply bind_Ok_inv in Hf as (? & w1 & Hclear & Hf).
  apply bind_Ok_inv in Hf as (? & w2 & HF8 & Hf).
  apply press_key_clipboard in Hf, HF8. rewrite Hf, HF8.
  unfold _clear_clipboard, copy_to_clipboard in Hclear.
  inversion Hclear. reflexivity.
Qed.

Lemma press_key_Ok_inv (g : gui) (name : string) (w w' : world) :
  _press_key g name w = (Ok tt, w') ->
  exists vkey, assoc name _virtual_keys = Some vkey /\ w' = log_call (SendVKey vkey) w.
Proof.
  unfold _press_key. destruct (assoc name _virtual_keys) as [vkey|]; [|discriminate].
  unfold perform. destruct (accepts g (history w) _); [|discriminate].
  intros [= <-]. eauto.
Qed.

(** X11: whenever [change_document_parameters] returns an outcome, the
    last call it made is the F3 that leaves the list of items, and the
    clipboard, which held the requested texts while the filter was set, is
    empty. *)
Theorem normal_return_leaves_the_list (g : gui) (accounts : list account)
    (company_code status layout : string) (parameters out : gmap string entry)
    (w w' : world) :
  change_document_parameters g accounts company_code parameters status layout w
  = (Ok out, w') ->
  clipboard w' = "" /\ exists h, history w' = h ++ [SendVKey 3].
Proof.
  intros H. unfold change_document_parameters in H.
  apply bind_Ok_inv in H as (tbl & w1 & _ & H).
  apply bind_Ok_inv in H as ([] & w2 & Hclip%set_filter_clipboard & H).
  unfold update_items in H.
  apply bind_Ok_inv in H as (n & w3 & Hn & H).
  injection Hn as _ <-.
  destruct (n =? 0)%nat.
  { apply bind_Ok_inv in H as (? & w4 & _ & H). discriminate H. }
  apply bind_Ok_inv in H as (n' & w4 & Hn' & H).
  injection Hn' as _ <-.
  apply bind_Ok_inv in H as (o & w5 & Hloop & H).
  apply bind_Ok_inv in H as ([] & w6 & Hkey & H).
  rewrite ret_unfold in H. injection H as <- <-.
  apply appends_for_each in Hloop as (_ & Hc & _).
  apply press_key_Ok_inv in Hkey as (vkey & Hvkey & ->).
  injection Hvkey as <-.
  split; [cbn; congruence | eexists; reflexivity].
Qed.

Lemma normal_return_leaves_the_list_witness :
  clipboard Scenario.run.2 = ""
  /\ exists h, history Scenario.run.2 = h ++ [SendVKey 3].
Proof.
  destruct Scenario.run as [[out|e] w'] eqn:Hrun.
  - exact (normal_return_leaves_the_list _ _ _ _ _ _ _ _ _ Hrun).
  - exfalso. vm_compute in Hrun. discriminate Hrun.
Defined.

(** ** A module that has not been started *)

(** X12: when the module has not been started, [change_document_parameters]
    raises [UninitializedModuleError] before anything else: no call
    reaches the session and the clipboard is not touched, whatever the
    arguments. *)
Theorem not_started_raises (g : gui) (accounts : list account)
    (company_code status layout : string) (parameters : gmap string entry) (w : world) :
  sess w = false ->
  exists msg,
    change_document_parameters g accounts company_code parameters status layout w
    = (Raise (UninitializedModuleError msg), w).
Proof.
  intros Hs. unfold change_document_parameters, select_and_load.
  eexists. erewrite bind_Raise; [reflexivity|].
  erewrite bind_Raise; [reflexivity|].
  unfold _check_prerequisities. rewrite Hs. reflexivity.
Qed.

Lemma not_started_raises_witness :
  exists msg,
    change_document_parameters (Scenario.session Scenario.rows) [AccInt 12345678] "0075"
      Scenario.requests "open" "" Fixtures.unbound_world
    = (Raise (UninitializedModuleError msg), Fixtures.unbound_world).
Proof. apply not_started_raises. reflexivity. Defined.

(** * Properties of the controller *)

(** ** The processing input *)

Import UserInput.

Lemma processing_input_step_other (records : list user_row)
    (m : gmap (option string) entry) (k : option string) :
  Forall (fun r => row_old_text r <> k) records ->
  foldl (fun result rec => <[row_old_text rec := processing_entry rec]> result) m records !! k
  = m !! k.
Proof.
  revert m. induction records as [|r records IH]; intros m HF; [reflexivity|].
  apply Forall_cons in HF as [Hr HF]. cbn [foldl].
  rewrite IH by exact HF. now rewrite lookup_insert_ne.
Qed.

Lemma processing_input_from (records : list user_row)
    (m : gmap (option string) entry) (k : option string) (e : entry) :
  foldl (fun result rec => <[row_old_text rec := processing_entry rec]> result) m records !! k
  = Some e ->
  m !! k = Some e
  \/ exists r, r ∈ records /\ row_old_text r = k /\ e = processing_entry r.
Proof.
  revert m. induction records as [|r records IH]; intros m H; [now left|].
  cbn [foldl] in H. apply IH in H as [H|(r' & Hin & Hk & He)].
  - destruct (decide (row_old_text r = k)) as [Heq|Hne].
    + subst k. rewrite lookup_insert_eq in H. injection H as <-.
      right. exists r. split; [apply list_elem_of_here | auto].
    + rewrite lookup_insert_ne in H by exact Hne. now left.
  - right. exists r'. split; [now apply list_elem_of_further | auto].
Qed.

(** X13: [_generate_processing_input] keeps one entry for each old text
    met in the user data and none for any other key; every entry starts
    with the empty message; and when several rows give the same old text,
    the entry holds the new values of the last of them, the earlier ones
    being dropped without notice. *)
Theorem processing_input_last_row_wins (records : list user_row) :
  (forall before r after,
      records = before ++ r :: after ->
      Forall (fun r' => row_old_text r' <> row_old_text r) after ->
      _generate_processing_input records !! row_old_text r = Some (processing_entry r))
  /\ (forall k,
        is_Some (_generate_processing_input records !! k)
        <-> exists r, r ∈ records /\ row_old_text r = k)
  /\ (forall k e, _generate_processing_input records !! k = Some e -> message e = Some "").
Proof.
  unfold _generate_processing_input. split; [|split].
  - intros before r after -> Hafter.
    rewrite foldl_app. cbn [foldl].
    rewrite processing_input_step_other by exact Hafter.
    apply lookup_insert_eq.
  - intros k. split.
    + intros [e He]. apply processing_input_from in He as [He|(r & Hin & Hk & _)].
      * rewrite lookup_empty in He. discriminate He.
      * eauto.
    + intros (r & Hin & <-).
      apply list_elem_of_split in Hin as (l1 & l2 & ->).
      induction l2 as [|r2 l2 IH] using rev_ind.
      * rewrite foldl_app. cbn [foldl]. rewrite lookup_insert_eq. eauto.
      * replace (l1 ++ r :: l2 ++ [r2]) with ((l1 ++ r :: l2) ++ [r2])
          by now rewrite <- app_assoc.
        rewrite foldl_app. cbn [foldl].
        destruct (decide (row_old_text r2 = row_old_text r)) as [Heq|Hne].
        -- rewrite Heq, lookup_insert_eq. eauto.
        -- rewrite lookup_insert_ne by exact Hne. exact IH.
  - intros k e He. apply processing_input_from in He as [He|(r & _ & _ & ->)].
    + rewrite lookup_empty in He. discriminate He.
    + reflexivity.
Qed.

Example processing_input_duplicates :
  _generate_processing_input
    [ {| row_old_text := Some "OLDA"; row_new_text := Some "FIRST";
         row_new_assignment := None |};
      {| row_old_text := Some "OLDB"; row_new_text := None;
         row_new_assignment := Some "ASG1" |};
      {| row_old_text := Some "OLDA"; row_new_text := Some "SECOND";
         row_new_assignment := None |} ] !! Some "OLDA"
  = Some {| new_text := Some "SECOND"; new_assignment := None; message := Some "" |}.
Proof. vm_compute. reflexivity. Qed.

(** ** The type of the accounts *)

Lemma lengths_singleton (accs : list (option N)) (k : nat) :
  (list_to_set (map (fun acc => len (account_str acc)) accs) : gset nat) = {[k]}
  <-> accs <> [] /\ Forall (fun acc => len (account_str acc) = k) accs.
Proof.
  split.
  - intros Heq. split.
    + intros ->. cbn in Heq. assert (Hk : k ∈ (∅ : gset nat)) by (rewrite Heq; set_solver).
      set_solver.
    + apply Forall_forall. intros acc Hin.
      assert (Hl : len (account_str acc)
                   ∈ (list_to_set (map (fun acc => len (account_str acc)) accs) : gset nat)).
      { apply elem_of_list_to_set, list_elem_of_fmap. eauto. }
      rewrite Heq in Hl. set_solver.
  - intros [Hne HF]. apply set_eq. intros x.
    rewrite elem_of_list_to_set, elem_of_singleton. split.
    + intros (acc & -> & Hin)%list_elem_of_fmap.
      rewrite Forall_forall in HF. now apply HF.
    + intros ->. destruct accs as [|acc accs]; [contradiction|].
      apply Forall_cons in HF as [Hacc _]. rewrite <- Hacc.
      cbn [map]. apply list_elem_of_here.
Qed.

(** X14: the validation of the accounts yields the customer type exactly
    when there is at least one account and every account prints with 7
    characters, and the general ledger type exactly when there is at least
    one and every account prints with 8; in every other case, also for no
    account at all and for accounts that all share another length, it
    yields no type and the message that customer and GL accounts cannot be
    combined.  A type and an error message never come together. *)
Theorem account_type_validation (accs : list (option N)) :
  (validate_accounts accs = (Some ACCOUNT_TYPE_CUSTOMER, None)
   <-> accs <> [] /\ Forall (fun acc => len (account_str acc) = 7%nat) accs)
  /\ (validate_accounts accs = (Some ACCOUNT_TYPE_GENERAL_LEDGER, None)
      <-> accs <> [] /\ Forall (fun acc => len (account_str acc) = 8%nat) accs)
  /\ (validate_accounts accs = (None, Some combine_error)
      \/ validate_accounts accs = (Some ACCOUNT_TYPE_CUSTOMER, None)
      \/ validate_accounts accs = (Some ACCOUNT_TYPE_GENERAL_LEDGER, None)).
Proof.
  rewrite <- !lengths_singleton. unfold validate_accounts.
  set (acc_lens := list_to_set _ : gset nat).
  destruct (1 <? size acc_lens)%nat eqn:Hsize.
  - apply Nat.ltb_lt in Hsize.
    repeat split; try discriminate; try (now left);
      intros Heq; rewrite Heq, size_singleton in Hsize; lia.
  - destruct (decide (acc_lens = {[7%nat]})) as [H7|H7].
    + repeat split; auto; try discriminate.
      intros H8. rewrite H7 in H8.
      assert (Hin : 7%nat ∈ ({[8%nat]} : gset nat)) by (rewrite <- H8; set_solver).
      set_solver.
    + destruct (decide (acc_lens = {[8%nat]})) as [H8|H8];
        repeat split; auto; try discriminate; try contradiction.
Qed.

Example account_type_examples :
  validate_accounts [Some 1234567%N; Some 7654321%N] = (Some "customer", None)
  /\ validate_accounts [Some 12345678%N] = (Some "general_lenger", None)
  /\ validate_accounts [Some 1234567%N; Some 12345678%N] = (None, Some combine_error)
  /\ validate_accounts [] = (None, Some combine_error)
  /\ validate_accounts [Some 123456%N] = (None, Some combine_error)
  /\ validate_accounts [Some 1234567%N; None] = (None, Some combine_error).
Proof. vm_compute. repeat split. Qed.

(** ** The name of the log file *)

Section LogPathProperties.
Import Logs.
Variable isfile : string -> bool.
Variable join : string -> string -> string.
Variable date_tag : string.

Lemma search_log_path_free (fuel : nat) (log_dir p : string) (nth : nat) :
  search_log_path isfile join date_tag fuel log_dir nth = Some p -> isfile p = false.
Proof.
  revert nth. induction fuel as [|fuel IH]; intros nth; cbn [search_log_path]; [discriminate|].
  destruct (isfile (log_path join date_tag log_dir (S nth))) eqn:Hfile; cbn [negb].
  - apply IH.
  - now intros [= <-].
Qed.

Lemma search_log_path_first (log_dir : string) (k : nat) :
  forall fuel nth,
    (forall m, (nth < m < nth + S k)%nat ->
               isfile (log_path join date_tag log_dir m) = true) ->
    isfile (log_path join date_tag log_dir (nth + S k)) = false ->
    (S k <= fuel)%nat ->
    search_log_path isfile join date_tag fuel log_dir nth
    = Some (log_path join date_tag log_dir (nth + S k)).
Proof.
  induction k as [|k IH]; intros fuel nth Hbusy Hfree Hfuel;
    (destruct fuel as [|fuel]; [lia|]); cbn [search_log_path].
  - replace (nth + 1)%nat with (S nth) in * by lia. now rewrite Hfree.
  - rewrite Hbusy by lia. cbn [negb].
    replace (nth + S (S k))%nat with (S nth + S k)%nat in * by lia.
    apply IH; [intros m Hm; apply Hbusy; lia | exact Hfree | lia].
Qed.

(** X15: [_compile_log_path] returns the log file of the day with the
    lowest number from 1 on that does not exist yet: when the files
    numbered 1 to n-1 exist and the one numbered n does not, n passes of
    the loop are enough and the result is the path numbered n.  Whatever
    it returns is never an existing file. *)
Theorem compile_log_path_first_free (log_dir : string) (n fuel : nat) :
  (1 <= n)%nat ->
  (forall m, (1 <= m < n)%nat -> isfile (log_path join date_tag log_dir m) = true) ->
  isfile (log_path join date_tag log_dir n) = false ->
  (n <= fuel)%nat ->
  _compile_log_path isfile join date_tag fuel log_dir
  = Some (log_path join date_tag log_dir n)
  /\ (forall fuel' p,
        _compile_log_path isfile join date_tag fuel' log_dir = Some p -> isfile p = false).
Proof.
  intros Hn Hbusy Hfree Hfuel. split.
  - unfold _compile_log_path. destruct n as [|k]; [lia|].
    apply (search_log_path_first log_dir k fuel 0);
      [intros m Hm; apply Hbusy; lia | exact Hfree | lia].
  - intros fuel' p. apply search_log_path_free.
Qed.

End LogPathProperties.

Lemma compile_log_path_first_free_witness :
  Logs._compile_log_path
    (fun p => String.eqb p "logs/2024-01-31_001.log" || String.eqb p "logs/2024-01-31_002.log")
    (fun dir name => dir +:+ "/" +:+ name) "2024-01-31" 3 "logs"
  = Some "logs/2024-01-31_003.log".
Proof.
  apply (compile_log_path_first_free
           (fun p => String.eqb p "logs/2024-01-31_001.log"
                     || String.eqb p "logs/2024-01-31_002.log")
           (fun dir name => dir +:+ "/" +:+ name) "2024-01-31" "logs" 3 3).
  - lia.
  - intros m Hm. assert (Hc : m = 1%nat \/ m = 2%nat) by lia.
    destruct Hc as [-> | ->]; reflexivity.
  - reflexivity.
  - lia.
Defined.

Example zfill_examples :
  Logs.zfill 3 "7" = "007" /\ Logs.zfill 3 "42" = "042" /\ Logs.zfill 3 "1234" = "1234"
  /\ Logs.zfill 3 "-5" = "-05" /\ Logs.zfill 3 "" = "000".
Proof. repeat split. Qed.

(** * Properties of the report *)

Import Report.

Lemma foldl_max_le (xs : list Z) (x : Z) : x <= foldl Z.max x xs.
Proof.
  revert x. induction xs as [|y xs IH]; intros x; cbn [foldl]; [lia|].
  specialize (IH (Z.max x y)). lia.
Qed.

Lemma foldl_max_ge (xs : list Z) (x y : Z) : y ∈ xs -> y <= foldl Z.max x xs.
Proof.
  revert x. induction xs as [|z xs IH]; intros x Hin; [now apply elem_of_nil in Hin|].
  cbn [foldl]. apply elem_of_cons in Hin as [->|Hin].
  - pose proof (foldl_max_le xs (Z.max x z)). lia.
  - now apply IH.
Qed.

Lemma foldl_max_in (xs : list Z) (x : Z) : foldl Z.max x xs = x \/ foldl Z.max x xs ∈ xs.
Proof.
  revert x. induction xs as [|z xs IH]; intros x; cbn [foldl]; [now left|].
  destruct (IH (Z.max x z)) as [H|H].
  - rewrite H. destruct (Z.max_spec x z) as [[_ ->]|[_ ->]].
    + right. apply list_elem_of_here.
    + now left.
  - right. now apply list_elem_of_further.
Qed.

Lemma py_max_ge (xs : list Z) (y : Z) : y ∈ xs -> y <= py_max xs.
Proof.
  destruct xs as [|x xs]; [intros H; now apply elem_of_nil in H|].
  cbn [py_max]. intros [->|Hin]%elem_of_cons.
  - apply foldl_max_le.
  - now apply foldl_max_ge.
Qed.

Lemma py_max_in (xs : list Z) : xs <> [] -> py_max xs ∈ xs.
Proof.
  destruct xs as [|x xs]; [contradiction|]. intros _. cbn [py_max].
  destruct (foldl_max_in xs x) as [->|H].
  - apply list_elem_of_here.
  - now apply list_elem_of_further.
Qed.

Lemma value_lengths_none (vals : list (option Fbl3n.account)) :
  Forall (fun v => v = None) vals -> value_lengths vals = [].
Proof.
  unfold value_lengths. induction 1 as [|v vals -> _ IH]; [reflexivity|].
  cbn. exact IH.
Qed.

(** X16: the width [_get_col_width] gives a column exceeds by one plus
    [add_width] the length of the header and of every value of the column
    that is not missing, and it is exactly that much more than the longest
    of them; missing values do not count, and a column without values gets
    the width of its header. *)
Theorem col_width_fits (vals : list (option Fbl3n.account)) (col_name : string)
    (add_width : Z) :
  let width := _get_col_width vals col_name add_width in
  Z.of_nat (len col_name) + 1 + add_width <= width
  /\ (forall c, Some c ∈ vals -> Z.of_nat (len (Fbl3n.str c)) + 1 + add_width <= width)
  /\ (width = Z.of_nat (len col_name) + 1 + add_width
      \/ exists c, Some c ∈ vals /\ width = Z.of_nat (len (Fbl3n.str c)) + 1 + add_width)
  /\ (Forall (fun v => v = None) vals -> width = Z.of_nat (len col_name) + 1 + add_width).
Proof.
  unfold _get_col_width. cbv zeta.
  set (lens := value_lengths vals ++ [Z.of_nat (len col_name)]).
  assert (Hname : Z.of_nat (len col_name) ∈ lens)
    by (apply elem_of_app; right; apply list_elem_of_here).
  assert (Hval : forall c, Some c ∈ vals -> Z.of_nat (len (Fbl3n.str c)) ∈ lens).
  { intros c Hin. apply elem_of_app. left. unfold value_lengths.
    apply list_elem_of_omap. exists (Some c). split; [exact Hin | reflexivity]. }
  assert (Hmax : py_max lens ∈ lens).
  { apply py_max_in. unfold lens. intros H. now apply app_eq_nil in H as [_ H]. }
  split; [apply py_max_ge in Hname; lia|].
  split; [intros c Hin; apply Hval, py_max_ge in Hin; lia|].
  split.
  - unfold lens in Hmax at 2. apply elem_of_app in Hmax as [Hmax|Hmax].
    + right. unfold value_lengths in Hmax.
      apply list_elem_of_omap in Hmax as ([c|] & Hin & Hc); [|discriminate Hc].
      cbn in Hc. injection Hc as Hc. exists c. split; [exact Hin | lia].
    + left. apply list_elem_of_singleton in Hmax. lia.
  - intros Hnone. unfold lens. rewrite (value_lengths_none _ Hnone). reflexivity.
Qed.

Example col_width_example :
  _get_col_width [Some (Fbl3n.AccInt 12345678); None; Some (Fbl3n.AccStr "12")] "Account" 0
  = 9.
Proof. reflexivity. Qed.

(** ** The range of cells of a column *)

Lemma chr_code_point (n : Z) : 0 <= n <= 1114111 -> chr n = Some n.
Proof.
  intros Hn. unfold chr.
  replace (0 <=? n) with true by (symmetry; apply Z.leb_le; lia).
  replace (n <=? 1114111) with true by (symmetry; apply Z.leb_le; lia).
  reflexivity.
Qed.

Lemma letters_of (q r : Z) :
  0 <= r < 26 -> 0 <= q <= 1114047 ->
  letters (26 * q + r - 1)
  = Some ((if q =? 0 then [] else [64 + q]) ++ (if r =? 0 then [] else [64 + r])).
Proof.
  intros Hr Hq. unfold letters. cbv zeta.
  replace (26 * q + r - 1 + 1) with (r + q * 26) by lia.
  rewrite Z.div_add, Z.mod_add by lia.
  rewrite Z.div_small, Z.mod_small by lia. rewrite Z.add_0_l.
  destruct (q =? 0) eqn:Hq0; destruct (r =? 0) eqn:Hr0; cbn [negb];
    rewrite ?chr_code_point by lia; reflexivity.
Qed.

Lemma letters_single (idx : Z) : 0 <= idx < 25 -> letters idx = Some [65 + idx].
Proof.
  intros Hidx.
  replace idx with (26 * 0 + (idx + 1) - 1) at 1 by lia.
  rewrite letters_of by lia.
  replace (idx + 1 =? 0) with false by (symmetry; apply Z.eqb_neq; lia).
  cbn [Z.eqb app]. do 2 f_equal. lia.
Qed.

(** X17: the letters computed for a column position are the single
    letter A to Y for the positions 0 to 24 and two characters, the q-th and
    the r-th letter, for the position 26q+r-1 with r between 1 and 25; for
    a position 26q-1 the second letter is left out, so that the position
    25 (column Z of a sheet) gets the letter A of the position 0. *)
Theorem column_letters :
  (forall idx, 0 <= idx < 25 -> letters idx = Some [65 + idx])
  /\ (forall q r, 1 <= q <= 1114047 -> 1 <= r <= 25 ->
        letters (26 * q + r - 1) = Some [64 + q; 64 + r])
  /\ (forall q, 1 <= q <= 1114047 -> letters (26 * q - 1) = Some [64 + q])
  /\ letters 25 = letters 0.
Proof.
  split; [|split; [|split; [|reflexivity]]].
  - exact letters_single.
  - intros q r Hq Hr. rewrite letters_of by lia.
    replace (q =? 0) with false by (symmetry; apply Z.eqb_neq; lia).
    replace (r =? 0) with false by (symmetry; apply Z.eqb_neq; lia).
    reflexivity.
  - intros q Hq.
    replace (26 * q - 1) with (26 * q + 0 - 1) by lia.
    rewrite letters_of by lia.
    replace (q =? 0) with false by (symmetry; apply Z.eqb_neq; lia).
    reflexivity.
Qed.

(** X18: the assertion at the end of [_col_to_rng] can never fail: for
    every column, row and last row one of the five forms of a range
    applies, unless a column name is unknown or a letter cannot be made. *)
Theorem col_to_rng_never_asserts (get_loc : string -> option Z)
    (first_col last_col : column) (row last_row : Z) :
  _col_to_rng get_loc first_col last_col row last_row <> RngAssertionError.
Proof.
  unfold _col_to_rng.
  destruct (col_index get_loc first_col) as [i|name]; [|discriminate].
  destruct (letters i) as [lett|]; [|discriminate].
  destruct (column_eqb last_col (ColName "")).
  - destruct (row =? -1), (column_eqb first_col last_col), (last_row =? -1);
      cbn; discriminate.
  - destruct (col_index get_loc last_col) as [j|name]; [|discriminate].
    destruct (letters j) as [last_lett|]; [|discriminate].
    destruct (row =? -1), (column_eqb first_col last_col), (last_row =? -1);
      cbn; discriminate.
Qed.

(** X19: for two different columns among the first 25 of the data and a
    row, [_col_to_rng] gives the range from the cell of the first column to
    the cell of the last one in that row; with the defaults for the last
    column and the rows it gives the whole column; and a name that is not
    a column of the data raises [KeyError]. *)
Theorem col_to_rng_row_range (get_loc : string -> option Z) (first_col last_col : string)
    (i j row : Z) :
  get_loc first_col = Some i ->
  get_loc last_col = Some j ->
  first_col <> last_col ->
  last_col <> "" ->
  0 <= i < 25 ->
  0 <= j < 25 ->
  row <> -1 ->
  _col_to_rng get_loc (ColName first_col) (ColName last_col) row (-1)
  = Rng (([65 + i] ++ str_int row) ++ colon ++ ([65 + j] ++ str_int row))
  /\ _col_to_rng get_loc (ColName first_col) (ColName "") (-1) (-1)
     = Rng ([65 + i] ++ colon ++ [65 + i])
  /\ (forall name, get_loc name = None ->
        _col_to_rng get_loc (ColName name) (ColName last_col) row (-1) = RngKeyError name).
Proof.
  intros Hi Hj Hne Hlast Hri Hrj Hrow.
  apply String.eqb_neq in Hne, Hlast. apply Z.eqb_neq in Hrow.
  unfold _col_to_rng. cbn [col_index column_eqb].
  rewrite Hi, Hj, Hlast, Hne, Hrow, !letters_single by lia.
  cbn [String.eqb negb andb Z.eqb Pos.eqb].
  split; [reflexivity|]. split; [reflexivity|].
  intros name ->. reflexivity.
Qed.

Lemma col_to_rng_row_range_witness :
  _col_to_rng
    (fun name => if String.eqb name "Account" then Some 0
                 else if String.eqb name "Message" then Some 4 else None)
    (ColName "Account") (ColName "Message") 1 (-1)
  = Rng (of_string "A1:E1").
Proof.
  refine (proj1 (col_to_rng_row_range _ "Account" "Message" 0 4 1
                   eq_refl eq_refl _ _ _ _ _)).
  - discriminate.
  - discriminate.
  - lia.
  - lia.
  - lia.
Defined.

(** * Properties of the entry point *)

Import App.

Ltac run_cases r :=
  destruct r as [cl lc cs gi ma cr sn ds dt];
  destruct cl as [[]|], lc as [[]|], cs as [[]|], gi as [[?|]|], ma as [[?|]|],
           cr as [[]|], sn as [[]|], ds as [[]|], dt as [[]|];
  cbn.

(** X20: [main] returns 0 exactly when every call of the controller
    returns and neither the user input nor the processing reports an
    error; it returns 1 exactly when the configuration of the logger
    raises; and it returns no other value than 0, 1, 2, 3 and 4. *)
Theorem main_exit_codes (r : run) :
  ((main r).1 = ExitCode 0
   <-> (configure_logger r = Returns tt /\ load_app_config r = Returns tt
        /\ connect_to_sap r = Returns tt /\ get_user_input r = Returns None
        /\ modify_accounting_parameters r = Returns None
        /\ create_report r = Returns tt /\ send_notification r = Returns tt
        /\ disconnect_from_sap r = Returns tt /\ delete_temp_files r = Returns tt))
  /\ ((main r).1 = ExitCode 1 <-> configure_logger r = Raises)
  /\ (forall code, (main r).1 = ExitCode code -> 0 <= code <= 4).
Proof.
  run_cases r; repeat split; intros; try discriminate; try congruence;
    repeat match goal with
           | H : _ /\ _ |- _ => destruct H
           | H : ExitCode _ = ExitCode _ |- _ => injection H as <-
           end;
    try discriminate; try lia; auto.
Qed.

(** X21: once SAP has been connected, every way in which [main] returns a
    value ends with the disconnection from SAP followed by the removal of
    the temporary files, each done once; and before the connection is
    made no disconnection is attempted. *)
Theorem main_cleans_up (r : run) (code : Z) :
  fst (main r) = ExitCode code ->
  (connect_to_sap r = Returns tt /\ load_app_config r = Returns tt
   /\ configure_logger r = Returns tt ->
   exists done,
     snd (main r) = done ++ [DisconnectFromSap; DeleteTempFiles]
     /\ (DisconnectFromSap ∉ done) /\ (DeleteTempFiles ∉ done))
  /\ (~ (connect_to_sap r = Returns tt /\ load_app_config r = Returns tt
         /\ configure_logger r = Returns tt) ->
      DisconnectFromSap ∉ snd (main r)).
Proof.
  run_cases r; intros Hexit; try discriminate Hexit; split;
    try (intros (? & ? & ?); discriminate);
    try (intros H; exfalso; apply H; auto; fail);
    intros _;
    first
      [ (match goal with
         | |- exists done, ?evs = @?f done /\ @?g done =>
             exists (take (length evs - 2)%nat evs)
         end;
         split; [reflexivity|]; split;
         intros Hin; cbn in Hin;
         repeat (apply elem_of_cons in Hin as [Hin|Hin]; [discriminate Hin|]);
         now apply elem_of_nil in Hin)
      | (intros Hin; repeat (apply elem_of_cons in Hin as [Hin|Hin]; [discriminate Hin|]);
         now apply elem_of_nil in Hin) ].
Qed.

Lemma main_cleans_up_witness :
  fst (main no_items_run) = ExitCode 3
  /\ exists done,
       snd (main no_items_run) = done ++ [DisconnectFromSap; DeleteTempFiles]
       /\ (DisconnectFromSap ∉ done) /\ (DeleteTempFiles ∉ done).
Proof.
  split; [reflexivity|].
  apply (proj1 (main_cleans_up no_items_run 3 eq_refl)).
  repeat split.
Defined.

(** * Properties of starting and closing *)

Import Lifecycle.

Lemma lbind_unfold {A B} (m : LM A) (f : A -> LM B) (st : lstate) :
  (m ≫= f) st = match m st with
                | (LOk a, st') => f a st'
                | (LRaise e, st') => (LRaise e, st')
                end.
Proof. reflexivity. Qed.

Lemma lbind_Ok {A B} (m : LM A) (f : A -> LM B) (st st1 : lstate) (a : A) :
  m st = (LOk a, st1) -> (m ≫= f) st = f a st1.
Proof. intros H. now rewrite lbind_unfold, H. Qed.

Lemma lbind_Raise {A B} (m : LM A) (f : A -> LM B) (st st1 : lstate) (e : lexn) :
  m st = (LRaise e, st1) -> (m ≫= f) st = (LRaise e, st1).
Proof. intros H. now rewrite lbind_unfold, H. Qed.

Lemma lbind_Ok_inv {A B} (m : LM A) (f : A -> LM B) (st st' : lstate) (b : B) :
  (m ≫= f) st = (LOk b, st') ->
  exists a st1, m st = (LOk a, st1) /\ f a st1 = (LOk b, st').
Proof.
  rewrite lbind_unfold. destruct (m st) as [[a|e] st1]; [eauto | discriminate].
Qed.

Lemma do_call_allowed (s : session) (c : scall) (st : lstate) :
  allows s (calls st) c = true ->
  do_call s c st = (LOk tt, {| _sess := _sess st; calls := calls st ++ [c]; clip := clip st |}).
Proof. unfold do_call. now intros ->. Qed.

Lemma do_call_refused (s : session) (c : scall) (st : lstate) :
  allows s (calls st) c = false -> do_call s c st = (LRaise (Exn ComError), st).
Proof. unfold do_call. now intros ->. Qed.

Lemma close_unbound (st : lstate) : _sess st = None -> close st = (LOk tt, st).
Proof.
  intros H. unfold close. rewrite lbind_unfold. unfold get_sess. now rewrite H.
Qed.

Lemma close_bound (s : session) (st : lstate) :
  _sess st = Some s ->
  close st = (do_call s EndTransaction;;
              popup ← _is_popup_dialog;
              (if popup : bool then _close_popup_dialog true else mret tt);;
              set_sess None) st.
Proof.
  intros H. unfold close. rewrite lbind_unfold. unfold get_sess. now rewrite H.
Qed.

Lemma close_without_dialog (s : session) (st : lstate) :
  _sess st = Some s ->
  allows s (calls st) EndTransaction = true ->
  window_type s (calls st ++ [EndTransaction]) <> "GuiModalWindow" ->
  close st = (LOk tt, closed st).
Proof.
  intros Hs Hall Hwin. rewrite (close_bound s st Hs).
  rewrite (lbind_Ok _ _ _ _ _ (do_call_allowed s _ st Hall)).
  rewrite lbind_unfold. unfold _is_popup_dialog. rewrite lbind_unfold.
  unfold observe. cbn [_sess calls]. rewrite Hs.
  apply String.eqb_neq in Hwin. rewrite Hwin. reflexivity.
Qed.

(** X22: [close] does nothing when the module is not bound to a session;
    whenever it returns the module is unbound, so that closing once more
    changes nothing; when the session refuses to end the transaction the
    exception leaves [close] and the module stays bound; and when the
    transaction ends without a dialog, ending it is the only call made. *)
Theorem close_releases_the_session (st : lstate) :
  (_sess st = None -> close st = (LOk tt, st))
  /\ (forall st', close st = (LOk tt, st') ->
                  _sess st' = None /\ close st' = (LOk tt, st'))
  /\ (forall s, _sess st = Some s ->
                allows s (calls st) EndTransaction = false ->
                close st = (LRaise (Exn ComError), st))
  /\ (forall s, _sess st = Some s ->
                allows s (calls st) EndTransaction = true ->
                window_type s (calls st ++ [EndTransaction]) <> "GuiModalWindow" ->
                close st = (LOk tt, closed st)).
Proof.
  split; [apply close_unbound|]. split; [|split].
  - intros st' H.
    assert (Hnone : _sess st' = None).
    { destruct (_sess st) as [s|] eqn:Hs.
      - rewrite (close_bound s st Hs) in H.
        apply lbind_Ok_inv in H as (? & st1 & _ & H).
        apply lbind_Ok_inv in H as (? & st2 & _ & H).
        apply lbind_Ok_inv in H as (? & st3 & _ & H).
        unfold set_sess in H. now injection H as <-.
      - rewrite (close_unbound st Hs) in H. now injection H as <-. }
    split; [exact Hnone | now apply close_unbound].
  - intros s Hs Hall. rewrite (close_bound s st Hs).
    now rewrite (lbind_Raise _ _ _ _ _ (do_call_refused s _ st Hall)).
  - intros s. apply close_without_dialog.
Qed.

(** X23: [start] without a session raises [UnboundLocalError] and leaves a
    running transaction as it is.  With a session it first closes what the
    module is bound to: if that fails the new session is not bound; if it
    succeeds the module is bound to the new session before the transaction
    is started, so that the module stays bound even when the session
    refuses to start the transaction.  On a session that accepts every call
    and shows no dialog, starting a module already bound ends the
    transaction and starts FBL3N again. *)
Theorem start_binds_the_session (sess : session) (st : lstate) :
  start None st = (LRaise (UnboundLocalError "Argument 'sess' is unbound!"), st)
  /\ (forall e st1, close st = (LRaise e, st1) -> start (Some sess) st = (LRaise e, st1))
  /\ (forall st1, close st = (LOk tt, st1) ->
        allows sess (calls st1) (StartTransaction "FBL3N") = true ->
        start (Some sess) st
        = (LOk tt, {| _sess := Some sess;
                      calls := calls st1 ++ [StartTransaction "FBL3N"];
                      clip := clip st1 |}))
  /\ (forall st1, close st = (LOk tt, st1) ->
        allows sess (calls st1) (StartTransaction "FBL3N") = false ->
        start (Some sess) st
        = (LRaise (Exn ComError),
           {| _sess := Some sess; calls := calls st1; clip := clip st1 |}))
  /\ (forall s, _sess st = Some s -> willing s -> no_dialog s -> willing sess ->
        start (Some sess) st
        = (LOk tt, {| _sess := Some sess;
                      calls := calls st ++ [EndTransaction; StartTransaction "FBL3N"];
                      clip := clip st |})).
Proof.
  assert (Hok : forall st1, close st = (LOk tt, st1) ->
            allows sess (calls st1) (StartTransaction "FBL3N") = true ->
            start (Some sess) st
            = (LOk tt, {| _sess := Some sess;
                          calls := calls st1 ++ [StartTransaction "FBL3N"];
                          clip := clip st1 |})).
  { intros st1 Hclose Hall. unfold start.
    rewrite (lbind_Ok _ _ _ _ _ Hclose). rewrite lbind_unfold. unfold set_sess.
    unfold do_call. cbn [calls _sess clip]. now rewrite Hall. }
  split; [reflexivity|]. split; [|split; [exact Hok|split]].
  - intros e st1 Hclose. unfold start. now rewrite (lbind_Raise _ _ _ _ _ Hclose).
  - intros st1 Hclose Hall. unfold start.
    rewrite (lbind_Ok _ _ _ _ _ Hclose). rewrite lbind_unfold. unfold set_sess.
    unfold do_call. cbn [calls _sess clip]. now rewrite Hall.
  - intros s Hs Hw Hd Hw'.
    rewrite (Hok (closed st)).
    + unfold closed. cbn [calls clip]. now rewrite <- app_assoc.
    + apply (close_without_dialog s); [exact Hs | apply Hw | apply Hd].
    + apply Hw'.
Qed.

(** ** Resolving a dialog *)

Lemma find_grandchild_Some (cap : string) (gs : list (string * string)) (k j : nat) :
  find_grandchild cap gs k = Some j ->
  exists text, (k <= j)%nat /\ gs !! (j - k)%nat = Some ("GuiButton", text)
               /\ cap = strip text
               /\ forall j' text', (k <= j' < j)%nat ->
                                   gs !! (j' - k)%nat = Some ("GuiButton", text') ->
                                   cap <> strip text'.
Proof.
  revert k. induction gs as [|[type text] gs IH]; intros k; cbn [find_grandchild];
    [discriminate|].
  destruct (String.eqb_spec type "GuiButton") as [->|Hty]; cbn [negb].
  - destruct (String.eqb_spec cap (strip text)) as [->|Hcap]; cbn [negb].
    + intros [= <-]. exists text. replace (k - k)%nat with 0%nat by lia.
      repeat split; auto. intros; lia.
    + intros H. apply IH in H as (text0 & Hle & Hj & Hc & Hfirst).
      exists text0. split; [lia|]. split.
      { replace (j - k)%nat with (S (j - S k)) by lia. exact Hj. }
      split; [exact Hc|].
      intros j' text' Hj' Hlook. destruct (decide (j' = k)) as [->|Hne].
      * replace (k - k)%nat with 0%nat in Hlook by lia. cbn in Hlook. congruence.
      * apply (Hfirst j' text'); [lia|].
        replace (j' - k)%nat with (S (j' - S k)) in Hlook by lia. exact Hlook.
  - intros H. apply IH in H as (text0 & Hle & Hj & Hc & Hfirst).
    exists text0. split; [lia|]. split.
    { replace (j - k)%nat with (S (j - S k)) by lia. exact Hj. }
    split; [exact Hc|].
    intros j' text' Hj' Hlook. destruct (decide (j' = k)) as [->|Hne].
    * replace (k - k)%nat with 0%nat in Hlook by lia. cbn in Hlook. congruence.
    * apply (Hfirst j' text'); [lia|].
      replace (j' - k)%nat with (S (j' - S k)) in Hlook by lia. exact Hlook.
Qed.

Lemma find_grandchild_None (cap : string) (gs : list (string * string)) (k : nat) :
  find_grandchild cap gs k = None ->
  forall j text, gs !! j = Some ("GuiButton", text) -> cap <> strip text.
Proof.
  revert k. induction gs as [|[type text] gs IH]; intros k; cbn [find_grandchild].
  - intros _ j text H. now rewrite lookup_nil in H.
  - destruct (String.eqb_spec type "GuiButton") as [->|Hty]; cbn [negb].
    + destruct (String.eqb_spec cap (strip text)) as [->|Hcap]; cbn [negb]; [discriminate|].
      intros H [|j] text' Hlook; cbn in Hlook; [congruence | eapply IH; eauto].
    + intros H [|j] text' Hlook; cbn in Hlook; [congruence | eapply IH; eauto].
Qed.

Lemma find_button_Some (cap : string) (cs : list (list (string * string))) (k i j : nat) :
  find_button cap cs k = Some (i, j) ->
  (k <= i)%nat
  /\ is_button cap cs (i - k) j
  /\ (forall i' j', (k <= i' < i)%nat \/ (i' = i /\ (j' < j)%nat) ->
                    ~ is_button cap cs (i' - k) j').
Proof.
  revert k. induction cs as [|gs cs IH]; intros k; cbn [find_button]; [discriminate|].
  destruct (find_grandchild cap gs 0) as [j0|] eqn:Hg.
  - intros [= <- <-]. apply find_grandchild_Some in Hg as (text & _ & Hj & Hc & Hfirst).
    rewrite Nat.sub_0_r in Hj. replace (k - k)%nat with 0%nat by lia.
    split; [lia|]. split.
    + exists gs, text. auto.
    + intros i' j' [Hi'|[-> Hj']]; [lia|].
      replace (k - k)%nat with 0%nat by lia.
      intros (gs' & text' & Hgs & Hlook & Hcap). cbn in Hgs. injection Hgs as <-.
      apply (Hfirst j' text'); [lia | now rewrite Nat.sub_0_r | exact Hcap].
  - intros H. apply IH in H as (Hle & (gs' & text & Hgs & Hlook & Hc) & Hfirst).
    split; [lia|]. split.
    + exists gs', text. replace (i - k)%nat with (S (i - S k)) by lia. auto.
    + intros i' j' Hcase (gs'' & text'' & Hgs'' & Hlook'' & Hcap'').
      destruct (decide (i' = k)) as [->|Hne].
      * replace (k - k)%nat with 0%nat in Hgs'' by lia. cbn in Hgs''. injection Hgs'' as <-.
        exact (find_grandchild_None _ _ _ Hg _ _ Hlook'' Hcap'').
      * apply (Hfirst i' j'); [lia|].
        exists gs'', text''. replace (i' - k)%nat with (S (i' - S k)) in Hgs'' by lia.
        auto.
Qed.

Lemma find_button_None (cap : string) (cs : list (list (string * string))) (k : nat) :
  find_button cap cs k = None -> forall i j, ~ is_button cap cs i j.
Proof.
  revert k. induction cs as [|gs cs IH]; intros k; cbn [find_button].
  - intros _ i j (gs' & text & Hgs & _). now rewrite lookup_nil in Hgs.
  - destruct (find_grandchild cap gs 0) as [j0|] eqn:Hg; [discriminate|].
    intros H [|i] j (gs' & text & Hgs & Hlook & Hcap); cbn in Hgs.
    + injection Hgs as <-. exact (find_grandchild_None _ _ _ Hg _ _ Hlook Hcap).
    + apply (IH _ H i j). exists gs', text. auto.
Qed.

Lemma press_key_bound (s : session) (name : string) (vkey : Z) (st : lstate) :
  _sess st = Some s -> assoc name _virtual_keys = Some vkey ->
  press_key name st = do_call s (Screen (SendVKey vkey)) st.
Proof.
  intros Hs Hk. unfold press_key. rewrite lbind_unfold. unfold bound_session.
  now rewrite Hs, Hk.
Qed.

(** X24: [_close_popup_dialog] answers a window titled "Information" with
    Enter to confirm and with F12 to decline.  In any other window it
    presses one button, the first in the order of the children whose
    caption, trimmed, is "Yes" to confirm or "No" to decline; when the
    window has no such button it presses nothing and raises nothing, and
    the dialog stays open. *)
Theorem close_popup_dialog_resolution (s : session) (st : lstate) (confirm : bool) :
  _sess st = Some s ->
  let btn_caption := if confirm then "Yes" else "No" in
  let children := window_children s (calls st) in
  (window_text s (calls st) = "Information" ->
   _close_popup_dialog confirm st
   = do_call s (Screen (SendVKey (if confirm then 0 else 12))) st)
  /\ (window_text s (calls st) <> "Information" ->
      (forall i j, ~ is_button btn_caption children i j) ->
      _close_popup_dialog confirm st = (LOk tt, st))
  /\ (window_text s (calls st) <> "Information" ->
      forall i j,
        is_button btn_caption children i j ->
        (forall i' j', (i' < i)%nat \/ (i' = i /\ (j' < j)%nat) ->
                       ~ is_button btn_caption children i' j') ->
        _close_popup_dialog confirm st = do_call s (ButtonPress i j) st).
Proof.
  intros Hs btn_caption children.
  assert (Hrun : _close_popup_dialog confirm st
                 = (if String.eqb (window_text s (calls st)) "Information" then
                      do_call s (Screen (SendVKey (if confirm then 0 else 12))) st
                    else
                      match find_button btn_caption children 0 with
                      | Some (i, j) => do_call s (ButtonPress i j) st
                      | None => (LOk tt, st)
                      end)).
  { unfold _close_popup_dialog. rewrite lbind_unfold. unfold observe at 1. rewrite Hs.
    destruct (String.eqb (window_text s (calls st)) "Information").
    - destruct confirm; now apply press_key_bound.
    - rewrite lbind_unfold. unfold observe. rewrite Hs. fold children. fold btn_caption.
      destruct (find_button btn_caption children 0) as [[i j]|]; [|reflexivity].
      rewrite lbind_unfold. unfold bound_session. now rewrite Hs. }
  rewrite Hrun. clear Hrun. split; [|split].
  - intros ->. reflexivity.
  - intros Hne%String.eqb_neq Hnone. rewrite Hne.
    destruct (find_button btn_caption children 0) as [[i j]|] eqn:Hfind; [|reflexivity].
    apply find_button_Some in Hfind as (_ & Hbtn & _).
    rewrite Nat.sub_0_r in Hbtn. destruct (Hnone i j Hbtn).
  - intros Hne%String.eqb_neq i j Hbtn Hfirst. rewrite Hne.
    destruct (find_button btn_caption children 0) as [[i0 j0]|] eqn:Hfind.
    + apply find_button_Some in Hfind as (_ & Hbtn0 & Hfirst0).
      rewrite Nat.sub_0_r in Hbtn0.
      assert (Heq : i0 = i /\ j0 = j).
      { destruct (lt_eq_lt_dec i0 i) as [[Hlt|Heq]|Hgt].
        - destruct (Hfirst i0 j0); [left; lia | exact Hbtn0].
        - subst i0. destruct (lt_eq_lt_dec j0 j) as [[Hlt|Heq]|Hgt]; [| auto |].
          + destruct (Hfirst i j0); [right; split; [reflexivity | lia] | exact Hbtn0].
          + destruct (Hfirst0 i j); [right; split; [reflexivity | lia]|].
            now rewrite Nat.sub_0_r.
        - destruct (Hfirst0 i j); [left; lia|]. now rewrite Nat.sub_0_r. }
      destruct Heq as [-> ->]. reflexivity.
    + destruct (find_button_None _ _ _ Hfind i j Hbtn).
Qed.

Lemma close_popup_dialog_resolution_witness :
  _close_popup_dialog true (bound_to (dialog_session "Confirm" yes_no_buttons))
  = (LOk tt, {| _sess := Some (dialog_session "Confirm" yes_no_buttons);
                calls := [ButtonPress 1 0];
                clip := "" |}).
Proof.
  destruct (close_popup_dialog_resolution (dialog_session "Confirm" yes_no_buttons)
              (bound_to (dialog_session "Confirm" yes_no_buttons)) true eq_refl)
    as (_ & _ & H).
  rewrite (H ltac:(discriminate) 1%nat 0%nat); [reflexivity | |].
  - exists [("GuiButton", " Yes "); ("GuiButton", "No"); ("GuiButton", "Yes")], " Yes ".
    repeat split.
  - intros i' j' [Hlt|[_ Hlt]]; [|lia].
    assert (i' = 0%nat) as -> by lia.
    intros (gs & text & Hgs & Hlook & _). cbn in Hgs. injection Hgs as <-.
    destruct j' as [|j']; cbn in Hlook; discriminate Hlook.
Defined.

Example close_with_information_dialog :
  close (bound_to (dialog_session "Information" []))
  = (LOk tt, {| _sess := None;
                calls := [EndTransaction; Screen (SendVKey 0)];
                clip := "" |}).
Proof. reflexivity. Qed.

(** * Properties of the processing *)

Import Processing.

Lemma lift_run {A} (m : gui -> M A) (st : lstate) :
  exists r w,
    lift m st
    = (match r with Ok a => LOk a | Raise e => LRaise (Exn e) end,
       {| _sess := _sess st; calls := calls st ++ map Screen (history w);
          clip := clipboard w |}).
Proof.
  unfold lift.
  destruct (m _ _) as [r w]. exists r, w. reflexivity.
Qed.

Lemma start_unbound (s : session) (st : lstate) :
  willing s -> _sess st = None ->
  start (Some s) st = (LOk tt, started s st).
Proof.
  intros Hw Hs. unfold start.
  rewrite (lbind_Ok _ _ _ _ _ (close_unbound st Hs)).
  rewrite lbind_unfold. unfold set_sess, do_call. cbn [calls _sess clip].
  now rewrite Hw.
Qed.

Lemma general_ledger_branch_run (s : session) (accs : list account) (cocd layout : string)
    (parameters : gmap string entry) (st st2 : lstate) (r : lresult (gmap string entry)) :
  willing s -> no_dialog s -> _sess st = None ->
  lift (fun g => change_document_parameters g accs cocd parameters "open" layout)
    (started s st) = (r, st2) ->
  general_ledger_branch (Some s) accs cocd parameters layout st
  = (branch_outcome r, closed st2).
Proof.
  intros Hw Hd Hs Hrun. unfold general_ledger_branch.
  rewrite (lbind_Ok _ _ _ _ _ (start_unbound s st Hw Hs)).
  assert (Hbound : _sess st2 = Some s).
  { destruct (lift_run (fun g => change_document_parameters g accs cocd parameters
                                   "open" layout) (started s st)) as (r' & w & Heq).
    rewrite Heq in Hrun. now injection Hrun as _ <-. }
  assert (Hclose : close st2 = (LOk tt, closed st2))
    by (apply (close_without_dialog s); [exact Hbound | apply Hw | apply Hd]).
  unfold try_finally, try_catch. rewrite lbind_unfold, Hrun.
  destruct r as [result|e].
  - cbn. now rewrite Hclose.
  - destruct e as [e| | | | |]; [destruct e|..]; cbn; now rewrite Hclose.
Qed.

(** X25: on a session that accepts every call and shows no dialog, the
    branch for the general ledger accounts ends the transaction whatever
    the engine does: when the branch is left, by a return or by an
    exception, the module is unbound, and the calls made are the start of
    FBL3N, calls on the screens of the transaction, and the end of the
    transaction as the last one. *)
Theorem general_ledger_branch_closes (s : session) (accs : list account)
    (cocd layout : string) (parameters : gmap string entry) (st st' : lstate)
    (r : lresult (gmap string entry + string)) :
  willing s -> no_dialog s -> _sess st = None ->
  general_ledger_branch (Some s) accs cocd parameters layout st = (r, st') ->
  _sess st' = None
  /\ exists screens,
       calls st' = calls st ++ [StartTransaction "FBL3N"] ++ screens ++ [EndTransaction]
       /\ Forall is_screen screens.
Proof.
  intros Hw Hd Hs Hrun.
  destruct (lift_run (fun g => change_document_parameters g accs cocd parameters
                                 "open" layout) (started s st)) as (r0 & w & Heq).
  rewrite (general_ledger_branch_run s _ _ _ _ st _ _ Hw Hd Hs Heq) in Hrun.
  injection Hrun as _ <-. split; [reflexivity|].
  exists (map Screen (history w)). split.
  - unfold closed, started. cbn [calls]. now rewrite <- !app_assoc.
  - apply Forall_forall. intros c (c0 & -> & _)%list_elem_of_fmap. exact I.
Qed.

Lemma general_ledger_branch_closes_witness :
  exists r st',
    general_ledger_branch (Some (ledger_session "No items selected" []))
      [AccInt 12345678] "0075" Scenario.requests "" idle = (r, st')
    /\ _sess st' = None
    /\ exists screens,
         calls st' = calls idle ++ [StartTransaction "FBL3N"] ++ screens ++ [EndTransaction]
         /\ Forall is_screen screens.
Proof.
  destruct (general_ledger_branch (Some (ledger_session "No items selected" []))
              [AccInt 12345678] "0075" Scenario.requests "" idle) as [r st'] eqn:Hrun.
  exists r, st'. split; [reflexivity|].
  apply (general_ledger_branch_closes (ledger_session "No items selected" [])
           [AccInt 12345678] "0075" "" Scenario.requests idle st' r).
  - intros h c. reflexivity.
  - intros h. discriminate.
  - reflexivity.
  - exact Hrun.
Defined.

(** X26: of the exceptions of the engine the branch for the general
    ledger accounts turns only [NoItemsFoundError] (no item has one of the
    texts) into a message for the user; every other exception, the
    [NoItemsFoundWarning] of a selection without items among them, leaves
    the branch as it is, after the transaction has been ended. *)
Theorem general_ledger_branch_errors (s : session) (accs : list account)
    (cocd layout : string) (parameters : gmap string entry) (st st2 : lstate)
    (r : lresult (gmap string entry)) :
  willing s -> no_dialog s -> _sess st = None ->
  lift (fun g => change_document_parameters g accs cocd parameters "open" layout)
    (started s st) = (r, st2) ->
  (forall msg, r = LRaise (Exn (NoItemsFoundError msg)) ->
     general_ledger_branch (Some s) accs cocd parameters layout st
     = (LOk (inr no_items_message), closed st2))
  /\ (forall e, r = LRaise e -> (forall msg, e <> Exn (NoItemsFoundError msg)) ->
        general_ledger_branch (Some s) accs cocd parameters layout st
        = (LRaise e, closed st2))
  /\ (forall result, r = LOk result ->
        general_ledger_branch (Some s) accs cocd parameters layout st
        = (LOk (inl result), closed st2)).
Proof.
  intros Hw Hd Hs Hrun.
  rewrite (general_ledger_branch_run s _ _ _ _ st _ _ Hw Hd Hs Hrun).
  split; [|split].
  - intros msg ->. reflexivity.
  - intros e -> Hne. destruct e as [e| | | | |]; [destruct e|..]; try reflexivity.
    destruct (Hne msg eq_refl).
  - intros result ->. reflexivity.
Qed.

Lemma general_ledger_branch_errors_witness :
  (general_ledger_branch (Some (ledger_session "No items selected" []))
     [AccInt 12345678] "0075" Scenario.requests "" idle).1
  = LRaise (Exn (NoItemsFoundWarning "No items found using your selection criteria!"))
  /\ (general_ledger_branch (Some (ledger_session "1 items displayed" []))
        [AccInt 12345678] "0075" Scenario.requests "" idle).1
     = LOk (inr no_items_message).
Proof.
  split.
  - destruct (lift (fun g => change_document_parameters g [AccInt 12345678] "0075"
                               Scenario.requests "open" "")
                (started (ledger_session "No items selected" []) idle))
      as [r st2] eqn:Hrun.
    destruct (general_ledger_branch_errors (ledger_session "No items selected" [])
                [AccInt 12345678] "0075" "" Scenario.requests idle st2 r
                (fun _ _ => eq_refl) ltac:(intros h; discriminate) eq_refl Hrun)
      as (_ & H & _).
    assert (Hr : r = LRaise (Exn (NoItemsFoundWarning
                                    "No items found using your selection criteria!")))
      by (vm_compute in Hrun; now injection Hrun as <- _).
    rewrite (H _ Hr); [reflexivity | discriminate].
  - destruct (lift (fun g => change_document_parameters g [AccInt 12345678] "0075"
                               Scenario.requests "open" "")
                (started (ledger_session "1 items displayed" []) idle))
      as [r st2] eqn:Hrun.
    destruct (general_ledger_branch_errors (ledger_session "1 items displayed" [])
                [AccInt 12345678] "0075" "" Scenario.requests idle st2 r
                (fun _ _ => eq_refl) ltac:(intros h; discriminate) eq_refl Hrun)
      as (H & _ & _).
    assert (Hr : r = LRaise (Exn (NoItemsFoundError
                                    "Filtering on the searched text values returned no results!")))
      by (vm_compute in Hrun; now injection Hrun as <- _).
    rewrite (H _ Hr). reflexivity.
Defined.

(** ** The messages written back to the user data *)

Lemma set_messages_with_outcome (k : string) (e : entry) (l : list (string * entry))
    (data : list data_row) :
  k ∉ l.*1 ->
  map (with_outcome (list_to_map l)) (set_messages k (message e) data)
  = map (with_outcome (<[k := e]> (list_to_map l))) data.
Proof.
  intros Hk. unfold set_messages. rewrite map_map. apply map_ext. intros row.
  unfold with_outcome.
  destruct (String.eqb_spec (d_old_text row) k) as [Heq|Hne].
  - cbn [with_d_message d_old_text]. rewrite Heq, lookup_insert_eq.
    now rewrite (not_elem_of_list_to_map_1 _ _ Hk).
  - now rewrite lookup_insert_ne by congruence.
Qed.

Lemma write_back_list (l : list (string * entry)) (data : list data_row) :
  NoDup l.*1 ->
  foldl (fun data ke => set_messages ke.1 (message ke.2) data) data l
  = map (with_outcome (list_to_map l)) data.
Proof.
  revert data. induction l as [|[k e] l IH]; intros data Hnd.
  - cbn. unfold with_outcome. rewrite <- (map_id data) at 1. apply map_ext.
    intros row. now rewrite lookup_empty.
  - cbn [fmap list_fmap fst] in Hnd. apply NoDup_cons in Hnd as [Hk Hnd].
    cbn [foldl fst snd]. rewrite IH by exact Hnd.
    cbn [list_to_map foldr]. now apply set_messages_with_outcome.
Qed.

(** X27: after the processing, every row of the user data whose old text
    has an outcome carries the message of that outcome, so rows that share
    an old text get the same message; the other rows and all other columns
    are as before, and so are the number and the order of the rows. *)
Theorem write_back_messages (result : gmap string entry) (data : list data_row) :
  write_back result data = map (with_outcome result) data
  /\ length (write_back result data) = length data
  /\ (forall row1 row2 e,
        row1 ∈ data -> row2 ∈ data ->
        d_old_text row1 = d_old_text row2 ->
        result !! d_old_text row1 = Some e ->
        d_message (with_outcome result row1) = message e
        /\ d_message (with_outcome result row2) = message e).
Proof.
  assert (Heq : write_back result data = map (with_outcome result) data).
  { unfold write_back. rewrite write_back_list by apply NoDup_fst_map_to_list.
    now rewrite list_to_map_to_list. }
  split; [exact Heq|]. split.
  - rewrite Heq. apply length_map.
  - intros row1 row2 e _ _ Hsame He. unfold with_outcome.
    rewrite <- Hsame, He. split; reflexivity.
Qed.

Example write_back_example :
  write_back
    (<["OLDA" := {| new_text := Some "NEWA"; new_assignment := None;
                    message := Some "Text updated." |}]> ∅)
    [sample_row "OLDA" (Some "FIRST"); sample_row "OLDB" None;
     sample_row "OLDA" (Some "NEWA")]
  = [with_d_message (Some "Text updated.") (sample_row "OLDA" (Some "FIRST"));
     sample_row "OLDB" None;
     with_d_message (Some "Text updated.") (sample_row "OLDA" (Some "NEWA"))].
Proof. vm_compute. reflexivity. Qed.

(** ** The checks made before SAP is touched *)

(** X28: [modify_accounting_parameters] raises [ValueError] for user data
    without rows, then for a company code that is not made of four numeric
    characters, then for an account type that is neither that of the
    general ledger nor that of the customers; in each of these cases no
    transaction is started and the module is left as it was. *)
Theorem modify_checks_first
    (customer_branch : option session -> list account -> string -> gmap string entry ->
                       string -> LM (gmap string entry + string))
    (sess : option session) (data : list data_row)
    (acc_type cocd fbl3n_layout fbl5n_layout : string) (st : lstate) :
  let run := modify_accounting_parameters customer_branch sess data acc_type cocd
               fbl3n_layout fbl5n_layout st in
  (data = [] -> run = (LRaise (Exn (ValueError "Argument 'data' has no records!")), st))
  /\ (data <> [] -> ~ (len cocd = 4%nat /\ isnumeric cocd = true) ->
      run = (LRaise (Exn (ValueError ("Incorrect company code: " +:+ cocd))), st))
  /\ (data <> [] -> len cocd = 4%nat /\ isnumeric cocd = true ->
      acc_type <> ACCOUNT_TYPE_GENERAL_LEDGER -> acc_type <> ACCOUNT_TYPE_CUSTOMER ->
      run = (LRaise (Exn (ValueError ("Unrecognized account type: " +:+ acc_type))), st)).
Proof.
  cbv zeta. unfold modify_accounting_parameters. split; [|split].
  - intros ->. reflexivity.
  - intros Hdata Hcocd. rewrite bool_decide_eq_false_2 by exact Hdata.
    unfold Controller.check_company_code.
    destruct ((len cocd =? 4)%nat && isnumeric cocd) eqn:Hguard; [|reflexivity].
    apply andb_true_iff in Hguard as [Hlen Hnum]. apply Nat.eqb_eq in Hlen.
    destruct Hcocd. auto.
  - intros Hdata [Hlen Hnum] Hgl Hcu. rewrite bool_decide_eq_false_2 by exact Hdata.
    unfold Controller.check_company_code.
    apply Nat.eqb_eq in Hlen. rewrite Hlen, Hnum. cbn [andb negb].
    apply String.eqb_neq in Hgl, Hcu. rewrite lbind_unfold, Hgl, Hcu. reflexivity.
Qed.

(** * Properties of the export *)
Import ItemsExport.

Lemma load_items_Ok_inv (g : gui) (w w1 : world) (tbl : handle) :
  _load_items g w = (Ok tbl, w1) -> w1 = log_call (SendVKey 8) w.
Proof.
  unfold _load_items. rewrite bind_unfold. unfold try_except at 1.
  unfold _press_key. change (assoc "F8" _virtual_keys) with (Some 8).
  cbv iota. unfold perform. cbv beta.
  destruct (accepts g (history w) (SendVKey 8)); [|cbv; discriminate].
  rewrite bind_unfold. unfold try_except, stat_bar_text.
  destruct (status_text g _) as [msg|]; [|cbv; discriminate].
  destruct (contains "No items selected" msg); [cbv; discriminate|].
  destruct (contains "items displayed" msg); [|cbv; discriminate].
  cbn. now intros [= _ <-].
Qed.
Lemma lift_screens {A} (m : gui -> M A) (st st1 : lstate) (r : lresult A) :
  lift m st = (r, st1) ->
  _sess st1 = _sess st /\ exists cs, calls st1 = calls st ++ map Screen cs.
Proof.
  destruct (lift_run m st) as (r' & w & ->). intros [= _ <-]. cbn. eauto.
Qed.

Lemma do_call_Ok_inv (s : session) (c : scall) (st st1 : lstate) (u : unit) :
  do_call s c st = (LOk u, st1) -> st1 = and_then [c] st.
Proof.
  unfold do_call. destruct (allows s (calls st) c); [|discriminate].
  now intros [= _ <-].
Qed.

Lemma lpress_key_Ok_inv (name : string) (st st1 : lstate) (u : unit) :
  press_key name st = (LOk u, st1) ->
  exists vkey, assoc name _virtual_keys = Some vkey
               /\ st1 = and_then [Screen (SendVKey vkey)] st.
Proof.
  unfold press_key. rewrite lbind_unfold. unfold bound_session.
  destruct (_sess st) as [s|]; [|discriminate].
  destruct (assoc name _virtual_keys) as [vkey|]; [|discriminate].
  intros H%do_call_Ok_inv. eauto.
Qed.

Lemma set_field_willing (s : session) (name type value : string) (st : lstate) :
  _sess st = Some s -> willing s ->
  set_field name type value st = (LOk tt, and_then [Screen (SetText name type value)] st).
Proof.
  intros Hs Hw. unfold set_field. rewrite lbind_unfold. unfold bound_session.
  rewrite Hs. now apply do_call_allowed.
Qed.

Lemma select_radio_willing (s : session) (name : string) (st : lstate) :
  _sess st = Some s -> willing s ->
  select_radio name st = (LOk tt, and_then [Screen (SelectRadio name)] st).
Proof.
  intros Hs Hw. unfold select_radio. rewrite lbind_unfold. unfold bound_session.
  rewrite Hs. now apply do_call_allowed.
Qed.

Lemma press_key_willing (s : session) (name : string) (vkey : Z) (st : lstate) :
  _sess st = Some s -> willing s -> assoc name _virtual_keys = Some vkey ->
  press_key name st = (LOk tt, and_then [Screen (SendVKey vkey)] st).
Proof.
  intros Hs Hw Hk. rewrite (press_key_bound s name vkey) by assumption.
  now apply do_call_allowed.
Qed.

Lemma set_field_Ok_inv (name type value : string) (st st1 : lstate) (u : unit) :
  set_field name type value st = (LOk u, st1) ->
  st1 = and_then [Screen (SetText name type value)] st.
Proof.
  unfold set_field. rewrite lbind_unfold. unfold bound_session.
  destruct (_sess st) as [s|]; [|discriminate].
  apply do_call_Ok_inv.
Qed.

Lemma and_then_app (cs ds : list scall) (st : lstate) :
  and_then ds (and_then cs st) = and_then (cs ++ ds) st.
Proof. unfold and_then. cbn. now rewrite app_assoc. Qed.

Lemma date_gt_irrefl (d : date) : date_gt d d = false.
Proof.
  unfold date_gt. rewrite !Nat.ltb_irrefl, !Nat.eqb_refl. reflexivity.
Qed.

Lemma date_gt_spec (d e : date) :
  date_gt d e = true
  <-> (year e < year d
       \/ (year d = year e
           /\ (month e < month d \/ (month d = month e /\ day e < day d))))%nat.
Proof.
  unfold date_gt.
  rewrite !orb_true_iff, !andb_true_iff, !orb_true_iff, !andb_true_iff,
    !Nat.ltb_lt, !Nat.eqb_eq.
  reflexivity.
Qed.

Lemma date_gt_asym (d e : date) : date_gt d e = true -> date_gt e d = false.
Proof.
  intros H%date_gt_spec. apply not_true_is_false. intros H'%date_gt_spec. lia.
Qed.



(** X29: [_set_posting_dates] checks the dates before it writes a field:
    a lower date later than the upper one raises [ValueError], and a range
    with only one of its two dates raises [TypeError] at the comparison,
    so that the empty text the lines after the check provide for a missing
    date is written only when both dates are missing.  On a session that
    accepts every call the two fields of the posting date then get the
    dates as [strftime] prints them, the lower one first. *)
Theorem set_posting_dates_validation (strftime : date -> string)
    (first last : option date) (st : lstate) :
  let run := _set_posting_dates strftime first last st in
  let written low high :=
    and_then [Screen (SetText "SO_BUDAT-LOW" "GuiCTextField" low);
              Screen (SetText "SO_BUDAT-HIGH" "GuiCTextField" high)] st in
  (forall f l, first = Some f -> last = Some l -> date_gt f l = true ->
     run = (LRaise (Exn (ValueError
                           "Lower posting date is greater than upper posting date!")), st))
  /\ (forall f, first = Some f -> last = None -> exists msg, run = (LRaise (TypeError msg), st))
  /\ (forall l, first = None -> last = Some l -> exists msg, run = (LRaise (TypeError msg), st))
  /\ (forall s, _sess st = Some s -> willing s ->
        (first = None -> last = None -> run = (LOk tt, written "" ""))
        /\ (forall f l, first = Some f -> last = Some l -> date_gt f l = false ->
              run = (LOk tt, written (strftime f) (strftime l)))).
Proof.
  cbv zeta. unfold _set_posting_dates. split; [|split; [|split]].
  - intros f l -> -> Hgt. rewrite lbind_unfold.
    rewrite bool_decide_eq_false_2 by discriminate. cbn [andb negb]. now rewrite Hgt.
  - intros f -> ->. rewrite lbind_unfold.
    rewrite bool_decide_eq_false_2 by discriminate. cbn [andb negb]. eauto.
  - intros l -> ->. rewrite lbind_unfold.
    rewrite (bool_decide_eq_false_2 (Some l = None)) by discriminate.
    rewrite andb_false_r. cbn [negb]. eauto.
  - intros s Hs Hw. split.
    + intros -> ->. rewrite lbind_unfold. cbn.
      rewrite lbind_unfold, (set_field_willing s) by assumption.
      rewrite (set_field_willing s) by assumption.
      now rewrite and_then_app.
    + intros f l -> -> Hgt. rewrite lbind_unfold.
      rewrite bool_decide_eq_false_2 by discriminate. cbn [andb negb]. rewrite Hgt.
      cbn. rewrite lbind_unfold, (set_field_willing s) by assumption.
      rewrite (set_field_willing s) by assumption.
      now rewrite and_then_app.
Qed.

Example posting_dates_examples :
  let s := ledger_session "3 items displayed" [] in
  let d1 := {| year := 2023; month := 1; day := 31 |} in
  let d2 := {| year := 2023; month := 2; day := 1 |} in
  _set_posting_dates sample_strftime (Some d1) (Some d2) (bound_to s)
  = (LOk tt,
     and_then [Screen (SetText "SO_BUDAT-LOW" "GuiCTextField" "31.01.2023");
               Screen (SetText "SO_BUDAT-HIGH" "GuiCTextField" "01.02.2023")]
       (bound_to s))
  /\ _set_posting_dates sample_strftime (Some d2) (Some d1) (bound_to s)
     = (LRaise (Exn (ValueError
                       "Lower posting date is greater than upper posting date!")),
        bound_to s)
  /\ _set_posting_dates sample_strftime (Some d1) None (bound_to s)
     = (LRaise (TypeError ("'>' not supported between instances of "
                           +:+ "'datetime.date' and 'NoneType'")), bound_to s).
Proof. cbv zeta. repeat split. Qed.

Lemma screens_refl (st : lstate) : screens_added st st.
Proof. split; [reflexivity|]. exists []. cbn. now rewrite app_nil_r. Qed.

Lemma screens_trans (st st1 st2 : lstate) :
  screens_added st st1 -> screens_added st1 st2 -> screens_added st st2.
Proof.
  intros (Hs & cs & Hc) (Hs' & cs' & Hc'). split; [congruence|].
  exists (cs ++ cs'). now rewrite Hc', Hc, map_app, app_assoc.
Qed.

Lemma screens_and_then (cs : list call) (st : lstate) :
  screens_added st (and_then (map Screen cs) st).
Proof. split; [reflexivity|]. now exists cs. Qed.

Lemma screens_lift {A} (m : gui -> M A) (st st1 : lstate) (r : lresult A) :
  lift m st = (r, st1) -> screens_added st st1.
Proof. apply lift_screens. Qed.

Lemma set_posting_dates_Ok_inv (strftime : date -> string) (first last : option date)
    (st st1 : lstate) (u : unit) :
  _set_posting_dates strftime first last st = (LOk u, st1) -> screens_added st st1.
Proof.
  unfold _set_posting_dates. intros H.
  apply lbind_Ok_inv in H as (u0 & st0 & H0 & H).
  assert (st0 = st) as ->.
  { destruct (negb _); [|now injection H0].
    destruct first as [f|], last as [l|]; try discriminate H0.
    destruct (date_gt f l); [discriminate H0 | now injection H0]. }
  apply lbind_Ok_inv in H as (u1 & st2 & H1%set_field_Ok_inv & H2%set_field_Ok_inv).
  subst st2 st1. rewrite and_then_app. apply (screens_and_then [_; _]).
Qed.

Lemma lift_load_items_Ok_inv (st st1 : lstate) (tbl : handle) :
  lift _load_items st = (LOk tbl, st1) ->
  st1 = and_then [Screen (SendVKey 8)] st.
Proof.
  unfold lift.
  destruct (_load_items _ _) as [[tbl'|e] w] eqn:Hload; [|discriminate].
  apply load_items_Ok_inv in Hload. subst w. cbn. now intros [= _ <-].
Qed.

Lemma select_load_and_lay_out_Ok (strftime : date -> string) (sel : selection)
    (cocd status : string) (from_day to_day : option date) (layout : string)
    (st st1 : lstate) (u : unit) :
  select_load_and_lay_out strftime sel cocd status from_day to_day layout st = (LOk u, st1) ->
  exists st0, screens_added st st0
    /\ st1 = and_then (map Screen [SendVKey 8; SendVKey 32; SendVKey 42; SendVKey 0]) st0.
Proof.
  unfold select_load_and_lay_out. intros H.
  apply lbind_Ok_inv in H as (? & sa & Ha%screens_lift & H).
  apply lbind_Ok_inv in H as (? & sb & Hb & H).
  assert (Hb' : screens_added sa sb).
  { destruct sel as [accounts|name].
    - now apply screens_lift in Hb.
    - apply lbind_Ok_inv in Hb as (? & sb' & Hb1%screens_lift & Hb2%screens_lift).
      now apply (screens_trans _ sb'). }
  apply lbind_Ok_inv in H as (? & sc & Hc%screens_lift & H).
  apply lbind_Ok_inv in H as (? & sd & Hd%screens_lift & H).
  apply lbind_Ok_inv in H as (? & se & He & H).
  assert (He' : screens_added sd se).
  { destruct sel as [accounts|name].
    - now apply screens_lift in He.
    - injection He as _ <-. apply screens_refl. }
  apply lbind_Ok_inv in H as (? & sf & Hf%screens_lift & H).
  apply lbind_Ok_inv in H as (? & sg & Hg%set_posting_dates_Ok_inv & H).
  apply lbind_Ok_inv in H as (? & sh & Hh%lift_load_items_Ok_inv & H).
  apply lbind_Ok_inv in H as (? & si & (k1 & Hk1 & Hi)%lpress_key_Ok_inv & H).
  apply lbind_Ok_inv in H as (? & sj & (k2 & Hk2 & Hj)%lpress_key_Ok_inv & H).
  apply lpress_key_Ok_inv in H as (k3 & Hk3 & H).
  injection Hk1 as <-. injection Hk2 as <-. injection Hk3 as <-.
  exists sg. split.
  - repeat (eapply screens_trans; [eassumption|]). apply screens_refl.
  - subst. now rewrite !and_then_app.
Qed.

(** X30: once the selection, the loading and the layout dialog of
    [export_line_items] have gone through, on a session that accepts every
    call, the calls made end with the keys F8, Ctrl+F8, Ctrl+Shift+F6 and
    Enter.  A folder of the export file that does not exist is found out
    only then: [FolderNotFoundError] is raised and the list stays
    displayed.  Otherwise the export dialog is filled in (the format, the
    folder with a backslash appended, the file name, the encoding 4120),
    saved with Ctrl+S and the list is left with F3; the text read from the
    file is returned, whether the file was removed afterwards or its
    removal was refused with [PermissionError] or [FileNotFoundError]; an
    exception of the reading or another exception of the removal is
    passed on, in the first case without an attempt to remove the file. *)
Theorem export_line_items_outcome (strftime : date -> string)
    (split : string -> string * string) (path_exists : string -> bool)
    (read_text : list scall -> string -> lresult string)
    (remove : list scall -> string -> removal)
    (file : string) (sel : selection) (cocd status : string)
    (from_day to_day : option date) (layout : string)
    (s : session) (st st1 : lstate) :
  _sess st = Some s -> willing s ->
  select_load_and_lay_out strftime sel cocd status from_day to_day layout st = (LOk tt, st1) ->
  let run := export_line_items strftime split path_exists read_text remove file sel cocd
               status from_day to_day layout st in
  let folder := (split file).1 in
  let st2 :=
    and_then (map Screen
                [SendVKey 9; SelectRadio "SPOPLI-SELFLAG"; SendVKey 0;
                 SetText "DY_PATH" "GuiCTextField" (folder +:+ backslash);
                 SetText "DY_FILENAME" "GuiCTextField" (split file).2;
                 SetText "DY_FILE_ENCODING" "GuiCTextField" "4120";
                 SendVKey 11; SendVKey 3]) st1 in
  (exists cs, calls st1 = calls st ++ map Screen (cs ++ [SendVKey 8; SendVKey 32;
                                                          SendVKey 42; SendVKey 0]))
  /\ (path_exists folder = false ->
      run = (LRaise (FolderNotFoundError ("The export folder not found at the "
                                          +:+ "path specified: '" +:+ folder +:+ "'!")), st1))
  /\ (path_exists folder = true ->
      run = match read_text (calls st2) file with
            | LRaise e => (LRaise e, st2)
            | LOk text =>
                match remove (calls st2) file with
                | Removed => (LOk text, and_then [RemoveFile file] st2)
                | NotRemoved => (LOk text, st2)
                | RemovalFails e => (LRaise e, st2)
                end
            end).
Proof.
  intros Hs Hw Hprefix. cbv zeta.
  destruct (select_load_and_lay_out_Ok _ _ _ _ _ _ _ _ _ _ Hprefix)
    as (st0 & (Hs0 & cs & Hc0) & Hst1).
  assert (Hs1 : _sess st1 = Some s) by (subst st1; cbn; congruence).
  split; [|split].
  - exists cs. subst st1. cbn. rewrite Hc0, map_app, app_assoc. reflexivity.
  - intros Hno. unfold export_line_items.
    rewrite (lbind_Ok _ _ _ _ _ Hprefix), lbind_unfold. unfold _export_to_file.
    destruct (split file) as [folder name]. cbn [fst] in *. now rewrite Hno.
  - intros Hyes. unfold export_line_items.
    rewrite (lbind_Ok _ _ _ _ _ Hprefix), lbind_unfold. unfold _export_to_file.
    destruct (split file) as [folder name]. cbn [fst snd] in *. rewrite Hyes.
    cbn [negb].
    rewrite lbind_unfold, (press_key_willing s "F9" 9) by (assumption || reflexivity).
    rewrite lbind_unfold, (select_radio_willing s) by assumption.
    rewrite lbind_unfold, (press_key_willing s "Enter" 0) by (assumption || reflexivity).
    rewrite lbind_unfold, (set_field_willing s) by assumption.
    rewrite lbind_unfold, (set_field_willing s) by assumption.
    rewrite lbind_unfold, (set_field_willing s) by assumption.
    rewrite (press_key_willing s "CtrlS" 11) by (assumption || reflexivity).
    rewrite lbind_unfold, (press_key_willing s "F3" 3) by (assumption || reflexivity).
    rewrite !and_then_app. cbn [app map].
    rewrite lbind_unfold. unfold _read_exported_data.
    destruct (read_text _ file) as [text|e]; [|reflexivity].
    rewrite lbind_unfold. unfold remove_file.
    destruct (remove _ file); try reflexivity.
    unfold and_then. cbn. now rewrite <- app_assoc.
Qed.

Lemma export_line_items_outcome_witness :
  let s := ledger_session "3 items displayed" [] in
  let loaded :=
    and_then (map Screen
                [SendVKey 25; SetText "PA_WLSAK" "GuiCTextField" "WL";
                 SetText "SD_BUKRS-LOW" "GuiCTextField" "1001";
                 SetText "PA_VARI" "GuiCTextField" ""; SelectRadio "X_OPSEL";
                 SetText "SO_BUDAT-LOW" "GuiCTextField" "";
                 SetText "SO_BUDAT-HIGH" "GuiCTextField" "";
                 SendVKey 8; SendVKey 32; SendVKey 42; SendVKey 0]) (bound_to s) in
  select_load_and_lay_out sample_strftime (Worklist "WL") "1001" "open" None None ""
    (bound_to s) = (LOk tt, loaded)
  /\ export_line_items sample_strftime sample_split sample_exists
       (fun _ _ => LOk "data") (fun _ _ => Removed)
       "temp/export.txt" (Worklist "WL") "1001" "open" None None "" (bound_to s)
     = (LOk "data",
        and_then (map Screen
                    [SendVKey 9; SelectRadio "SPOPLI-SELFLAG"; SendVKey 0;
                     SetText "DY_PATH" "GuiCTextField" ("temp" +:+ backslash);
                     SetText "DY_FILENAME" "GuiCTextField" "export.txt";
                     SetText "DY_FILE_ENCODING" "GuiCTextField" "4120";
                     SendVKey 11; SendVKey 3]
                  ++ [RemoveFile "temp/export.txt"]) loaded)
  /\ export_line_items sample_strftime sample_split sample_exists
       (fun _ _ => LOk "data") (fun _ _ => Removed)
       "export.txt" (Worklist "WL") "1001" "open" None None "" (bound_to s)
     = (LRaise (FolderNotFoundError
                  "The export folder not found at the path specified: ''!"), loaded).
Proof.
  intros s loaded.
  assert (Hprefix : select_load_and_lay_out sample_strftime (Worklist "WL") "1001" "open"
                      None None "" (bound_to s) = (LOk tt, loaded))
    by (vm_compute; reflexivity).
  split; [exact Hprefix|]. split.
  - rewrite (proj2 (proj2 (export_line_items_outcome sample_strftime sample_split
                             sample_exists (fun _ _ => LOk "data") (fun _ _ => Removed)
                             "temp/export.txt" (Worklist "WL") "1001" "open" None None ""
                             s (bound_to s) loaded eq_refl (fun _ _ => eq_refl) Hprefix))
               eq_refl).
    vm_compute. reflexivity.
  - rewrite (proj1 (proj2 (export_line_items_outcome sample_strftime sample_split
                             sample_exists (fun _ _ => LOk "data") (fun _ _ => Removed)
                             "export.txt" (Worklist "WL") "1001" "open" None None ""
                             s (bound_to s) loaded eq_refl (fun _ _ => eq_refl) Hprefix))
               eq_refl).
    vm_compute. reflexivity.
Defined.
